(** * Emergency-healthcare RAG: the prediction service and the indexing scripts

    A shallow embedding of [model.py] (the [predict] function), of
    [1_indexing.py] and of [2_chunking_embedding_ingestion.py], together
    with the parts of the Python runtime they rely on: [str] slicing,
    [json.loads], [int(...)], subscripting, and the exception classes their
    [except] clauses name.

    What lies outside the three files is kept abstract: the vector index
    and the generative model behind [predict] (a [Deployment]), the text
    splitter and the embedding model behind the scripts ([Tools]), the
    files under [data/] (a [World]), and the Unicode tables of the
    interpreter (a [PyRuntime]).  Three things are taken for granted:
    [print] succeeds, the interpreter's recursion limit is not reached,
    and the storage location of the index lies outside [data/]. *)

From Stdlib Require Import ZArith NArith List Bool Lia String Ascii.
From stdpp Require Import base list.
Import ListNotations.

Local Open Scope Z_scope.

(** ** Python strings

    A Python [str] is a sequence of Unicode code points; slicing and
    [startswith] count code points, not bytes.  [lit] injects an ASCII
    literal. *)

Definition str : Type := list N.

Definition lit (s : string) : str :=
  map N_of_ascii (list_ascii_of_string s).

Fixpoint str_eqb (a b : str) : bool :=
  match a, b with
  | [], [] => true
  | x :: a', y :: b' => N.eqb x y && str_eqb a' b'
  | _, _ => false
  end.

(** [s.startswith(p)] *)
Fixpoint startswith (s p : str) : bool :=
  match p, s with
  | [], _ => true
  | x :: p', y :: s' => N.eqb x y && startswith s' p'
  | _ :: _, [] => false
  end.

(** [s.endswith(p)] *)
Definition endswith (s p : str) : bool :=
  startswith (rev s) (rev p).

(** Normalisation of one slice bound against a length, as [PySlice_AdjustIndices]
    does for a step of 1: a negative bound counts from the end, and the
    result is clamped to [0 .. len]. *)
Definition adjust_index (len i : Z) : Z :=
  let i' := if i <? 0 then i + len else i in
  if i' <? 0 then 0 else if len <? i' then len else i'.

(** [s[start:stop]] *)
Definition py_slice (s : str) (start stop : Z) : str :=
  let len := Z.of_nat (length s) in
  let a := adjust_index len start in
  let b := adjust_index len stop in
  take (Z.to_nat (b - a)) (drop (Z.to_nat a) s).

(** [sep.join(parts)] *)
Fixpoint join (sep : str) (parts : list str) : str :=
  match parts with
  | [] => []
  | [p] => p
  | p :: rest => p ++ sep ++ join sep rest
  end.

(** ** Exceptions

    The exception classes that can reach one of the handlers of the three
    files, with the part of the class hierarchy the handlers depend on. *)

Inductive exn : Type :=
  | BaseException
  | SystemExit
  | Exception
  | ValueError
  | JSONDecodeError
  | UnicodeDecodeError
  | LookupError
  | KeyError
  | TypeError
  | ArithmeticError
  | OverflowError
  | OSError
  | FileNotFoundError
  | PermissionError
  | NotADirectoryError
  | IsADirectoryError
  | RuntimeError
  | RecursionError
  | ServiceError.

Definition exn_eqb (a b : exn) : bool :=
  match a, b with
  | BaseException, BaseException | SystemExit, SystemExit
  | Exception, Exception | ValueError, ValueError
  | JSONDecodeError, JSONDecodeError
  | UnicodeDecodeError, UnicodeDecodeError
  | LookupError, LookupError | KeyError, KeyError
  | TypeError, TypeError | ArithmeticError, ArithmeticError
  | OverflowError, OverflowError | OSError, OSError
  | FileNotFoundError, FileNotFoundError
  | PermissionError, PermissionError
  | NotADirectoryError, NotADirectoryError
  | IsADirectoryError, IsADirectoryError
  | RuntimeError, RuntimeError
  | RecursionError, RecursionError
  | ServiceError, ServiceError => true
  | _, _ => false
  end.

(** The direct base class ([BaseException] is the root). [ServiceError]
    stands for whatever [Exception] subclass a client library of an
    external service raises. *)
Definition base_class (e : exn) : exn :=
  match e with
  | BaseException => BaseException
  | SystemExit => BaseException
  | Exception => BaseException
  | ValueError => Exception
  | JSONDecodeError => ValueError
  | UnicodeDecodeError => ValueError
  | LookupError => Exception
  | KeyError => LookupError
  | TypeError => Exception
  | ArithmeticError => Exception
  | OverflowError => ArithmeticError
  | OSError => Exception
  | FileNotFoundError => OSError
  | PermissionError => OSError
  | NotADirectoryError => OSError
  | IsADirectoryError => OSError
  | RuntimeError => Exception
  | RecursionError => RuntimeError
  | ServiceError => Exception
  end.

(** [isinstance(e, c)]: the hierarchy above has depth 3. *)
Definition isinstance (e c : exn) : bool :=
  exn_eqb e c
  || exn_eqb (base_class e) c
  || exn_eqb (base_class (base_class e)) c
  || exn_eqb (base_class (base_class (base_class e))) c.

(** [except (c1, c2, ...)] *)
Definition caught_by (classes : list exn) (e : exn) : bool :=
  existsb (isinstance e) classes.

Inductive result (A : Type) : Type :=
  | Ok (a : A)
  | Raise (e : exn).
Arguments Ok {A} a.
Arguments Raise {A} e.

Global Instance result_ret : MRet result := fun _ a => Ok a.
Global Instance result_bind : MBind result := fun _ _ k r =>
  match r with
  | Ok a => k a
  | Raise e => Raise e
  end.

(** ** The interpreter's tables and limits

    What [int(...)] needs from the running interpreter and cannot be read
    off the three files: the Unicode database above the ASCII range, and
    the limit on the number of digits of an integer literal
    ([sys.get_int_max_str_digits()], where [0%nat] means no limit). *)

Class PyRuntime : Type := {
  unicode_isspace : N -> bool;
  unicode_todecimal : N -> option N;
  int_max_str_digits : nat
}.

(** CPython's defaults, with a Unicode database that knows no white space
    and no decimal digit outside ASCII. *)
Definition ascii_runtime : PyRuntime := {|
  unicode_isspace := fun _ => false;
  unicode_todecimal := fun _ => None;
  int_max_str_digits := 4300
|}.

(** ** Floats

    A binary64 value: [FFinite m e] is [m * 2^e]; signed zeros are not
    told apart (nothing below depends on the sign of a zero). *)

Inductive pyfloat : Type :=
  | FFinite (m e : Z)
  | FInf (negative : bool)
  | FNan.

(** [float(text)] for a decimal literal [(-1)^neg * digits * 10^exp10],
    rounded to the nearest binary64, ties to even. *)
Definition float_of_decimal (neg : bool) (digits exp10 : Z) : pyfloat :=
  if digits <=? 0 then FFinite 0 0 else
  let p := digits * 10 ^ Z.max exp10 0 in
  let q := 10 ^ Z.max (- exp10) 0 in
  (* e = floor (log2 (p / q)) *)
  let e0 := Z.log2 p - Z.log2 q in
  let below := if 0 <=? e0 then p <? q * 2 ^ e0 else p * 2 ^ (- e0) <? q in
  let e := if below then e0 - 1 else e0 in
  if 1024 <=? e then FInf neg else
  let t := Z.max (e - 52) (-1074) in
  (* p / (q * 2^t) as num / den *)
  let num := if 0 <=? t then p else p * 2 ^ (- t) in
  let den := if 0 <=? t then q * 2 ^ t else q in
  let m0 := num / den in
  let r := num mod den in
  let m :=
    if 2 * r <? den then m0
    else if den <? 2 * r then m0 + 1
    else if Z.even m0 then m0 else m0 + 1 in
  if 2 ^ 1024 <=? (if 0 <=? t then m * 2 ^ t else 0) then FInf neg
  else FFinite (if neg then - m else m) t.

(** ** JSON values as Python objects

    What [json.loads] returns.  A [dict] is kept as an association list in
    insertion order with distinct keys. *)

#[warnings="-register-all"]
Inductive value : Type :=
  | VNone
  | VBool (b : bool)
  | VInt (z : Z)
  | VFloat (f : pyfloat)
  | VStr (s : str)
  | VList (items : list value)
  | VDict (members : list (str * value)).

Fixpoint dict_get (d : list (str * value)) (k : str) : option value :=
  match d with
  | [] => None
  | (k', v) :: d' => if str_eqb k' k then Some v else dict_get d' k
  end.

(** [d[k] = v] *)
Fixpoint dict_set (d : list (str * value)) (k : str) (v : value)
  : list (str * value) :=
  match d with
  | [] => [(k, v)]
  | (k', v') :: d' =>
      if str_eqb k' k then (k', v) :: d' else (k', v') :: dict_set d' k v
  end.

(** ** [json.loads]

    The decoder of CPython's [json] package with its default settings
    (strict strings, [NaN] and the infinities accepted), as the accelerated
    scanner implements it.  Every syntax error is a [JSONDecodeError]; the
    position and the message it carries are not modelled. *)

Definition is_ws (c : N) : bool :=
  (c =? 32)%N || (c =? 9)%N || (c =? 10)%N || (c =? 13)%N.

Fixpoint skip_ws (s : str) : str :=
  match s with
  | c :: s' => if is_ws c then skip_ws s' else s
  | [] => []
  end.

Definition is_digit (c : N) : bool := (48 <=? c)%N && (c <=? 57)%N.

Definition digit_val (c : N) : Z := Z.of_N c - 48.

(** Longest prefix of ASCII digits, and what follows it. *)
Fixpoint span_digits (s : str) : str * str :=
  match s with
  | c :: s' =>
      if is_digit c then let '(ds, r) := span_digits s' in (c :: ds, r)
      else ([], s)
  | [] => ([], [])
  end.

(** The number written by a sequence of ASCII digits. *)
Definition decimal_value (ds : str) : Z :=
  fold_left (fun acc c => 10 * acc + digit_val c) ds 0.

Definition hex_val (c : N) : option N :=
  if is_digit c then Some (c - 48)%N
  else if (97 <=? c)%N && (c <=? 102)%N then Some (c - 87)%N
  else if (65 <=? c)%N && (c <=? 70)%N then Some (c - 55)%N
  else None.

Definition hex4 (a b c d : N) : option N :=
  match hex_val a, hex_val b, hex_val c, hex_val d with
  | Some x, Some y, Some z, Some w =>
      Some (((x * 16 + y) * 16 + z) * 16 + w)%N
  | _, _, _, _ => None
  end.

Definition is_high_surrogate (c : N) : bool :=
  (55296 <=? c)%N && (c <=? 56319)%N.
Definition is_low_surrogate (c : N) : bool :=
  (56320 <=? c)%N && (c <=? 57343)%N.
Definition join_surrogates (hi lo : N) : N :=
  (65536 + ((hi - 55296) * 1024 + (lo - 56320)))%N.

(** The character a one-letter escape stands for. *)
Definition simple_escape (c : N) : option N :=
  if (c =? 34)%N then Some 34%N          (* quote *)
  else if (c =? 92)%N then Some 92%N     (* backslash *)
  else if (c =? 47)%N then Some 47%N     (* slash *)
  else if (c =? 98)%N then Some 8%N      (* b: backspace *)
  else if (c =? 102)%N then Some 12%N    (* f: form feed *)
  else if (c =? 110)%N then Some 10%N    (* n: line feed *)
  else if (c =? 114)%N then Some 13%N    (* r: carriage return *)
  else if (c =? 116)%N then Some 9%N     (* t: tab *)
  else None.

(** [scanstring]: the text after an opening quote, up to and including
    the closing quote; [acc] holds the decoded characters in reverse. *)
Fixpoint scanstring (s : str) (acc : str) : option (str * str) :=
  match s with
  | [] => None
  | c :: t =>
      if (c =? 34)%N then Some (rev acc, t)
      else if (c =? 92)%N then
        match t with
        | [] => None
        | e :: t1 =>
            if (e =? 117)%N then
              match t1 with
              | h1 :: h2 :: h3 :: h4 :: t2 =>
                  match hex4 h1 h2 h3 h4 with
                  | None => None
                  | Some u =>
                      match t2 with
                      | b :: v :: g1 :: g2 :: g3 :: g4 :: t3 =>
                          if is_high_surrogate u && (b =? 92)%N && (v =? 117)%N
                          then
                            match hex4 g1 g2 g3 g4 with
                            | None => None
                            | Some u2 =>
                                if is_low_surrogate u2
                                then scanstring t3 (join_surrogates u u2 :: acc)
                                else scanstring t2 (u :: acc)
                            end
                          else scanstring t2 (u :: acc)
                      | _ => scanstring t2 (u :: acc)
                      end
                  end
              | _ => None
              end
            else
              match simple_escape e with
              | Some ch => scanstring t1 (ch :: acc)
              | None => None
              end
        end
      else if (c <? 32)%N then None
      else scanstring t (c :: acc)
  end.

(** A number literal as the scanner splits it:
    [-? int (. frac)? ([eE] [-+]? exp)?]. *)
Record number_literal : Type := {
  num_neg : bool;
  num_int : str;
  num_frac : option str;
  num_exp : option (bool * str)
}.

(** [_match_number]: [None] when no number starts here. *)
Definition match_number (s : str) : option (number_literal * str) :=
  let '(neg, s1) :=
    match s with
    | c :: t => if (c =? 45)%N then (true, t) else (false, s)
    | [] => (false, s)
    end in
  let int_part :=
    match s1 with
    | c :: t =>
        if (c =? 48)%N then Some ([c], t)
        else if is_digit c then
          let '(ds, r) := span_digits t in Some (c :: ds, r)
        else None
    | [] => None
    end in
  match int_part with
  | None => None
  | Some (ints, s2) =>
      let '(frac, s3) :=
        match s2 with
        | dot :: d :: _ =>
            if (dot =? 46)%N && is_digit d
            then let '(fs, r) := span_digits (tl s2) in (Some fs, r)
            else (None, s2)
        | _ => (None, s2)
        end in
      let '(ex, s4) :=
        match s3 with
        | e :: t =>
            if (e =? 101)%N || (e =? 69)%N then
              let '(eneg, t1) :=
                match t with
                | sg :: t' =>
                    if (sg =? 45)%N then (true, t')
                    else if (sg =? 43)%N then (false, t')
                    else (false, t)
                | [] => (false, t)
                end in
              let '(es, r) := span_digits t1 in
              match es with
              | [] => (None, s3)
              | _ :: _ => (Some (eneg, es), r)
              end
            else (None, s3)
        | [] => (None, s3)
        end in
      Some ({| num_neg := neg; num_int := ints;
               num_frac := frac; num_exp := ex |}, s4)
  end.

Section Runtime.
Context {rt : PyRuntime}.

(** The check [int] makes on the number of digits it is given: texts of
    at most 640 digits are never refused. *)
Definition exceeds_digit_limit (ndigits : nat) : bool :=
  Nat.ltb 640 ndigits
  && match int_max_str_digits with
     | O => false
     | S _ => Nat.ltb int_max_str_digits ndigits
     end.

(** The Python object a number literal denotes: a [float] when it has a
    fraction or an exponent, an [int] otherwise. *)
Definition number_value (n : number_literal) : result value :=
  match num_frac n, num_exp n with
  | None, None =>
      if exceeds_digit_limit (length (num_int n)) then Raise ValueError
      else
        let z := decimal_value (num_int n) in
        Ok (VInt (if num_neg n then - z else z))
  | _, _ =>
      let fs := default [] (num_frac n) in
      let ex :=
        match num_exp n with
        | Some (eneg, es) =>
            if eneg then - decimal_value es else decimal_value es
        | None => 0
        end in
      Ok (VFloat (float_of_decimal (num_neg n)
                    (decimal_value (num_int n ++ fs))
                    (ex - Z.of_nat (length fs))))
  end.

Inductive scan (A : Type) : Type :=
  | Scanned (a : A) (rest : str)
  | Failed (e : exn)
  | OutOfFuel.
Arguments Scanned {A} a rest.
Arguments Failed {A} e.
Arguments OutOfFuel {A}.

(** [scan_once], with [JSONArray] and [JSONObject]: the value that starts
    at the head of [s], and the text after it. *)
Fixpoint scan_once (fuel : nat) (s : str) {struct fuel} : scan value :=
  match fuel with
  | O => OutOfFuel
  | S fuel' =>
      match s with
      | [] => Failed JSONDecodeError
      | c :: t =>
          if (c =? 34)%N then
            match scanstring t [] with
            | Some (text, rest) => Scanned (VStr text) rest
            | None => Failed JSONDecodeError
            end
          else if (c =? 123)%N then
            match skip_ws t with
            | c' :: t' =>
                if (c' =? 125)%N then Scanned (VDict []) t'
                else scan_members fuel' (c' :: t') []
            | [] => Failed JSONDecodeError
            end
          else if (c =? 91)%N then
            match skip_ws t with
            | c' :: t' =>
                if (c' =? 93)%N then Scanned (VList []) t'
                else scan_items fuel' (c' :: t') []
            | [] => Failed JSONDecodeError
            end
          else if startswith s (lit "null") then Scanned VNone (drop 4 s)
          else if startswith s (lit "true") then
            Scanned (VBool true) (drop 4 s)
          else if startswith s (lit "false") then
            Scanned (VBool false) (drop 5 s)
          else
            match match_number s with
            | Some (n, rest) =>
                match number_value n with
                | Ok v => Scanned v rest
                | Raise e => Failed e
                end
            | None =>
                if startswith s (lit "NaN") then
                  Scanned (VFloat FNan) (drop 3 s)
                else if startswith s (lit "Infinity") then
                  Scanned (VFloat (FInf false)) (drop 8 s)
                else if startswith s (lit "-Infinity") then
                  Scanned (VFloat (FInf true)) (drop 9 s)
                else Failed JSONDecodeError
            end
      end
  end

(** The items of an array, from the first character of an item on;
    [acc] holds the items read so far, in reverse. *)
with scan_items (fuel : nat) (s : str) (acc : list value) {struct fuel}
  : scan value :=
  match fuel with
  | O => OutOfFuel
  | S fuel' =>
      match scan_once fuel' s with
      | Scanned v rest =>
          match skip_ws rest with
          | c :: t =>
              if (c =? 93)%N then Scanned (VList (rev (v :: acc))) t
              else if (c =? 44)%N then
                scan_items fuel' (skip_ws t) (v :: acc)
              else Failed JSONDecodeError
          | [] => Failed JSONDecodeError
          end
      | Failed e => Failed e
      | OutOfFuel => OutOfFuel
      end
  end

(** The members of an object, from the opening quote of a key on;
    [acc] is the [dict] built so far. *)
with scan_members (fuel : nat) (s : str) (acc : list (str * value))
  {struct fuel} : scan value :=
  match fuel with
  | O => OutOfFuel
  | S fuel' =>
      match s with
      | q :: t =>
          if (q =? 34)%N then
            match scanstring t [] with
            | Some (key, rest) =>
                match skip_ws rest with
                | colon :: t1 =>
                    if (colon =? 58)%N then
                      match scan_once fuel' (skip_ws t1) with
                      | Scanned v rest1 =>
                          let acc' := dict_set acc key v in
                          match skip_ws rest1 with
                          | c :: t2 =>
                              if (c =? 125)%N then Scanned (VDict acc') t2
                              else if (c =? 44)%N then
                                scan_members fuel' (skip_ws t2) acc'
                              else Failed JSONDecodeError
                          | [] => Failed JSONDecodeError
                          end
                      | Failed e => Failed e
                      | OutOfFuel => OutOfFuel
                      end
                    else Failed JSONDecodeError
                | [] => Failed JSONDecodeError
                end
            | None => Failed JSONDecodeError
            end
          else Failed JSONDecodeError
      | [] => Failed JSONDecodeError
      end
  end.

(** [json.loads(s)] for a [str].  The scanner uses at most one unit of
    fuel per character read and one per container opened, so
    [2 * len(s) + 1] is never exhausted ([scan_once_fuel] below); the
    interpreter's own recursion limit is not modelled. *)
Definition json_loads (s : str) : result value :=
  if startswith s [65279%N] then Raise JSONDecodeError
  else
    match scan_once (2 * length s + 1) (skip_ws s) with
    | Scanned v rest =>
        match skip_ws rest with
        | [] => Ok v
        | _ :: _ => Raise JSONDecodeError
        end
    | Failed e => Raise e
    | OutOfFuel => Raise RecursionError
    end.

(** ** [int(x)] *)

(** What [int] does to a [str] before reading it: outside ASCII, white
    space becomes a blank and a decimal digit its ASCII digit; any other
    character makes the text unreadable. *)
Definition to_ascii_decimal (s : str) : option str :=
  if forallb (fun c => (c <? 128)%N) s then Some s
  else
    mapM (fun c =>
            if (c <? 127)%N then Some c
            else if unicode_isspace c then Some 32%N
            else (fun d => (48 + d)%N) <$> unicode_todecimal c) s.

Definition is_ascii_space (c : N) : bool :=
  (c =? 32)%N || ((9 <=? c)%N && (c <=? 13)%N).

Fixpoint lstrip_ascii (s : str) : str :=
  match s with
  | c :: s' => if is_ascii_space c then lstrip_ascii s' else s
  | [] => []
  end.

(** Digits with single underscores between them; [prev_us] tells whether
    the previous character was an underscore, [acc] holds the digits read
    so far in reverse.  [None] on a doubled or trailing underscore. *)
Fixpoint scan_int_digits (s : str) (prev_us : bool) (acc : str)
  : option (str * str) :=
  match s with
  | c :: s' =>
      if is_digit c then scan_int_digits s' false (c :: acc)
      else if (c =? 95)%N then
        if prev_us then None else scan_int_digits s' true acc
      else if prev_us then None else Some (rev acc, s)
  | [] => if prev_us then None else Some (rev acc, [])
  end.

(** [int(s)] for a [str], base 10. *)
Definition int_of_str (s : str) : result Z :=
  match to_ascii_decimal s with
  | None => Raise ValueError
  | Some a =>
      let a1 := lstrip_ascii a in
      let '(neg, a2) :=
        match a1 with
        | c :: t =>
            if (c =? 43)%N then (false, t)
            else if (c =? 45)%N then (true, t)
            else (false, a1)
        | [] => (false, a1)
        end in
      if startswith a2 [95%N] then Raise ValueError
      else
        match scan_int_digits a2 false [] with
        | None => Raise ValueError
        | Some ([], _) => Raise ValueError
        | Some (ds, rest) =>
            if exceeds_digit_limit (length ds) then Raise ValueError
            else
              match lstrip_ascii rest with
              | [] =>
                  let z := decimal_value ds in
                  Ok (if neg then - z else z)
              | _ :: _ => Raise ValueError
              end
        end
  end.

(** [int(f)] for a [float]: truncation towards zero. *)
Definition int_of_float (f : pyfloat) : result Z :=
  match f with
  | FFinite m e =>
      Ok (if 0 <=? e then m * 2 ^ e else Z.quot m (2 ^ (- e)))
  | FInf _ => Raise OverflowError
  | FNan => Raise ValueError
  end.

(** [int(v)] *)
Definition py_int (v : value) : result Z :=
  match v with
  | VInt z => Ok z
  | VBool b => Ok (if b then 1 else 0)
  | VFloat f => int_of_float f
  | VStr s => int_of_str s
  | VNone | VList _ | VDict _ => Raise TypeError
  end.

End Runtime.

Arguments Scanned {A} a rest.
Arguments Failed {A} e.
Arguments OutOfFuel {A}.

(** ** Subscripting and membership *)

(** [v[key]] for a [str] key: only a [dict] can be indexed by a [str]. *)
Definition py_getitem (v : value) (key : str) : result value :=
  match v with
  | VDict d =>
      match dict_get d key with
      | Some x => Ok x
      | None => Raise KeyError
      end
  | _ => Raise TypeError
  end.

(** [needle in hay] for two [str]: substring search. *)
Fixpoint str_contains (hay needle : str) : bool :=
  startswith hay needle
  || match hay with
     | [] => false
     | _ :: hay' => str_contains hay' needle
     end.

(** [key in v] for a [str] key. *)
Definition py_contains (v : value) (key : str) : result bool :=
  match v with
  | VDict d => Ok (match dict_get d key with Some _ => true | None => false end)
  | VList items =>
      Ok (existsb (fun x => match x with
                            | VStr s => str_eqb s key
                            | _ => false
                            end) items)
  | VStr s => Ok (str_contains s key)
  | _ => Raise TypeError
  end.

(** ** Console output

    A printed line is kept as the fragments of its f-string: literal text,
    an interpolated string, the decimal rendering of a count, or the
    message of an exception ([str(e)], whose wording is left to the
    interpreter and its libraries). *)

Inductive fragment : Type :=
  | Text (s : str)
  | Num (n : nat)
  | ExnText (e : exn).

Definition line : Type := list fragment.

Definition dq : str := [34%N].
Definition nl : str := [10%N].

(** ** Documents and the vector index *)

Record Metadata : Type := {
  source_file : str;
  topic_name : str;
  topic_id : value
}.

Record Document : Type := {
  page_content : str;
  metadata : Metadata
}.

Inductive search_type : Type :=
  | Similarity
  | SimilarityScoreThreshold
  | MMR.

(** The keyword arguments of a search. *)
Record search_kwargs : Type := {
  k : nat;
  fetch_k : nat
}.

(** ** [model.py] *)

Module Model.

(** What the module builds once, when it is imported: the client of the
    generative model, the handle on the vector index, and the rendered
    topic list.  Both clients can fail. *)
Record Deployment : Type := {
  vector_store : search_type -> search_kwargs -> str
                 -> result (list Document);
  llm : str -> result str;
  topics_list_str : str
}.

(** The calls [predict] makes on the outside world, in order. *)
Inductive effect : Type :=
  | Retrieve (st : search_type) (kw : search_kwargs) (query : str)
  | Generate (prompt : str)
  | Stdout (l : line).

(** One run of [predict]: what it did, and how it ended. *)
Record run : Type := {
  effects : list effect;
  outcome : result (Z * Z)
}.

(** [prompt_template.format(context=..., statement=..., topics_list=...)] *)
Definition format_prompt (context statement topics_list : str) : str :=
  lit "You are a meticulous medical expert system. Your task is to evaluate a given medical statement." ++ nl
  ++ lit "    **You must base your answer EXCLUSIVELY on the provided "
  ++ dq ++ lit "Reference Text" ++ dq
  ++ lit ". Ignore any of your own prior knowledge.**" ++ nl
  ++ lit "    " ++ nl
  ++ lit "    Your task has two parts:" ++ nl
  ++ lit "    1.  Determine if the statement is TRUE or FALSE according to the text." ++ nl
  ++ lit "    2.  Identify the primary medical topic of the statement from the "
  ++ dq ++ lit "List of Possible Topics" ++ dq
  ++ lit ", choosing the one that is the most direct match." ++ nl
  ++ lit "    " ++ nl
  ++ lit "    **Reference Text:**" ++ nl
  ++ lit "    ---" ++ nl
  ++ lit "    " ++ context ++ nl
  ++ lit "    ---" ++ nl
  ++ lit "    " ++ nl
  ++ lit "    **Medical Statement to Evaluate:**" ++ nl
  ++ lit "    ---" ++ nl
  ++ lit "    " ++ dq ++ statement ++ dq ++ nl
  ++ lit "    ---" ++ nl
  ++ lit "    " ++ nl
  ++ lit "    **List of Possible Topics:**" ++ nl
  ++ lit "    ---" ++ nl
  ++ lit "    " ++ topics_list ++ nl
  ++ lit "    ---" ++ nl
  ++ lit "    " ++ nl
  ++ lit "    Provide your answer in a single, valid JSON object. Do not add any other text, comments, or explanations." ++ nl
  ++ lit "    " ++ nl
  ++ lit "    {" ++ nl
  ++ lit "        " ++ dq ++ lit "statement_is_true" ++ dq
  ++ lit ": <1 for TRUE, 0 for FALSE>," ++ nl
  ++ lit "        " ++ dq ++ lit "statement_topic" ++ dq
  ++ lit ": <the integer ID of the most relevant topic>" ++ nl
  ++ lit "    }" ++ nl
  ++ lit "    ".

(** The marker a fenced answer starts with. *)
Definition json_fence : str := lit "```json".

(** The classes named by the [except] clause. *)
Definition handled : list exn := [JSONDecodeError; KeyError; TypeError].

Section WithRuntime.
Context {rt : PyRuntime}.

(** The first statement of the [try] block: the text that is handed
    to [json.loads]. *)
Definition strip_fence (response_str : str) : str :=
  if startswith response_str json_fence
  then py_slice response_str 7 (-4)
  else response_str.

(** The rest of the [try] block, on the text to decode. *)
Definition decode_answer (response_str : str) : result (Z * Z) :=
  result_json ← json_loads response_str;
  is_true ← py_getitem result_json (lit "statement_is_true");
  statement_is_true ← py_int is_true;
  topic ← py_getitem result_json (lit "statement_topic");
  statement_topic ← py_int topic;
  Ok (statement_is_true, statement_topic).

(** How the [try] block ends on the text [response_str] it decoded: with
    the verdict, through the handler, or with an exception the handler
    does not name. *)
Definition conclude (response_str : str) (r : result (Z * Z)) : run :=
  match r with
  | Ok verdict => {| effects := []; outcome := Ok verdict |}
  | Raise e =>
      if caught_by handled e then
        {| effects :=
             [Stdout [Text (lit "Failed to parse LLM output. Error: ");
                      ExnText e];
              Stdout [Text (lit "Raw LLM output: "); Text response_str]];
           outcome := Ok (0, 0) |}
      else {| effects := []; outcome := Raise e |}
  end.

(** Step 4 of [predict]: the [try] block and its handler, on the raw
    answer of the model. *)
Definition parse_step (response_str : str) : run :=
  let response_str := strip_fence response_str in
  conclude response_str (decode_answer response_str).

(** [predict(statement)] *)
Definition predict (d : Deployment) (statement : str) : run :=
  let kw := {| k := 5; fetch_k := 20 |} in
  match vector_store d MMR kw statement with
  | Raise e =>
      {| effects := [Retrieve MMR kw statement]; outcome := Raise e |}
  | Ok retrieved_docs =>
      let context := join (nl ++ nl) (map page_content retrieved_docs) in
      let final_prompt :=
        format_prompt context statement (topics_list_str d) in
      match llm d final_prompt with
      | Raise e =>
          {| effects := [Retrieve MMR kw statement; Generate final_prompt];
             outcome := Raise e |}
      | Ok response_str =>
          let r := parse_step response_str in
          {| effects := Retrieve MMR kw statement
                        :: Generate final_prompt :: effects r;
             outcome := outcome r |}
      end
  end.

End WithRuntime.

End Model.

(** ** The indexing scripts *)

Module Indexing.

(** The three settings the scripts read from the environment (the model
    covers the runs in which all three are defined). *)
Record Config : Type := {
  DB_LOCATION : str;
  COLLECTION_NAME : str;
  EMBEDDING_MODEL : str
}.

Definition TOPICS_JSON_PATH : str := lit "data/topics.json".
Definition TOPICS_BASE_PATH : str := lit "data/topics/".

(** One record of the persisted index. *)
Record IndexEntry : Type := {
  entry_text : str;
  entry_embedding : list pyfloat;
  entry_metadata : Metadata
}.

(** What can sit at the storage location: a plain file, or a directory
    holding collections by name. *)
Inductive node : Type :=
  | RegularFile
  | Directory (collections : list (str * list IndexEntry)).

(** The part of the file system the scripts only read (the storage
    location is taken to lie outside [data/]), by path. *)
Record World : Type := {
  fs_read : str -> result str;
  fs_listdir : str -> result (list str);
  fs_isdir : str -> bool
}.

(** The two external tools: the text splitter (built with
    [chunk_size=1000, chunk_overlap=200]) and the embedding model.  A tool
    returns, or fails ([None]) with some exception deriving from
    [Exception]. *)
Record Tools : Type := {
  split_text : str -> option (list str);
  embed_documents : list str -> option (list (list pyfloat))
}.

Inductive effect : Type :=
  | Stdout (l : line)
  | PathExists (path : str)
  | RmTree (path : str)
  | OpenRead (path : str)
  | ListDir (path : str)
  | IsDir (path : str)
  | FromDocuments (docs : list Document).

(** The state of a running script: the storage location, what the script
    has done so far, and its two global accumulators. *)
Record state : Type := {
  storage : option node;
  effects : list effect;
  all_docs : list Document;
  processed_topics_count : nat
}.

Definition M (A : Type) : Type := state -> state * result A.

Definition ret {A} (a : A) : M A := fun s => (s, Ok a).
#[global] Instance M_bind : MBind M := fun _ _ k m s =>
  match m s with
  | (s', Ok a) => k a s'
  | (s', Raise e) => (s', Raise e)
  end.

Definition raise {A} (e : exn) : M A := fun s => (s, Raise e).

Definition lift {A} (r : result A) : M A := fun s => (s, r).

(** The answer of an external tool. *)
Definition call_tool {A} (o : option A) : M A :=
  match o with
  | Some a => ret a
  | None => raise ServiceError
  end.

Definition emit (e : effect) : M unit := fun s =>
  ({| storage := storage s; effects := effects s ++ [e];
      all_docs := all_docs s;
      processed_topics_count := processed_topics_count s |}, Ok tt).

Definition print (l : line) : M unit := emit (Stdout l).

(** [try: m except classes as e: handler(e)] *)
Definition try_except {A} (m : M A) (classes : list exn)
    (handler : exn -> M A) : M A := fun s =>
  match m s with
  | (s', Raise e) =>
      if caught_by classes e then handler e s' else (s', Raise e)
  | r => r
  end.

(** [for x in l: body(x)] *)
Fixpoint for_each {A} (l : list A) (body : A -> M unit) : M unit :=
  match l with
  | [] => ret tt
  | x :: l' => body x ;; for_each l' body
  end.

(** [[x for x in l if keep(x)]] *)
Fixpoint filter_by {A} (keep : A -> M bool) (l : list A) : M (list A) :=
  match l with
  | [] => ret []
  | x :: l' =>
      b ← keep x;
      rest ← filter_by keep l';
      ret (if (b : bool) then x :: rest else rest)
  end.

(** [exit()] *)
Definition exit {A} : M A := raise SystemExit.

(** [os.path.join(a, b)] for a relative [b] and a non-empty [a], with
    the POSIX separator. *)
Definition path_join (a b : str) : str :=
  if endswith a (lit "/") then a ++ b else a ++ lit "/" ++ b.

Definition set_storage (n : option node) : M unit := fun s =>
  ({| storage := n; effects := effects s; all_docs := all_docs s;
      processed_topics_count := processed_topics_count s |}, Ok tt).

Definition get_storage : M (option node) := fun s => (s, Ok (storage s)).

Definition get_all_docs : M (list Document) := fun s => (s, Ok (all_docs s)).

Definition get_count : M nat := fun s => (s, Ok (processed_topics_count s)).

(** [all_docs.append(doc)] *)
Definition append_doc (doc : Document) : M unit := fun s =>
  ({| storage := storage s; effects := effects s;
      all_docs := all_docs s ++ [doc];
      processed_topics_count := processed_topics_count s |}, Ok tt).

(** [processed_topics_count += 1] *)
Definition incr_count : M unit := fun s =>
  ({| storage := storage s; effects := effects s; all_docs := all_docs s;
      processed_topics_count := S (processed_topics_count s) |}, Ok tt).

(** [all_docs = []; processed_topics_count = 0] *)
Definition reset_accumulators : M unit := fun s =>
  ({| storage := storage s; effects := effects s; all_docs := [];
      processed_topics_count := O |}, Ok tt).

Section Scripts.
Context {rt : PyRuntime}.
Variable cfg : Config.
Variable tools : Tools.
Variable w : World.

(** [os.path.exists(DB_LOCATION)] *)
Definition db_exists : M bool :=
  emit (PathExists (DB_LOCATION cfg));;
  n ← get_storage;
  ret (match n with Some _ => true | None => false end).

(** [shutil.rmtree(DB_LOCATION)] *)
Definition rmtree : M unit :=
  emit (RmTree (DB_LOCATION cfg));;
  n ← get_storage;
  match n with
  | Some (Directory _) => set_storage None
  | Some RegularFile => raise NotADirectoryError
  | None => raise FileNotFoundError
  end.

(** [with open(path, 'r', encoding='utf-8') as f: f.read()] *)
Definition read_text (path : str) : M str :=
  emit (OpenRead path);; lift (fs_read w path).

Definition listdir (path : str) : M (list str) :=
  emit (ListDir path);; lift (fs_listdir w path).

Definition isdir (path : str) : M bool :=
  emit (IsDir path);; ret (fs_isdir w path).

(** [Chroma.from_documents(documents, embedding, collection_name,
    persist_directory)]: the collection is opened (and created when it
    is missing) at the storage location, the texts are embedded, and
    one record per document is added to it. *)
Definition add_to_collection (entries : list IndexEntry)
    (cols : list (str * list IndexEntry)) : list (str * list IndexEntry) :=
  let name := COLLECTION_NAME cfg in
  if existsb (fun c => str_eqb (fst c) name) cols
  then map (fun c => if str_eqb (fst c) name
                     then (fst c, snd c ++ entries) else c) cols
  else cols ++ [(name, entries)].

Definition from_documents (docs : list Document) : M unit :=
  emit (FromDocuments docs);;
  n ← get_storage;
  match n with
  | Some RegularFile => raise NotADirectoryError
  | _ =>
      let cols := match n with
                  | Some (Directory cols) => cols
                  | _ => []
                  end in
      set_storage (Some (Directory (add_to_collection [] cols)));;
      vectors ← call_tool (embed_documents tools (map page_content docs));
      let entries :=
        zip_with (fun d v => {| entry_text := page_content d;
                                entry_embedding := v;
                                entry_metadata := metadata d |})
                 docs vectors in
      set_storage (Some (Directory (add_to_collection entries cols)))
  end.

End Scripts.

(** [Document(page_content=chunk, metadata={...})] *)
Definition make_doc (chunk md_file folder_name : str) (tid : value)
  : Document :=
  {| page_content := chunk;
     metadata := {| source_file := md_file;
                    topic_name := folder_name;
                    topic_id := tid |} |}.

Definition rocket : str := [0x1F680%N].
Definition broom : str := [0x1F9F9%N].
Definition books : str := [0x1F4DA%N].
Definition cross_mark : str := [0x274C%N].
Definition file_folder : str := [0x1F4C1%N].
Definition yellow_circle : str := [0x1F7E1%N].
Definition warning_sign : str := [0x26A0%N; 0xFE0F%N].
Definition check_mark : str := [0x2705%N].
Definition floppy_disk : str := [0x1F4BE%N].
Definition sparkles : str := [0x2728%N].

(** *** [1_indexing.py] *)

Module Script1.
Section Script.
Context {rt : PyRuntime}.
Variable cfg : Config.
Variable tools : Tools.
Variable w : World.

(** Section 3 of the script: clean up the old database. *)
Definition clean_up : M unit :=
  present ← db_exists cfg;
  if (present : bool) then
    print [Text (broom ++ lit " Removing old database at ");
           Text (DB_LOCATION cfg)];;
    rmtree cfg
  else ret tt.

(** Section 4: load [topics.json]. *)
Definition load_topics : M value :=
  print [Text (books ++ lit " Loading topic map from '");
         Text TOPICS_JSON_PATH; Text (lit "'...")];;
  try_except
    (content ← read_text w TOPICS_JSON_PATH;
     lift (json_loads content))
    [FileNotFoundError]
    (fun _ =>
       print [Text (cross_mark ++ lit " ERROR: Could not find topics map at ");
              Text TOPICS_JSON_PATH];;
       exit).

(** The body of the [try] block for one markdown file. *)
Definition index_file (folder_name md_file file_path : str)
    (tid : value) : M unit :=
  content ← read_text w file_path;
  chunks ← call_tool (split_text tools content);
  for_each chunks (fun chunk =>
    append_doc (make_doc chunk md_file folder_name tid)).

(** The body of the loop over the topic folders. *)
Definition process_folder (topic_map : value) (folder_name : str)
  : M unit :=
  known ← lift (py_contains topic_map folder_name);
  if (known : bool) then
    tid ← lift (py_getitem topic_map folder_name);
    let topic_folder_path := path_join TOPICS_BASE_PATH folder_name in
    incr_count;;
    names ← listdir w topic_folder_path;
    let md_files_in_folder :=
      List.filter (fun f => endswith f (lit ".md")) names in
    match md_files_in_folder with
    | [] =>
        print [Text (lit "  - " ++ yellow_circle
                     ++ lit " NOTE: No .md files found in folder '");
               Text folder_name; Text (lit "'")]
    | _ :: _ =>
        for_each md_files_in_folder (fun md_file =>
          let file_path := path_join topic_folder_path md_file in
          try_except
            (index_file folder_name md_file file_path tid)
            [Exception]
            (fun e =>
               print [Text (lit "  - " ++ cross_mark
                            ++ lit " ERROR processing file '");
                      Text file_path; Text (lit "': "); ExnText e]))
    end
  else
    print [Text (lit "  - " ++ warning_sign ++ lit " WARNING: Folder '");
           Text folder_name;
           Text (lit "' found on disk but not in topics.json. Skipping.")].

(** Section 5: process each topic folder. *)
Definition process_folders (topic_map : value) : M unit :=
  print [Text (file_folder
               ++ lit " Processing each topic folder and all .md files within...")];;
  reset_accumulators;;
  entries ← listdir w TOPICS_BASE_PATH;
  topic_folders ←
    filter_by (fun d => isdir w (path_join TOPICS_BASE_PATH d)) entries;
  for_each topic_folders (process_folder topic_map).

(** Section 6: the final report and the check for an empty corpus. *)
Definition final_report : M unit :=
  count ← get_count;
  docs ← get_all_docs;
  print [Text (nl ++ check_mark ++ lit " Successfully processed ");
         Num count; Text (lit " topic folders and created ");
         Num (length docs); Text (lit " text chunks.")];;
  match docs with
  | [] =>
      print [Text (nl ++ cross_mark
                   ++ lit " CRITICAL ERROR: No documents were indexed. Check folder names and paths.")];;
      exit
  | _ :: _ => ret tt
  end.

(** Section 7: create and populate the vector store. *)
Definition create_store : M unit :=
  print [Text (floppy_disk
               ++ lit " Creating the vector store... (This may take a few minutes)")];;
  docs ← get_all_docs;
  from_documents cfg tools docs;;
  print [Text (nl ++ sparkles
               ++ lit " Indexing complete! Your vector database is finally ready. "
               ++ sparkles)].

(** Sections 1 to 5: the script up to the end of the loop over the
    topic folders. *)
Definition gather : M unit :=
  print [Text (rocket ++ lit " Starting the FOLDER-BASED indexing process...")];;
  print [Text (lit "Initializing models and text splitter...")];;
  clean_up;;
  topic_map ← load_topics;
  process_folders topic_map.

(** The whole script, top to bottom. *)
Definition main : M unit :=
  gather;;
  final_report;;
  create_store.

End Script.
End Script1.

(** *** [2_chunking_embedding_ingestion.py] *)

Module Script2.
Section Script.
Context {rt : PyRuntime}.
Variable cfg : Config.
Variable tools : Tools.
Variable w : World.

(** Section 3 of the script: clean up the old database. *)
Definition clean_up : M unit :=
  present ← db_exists cfg;
  if (present : bool) then
    print [Text (broom ++ lit " Removing old database at '");
           Text (DB_LOCATION cfg); Text (lit "'")];;
    rmtree cfg
  else ret tt.

(** Section 4: load the master [topics.json]. *)
Definition load_topics : M value :=
  print [Text (lit " Loading topic map from '");
         Text TOPICS_JSON_PATH; Text (lit "'...")];;
  try_except
    (content ← read_text w TOPICS_JSON_PATH;
     lift (json_loads content))
    [FileNotFoundError]
    (fun _ =>
       print [Text (lit " ERROR: Could not find topics map at '");
              Text TOPICS_JSON_PATH;
              Text (lit "'. Please ensure the file exists.")];;
       exit).

(** The body of the [try] block for one markdown file. *)
Definition index_file (folder_name md_file file_path : str)
    (tid : value) : M unit :=
  content ← read_text w file_path;
  chunks ← call_tool (split_text tools content);
  for_each chunks (fun chunk =>
    append_doc (make_doc chunk md_file folder_name tid)).

(** The body of the loop over the topic folders. *)
Definition process_folder (topic_map : value) (folder_name : str)
  : M unit :=
  known ← lift (py_contains topic_map folder_name);
  if (known : bool) then
    tid ← lift (py_getitem topic_map folder_name);
    let topic_folder_path := path_join TOPICS_BASE_PATH folder_name in
    incr_count;;
    names ← listdir w topic_folder_path;
    let md_files_in_folder :=
      List.filter (fun f => endswith f (lit ".md")) names in
    match md_files_in_folder with
    | [] =>
        print [Text (lit "  - " ++ yellow_circle
                     ++ lit " NOTE: No .md files found in folder '");
               Text folder_name; Text (lit "'")]
    | _ :: _ =>
        for_each md_files_in_folder (fun md_file =>
          let file_path := path_join topic_folder_path md_file in
          try_except
            (index_file folder_name md_file file_path tid)
            [Exception]
            (fun e =>
               print [Text (lit "  -  ERROR processing file '");
                      Text file_path; Text (lit "': "); ExnText e]))
    end
  else
    print [Text (lit "  - " ++ warning_sign ++ lit " WARNING: Folder '");
           Text folder_name;
           Text (lit "' found on disk but not in '");
           Text TOPICS_JSON_PATH; Text (lit "'. Skipping.")].

(** Section 5: process each topic folder. *)
Definition process_folders (topic_map : value) : M unit :=
  print [Text (file_folder ++ lit " Processing topic folders in '");
         Text TOPICS_BASE_PATH; Text (lit "'...")];;
  reset_accumulators;;
  entries ← listdir w TOPICS_BASE_PATH;
  topic_folders ←
    filter_by (fun d => isdir w (path_join TOPICS_BASE_PATH d)) entries;
  for_each topic_folders (process_folder topic_map).

(** Section 6: the check for an empty corpus, then the final report. *)
Definition final_report : M unit :=
  docs ← get_all_docs;
  match docs with
  | [] =>
      print [Text (nl ++ lit " CRITICAL ERROR: No documents were created. Check your folder names, paths, and file contents.")];;
      exit
  | _ :: _ =>
      count ← get_count;
      print [Text (nl ++ lit " Successfully processed ");
             Num count; Text (lit " topic folders, creating ");
             Num (length docs); Text (lit " text chunks.")]
  end.

(** Section 7: create and populate the vector store. *)
Definition create_store : M unit :=
  print [Text (lit " Creating the Chroma vector store... (This may take a few minutes with ");
         Text (EMBEDDING_MODEL cfg); Text (lit ")")];;
  docs ← get_all_docs;
  from_documents cfg tools docs;;
  print [Text (nl ++ lit " Indexing complete! Your vector database is ready. "
               ++ sparkles)].

(** Sections 1 to 5: the script up to the end of the loop over the
    topic folders. *)
Definition gather : M unit :=
  print [Text (lit " Starting the indexing process...")];;
  print [Text (lit "Initializing embedding model (");
         Text (EMBEDDING_MODEL cfg); Text (lit ") and text splitter...")];;
  clean_up;;
  topic_map ← load_topics;
  process_folders topic_map.

(** The whole script, top to bottom. *)
Definition main : M unit :=
  gather;;
  final_report;;
  create_store.

End Script.
End Script2.

(** A run of a script from a given state of the storage location. *)
Definition initial (n : option node) : state :=
  {| storage := n; effects := []; all_docs := [];
     processed_topics_count := O |}.

(** The two entry points. *)
Inductive script : Type :=
  | indexing_1
  | chunking_embedding_ingestion_2.

Definition gather_of {rt : PyRuntime} (p : script) (cfg : Config)
    (tools : Tools) (w : World) : M unit :=
  match p with
  | indexing_1 => Script1.gather cfg tools w
  | chunking_embedding_ingestion_2 => Script2.gather cfg tools w
  end.

Definition main_of {rt : PyRuntime} (p : script) (cfg : Config)
    (tools : Tools) (w : World) : M unit :=
  match p with
  | indexing_1 => Script1.main cfg tools w
  | chunking_embedding_ingestion_2 => Script2.main cfg tools w
  end.

(** *** What a run leaves behind, its console output apart *)

Definition is_stdout (e : effect) : bool :=
  match e with
  | Stdout _ => true
  | _ => false
  end.

(** The calls made on the file system and on the vector store. *)
Definition world_effects (l : list effect) : list effect :=
  List.filter (fun e => negb (is_stdout e)) l.

(** The records of the collection [name] at the storage location, as
    (chunk text, source file, topic name, topic id). *)
Definition records_written (name : str) (n : option node)
  : list (str * str * str * value) :=
  match n with
  | Some (Directory cols) =>
      flat_map (fun c =>
                  if str_eqb (fst c) name
                  then map (fun e => (entry_text e,
                                      source_file (entry_metadata e),
                                      topic_name (entry_metadata e),
                                      topic_id (entry_metadata e)))
                           (snd c)
                  else []) cols
  | _ => []
  end.

(** Two states that differ at most in what was printed. *)
Definition sim (s1 s2 : state) : Prop :=
  storage s1 = storage s2
  /\ world_effects (effects s1) = world_effects (effects s2)
  /\ all_docs s1 = all_docs s2
  /\ processed_topics_count s1 = processed_topics_count s2.

(** Two computations that, from such states, end the same way in such
    states. *)
Definition equiv {A} (m1 m2 : M A) : Prop :=
  forall s1 s2, sim s1 s2 ->
    sim (fst (m1 s1)) (fst (m2 s2)) /\ snd (m1 s1) = snd (m2 s2).

(** A computation that keeps a property of the state, however it ends. *)
Definition preserves {A} (I : state -> Prop) (m : M A) : Prop :=
  forall s, I s -> I (fst (m s)).

Definition is_write (e : effect) : bool :=
  match e with
  | FromDocuments _ => true
  | _ => false
  end.

(** The state invariants the scripts keep between the clean-up and the
    creation of the store. *)
Definition storage_absent (s : state) : Prop := storage s = None.

Definition nothing_written (s : state) : Prop :=
  Forall (fun e => is_write e = false) (effects s).

Definition no_docs (s : state) : Prop := all_docs s = [].

(** The calls on the world so far start with the calls [l]. *)
Definition begins_with (l : list effect) (s : state) : Prop :=
  exists post, world_effects (effects s) = l ++ post.

(** The topic map [tm] is what [topics.json] holds. *)
Definition loaded {rt : PyRuntime} (w : World) (tm : value) : Prop :=
  exists content,
    fs_read w TOPICS_JSON_PATH = Ok content /\ json_loads content = Ok tm.

(** A chunk whose topic is an entry of the topic map [tm]. *)
Definition mapped (tm : value) (doc : Document) : Prop :=
  exists d, tm = VDict d
            /\ dict_get d (topic_name (metadata doc))
               = Some (topic_id (metadata doc)).

(** What a computation guarantees of the way it ends and of the state it
    ends in, from a state that satisfies [P]. *)
Definition hoare {A} (P : state -> Prop) (m : M A)
    (Q : result A -> state -> Prop) : Prop :=
  forall s, P s -> Q (snd (m s)) (fst (m s)).

(** A run that stops on [exit()] (or on any other [SystemExit]) leaves no
    index at the storage location. *)
Definition exit_clean {A} (r : result A) (s : state) : Prop :=
  match r with
  | Raise SystemExit => storage_absent s
  | _ => True
  end.

(** Invariants that do not look at the calls made on the file system, at
    any call made on the world, at the accumulators of the script, or at
    the storage location. *)
Class CallBlind (I : state -> Prop) : Prop :=
  call_blind : forall e, is_write e = false -> preserves I (emit e).

Class EffectBlind (I : state -> Prop) : Prop :=
  effect_blind : forall e, preserves I (emit e).

Class AccBlind (I : state -> Prop) : Prop := {
  acc_blind_incr : preserves I incr_count;
  acc_blind_reset : preserves I reset_accumulators;
  acc_blind_append : forall doc, preserves I (append_doc doc)
}.

Class StorageBlind (I : state -> Prop) : Prop :=
  storage_blind : forall n, preserves I (set_storage n).

(** Every chunk so far carries an entry of the topic map. *)
Definition docs_mapped (tm : value) (s : state) : Prop :=
  Forall (mapped tm) (all_docs s).

(** After the clean-up the storage location is absent, unless the
    clean-up itself failed on a storage location that is a plain file. *)
Definition cleaned {A} (r : result A) (s : state) : Prop :=
  storage_absent s \/ r = Raise NotADirectoryError.

(** A state in which the storage location holds [n] and no call has been
    made on the world yet. *)
Definition untouched (n : node) (s : state) : Prop :=
  storage s = Some n /\ world_effects (effects s) = [].

(** The two calls of the clean-up. *)
Definition cleanup_calls (cfg : Config) : list effect :=
  [PathExists (DB_LOCATION cfg); RmTree (DB_LOCATION cfg)].

(** Every chunk of a run carries an entry of the topic map. *)
Definition chunks_sound {rt : PyRuntime} (w : World) (s : state) : Prop :=
  all_docs s = [] \/ exists tm, loaded w tm /\ docs_mapped tm s.

(** *** What the loops of a script build, read off the corpus

    The chunks of one markdown file, of one topic folder, and of the
    whole corpus, in the order the loops visit them.  A file that cannot
    be read or split gives no chunk; a folder that is not in the topic
    map gives none either. *)
Definition file_chunks (tools : Tools) (w : World) (folder_name : str)
    (tid : value) (md_file : str) : list Document :=
  match fs_read w (path_join (path_join TOPICS_BASE_PATH folder_name)
                             md_file) with
  | Ok content =>
      match split_text tools content with
      | Some chunks =>
          map (fun chunk => make_doc chunk md_file folder_name tid) chunks
      | None => []
      end
  | Raise _ => []
  end.

Definition markdown_files (names : list str) : list str :=
  List.filter (fun f => endswith f (lit ".md")) names.

Definition folder_chunks (tools : Tools) (w : World) (tm : value)
    (folder_name : str) : list Document :=
  match py_contains tm folder_name, py_getitem tm folder_name with
  | Ok true, Ok tid =>
      match fs_listdir w (path_join TOPICS_BASE_PATH folder_name) with
      | Ok names =>
          flat_map (file_chunks tools w folder_name tid)
                   (markdown_files names)
      | Raise _ => []
      end
  | _, _ => []
  end.

(** The entries of [data/topics/] that are directories. *)
Definition topic_dirs (w : World) : list str :=
  match fs_listdir w TOPICS_BASE_PATH with
  | Ok entries =>
      List.filter (fun d => fs_isdir w (path_join TOPICS_BASE_PATH d))
                  entries
  | Raise _ => []
  end.

Definition corpus_chunks (tools : Tools) (w : World) (tm : value)
  : list Document :=
  flat_map (folder_chunks tools w tm) (topic_dirs w).

(** The directories of [data/topics/] that the topic map knows. *)
Definition known_dirs (w : World) (tm : value) : list str :=
  List.filter (fun d => match py_contains tm d with
                        | Ok b => b
                        | Raise _ => false
                        end) (topic_dirs w).

(** The calls to [Chroma.from_documents] among the calls of a run. *)
Definition writes (l : list effect) : list effect := List.filter is_write l.

(** The index a completed run leaves: one collection, one record per
    chunk and vector. *)
Definition fresh_index (cfg : Config) (docs : list Document)
    (vectors : list (list pyfloat)) : node :=
  Directory
    [(COLLECTION_NAME cfg,
      zip_with (fun d v => {| entry_text := page_content d;
                              entry_embedding := v;
                              entry_metadata := metadata d |})
               docs vectors)].

(** The calls of the clean-up, by what was at the storage location. *)
Definition cleanup_trace (cfg : Config) (n : option node) : list effect :=
  match n with
  | Some _ => [PathExists (DB_LOCATION cfg); RmTree (DB_LOCATION cfg)]
  | None => [PathExists (DB_LOCATION cfg)]
  end.

(** What reading and decoding [topics.json] gives. *)
Definition load_topic_map {rt : PyRuntime} (w : World) : result value :=
  content ← fs_read w TOPICS_JSON_PATH;
  json_loads content.

(** A computation that only adds calls satisfying [P] to the calls made
    so far. *)
Definition emits {A} (P : effect -> Prop) (m : M A) : Prop :=
  forall s, exists l,
    effects (fst (m s)) = effects s ++ l /\ Forall P l.

(** The calls a script makes after its clean-up: printing, reading the
    topic map, listing and testing entries under [data/topics/], reading
    markdown files under it, and creating the store. *)
Definition data_call (e : effect) : Prop :=
  match e with
  | Stdout _ => True
  | OpenRead path =>
      path = TOPICS_JSON_PATH
      \/ (startswith path TOPICS_BASE_PATH = true
          /\ endswith path (lit ".md") = true)
  | ListDir path | IsDir path => startswith path TOPICS_BASE_PATH = true
  | FromDocuments _ => True
  | PathExists _ | RmTree _ => False
  end.

(** The calls made so far are those of the clean-up, then calls of the
    kind above. *)
Definition framed (cfg : Config) (n : option node) (s : state) : Prop :=
  exists rest,
    world_effects (effects s) = cleanup_trace cfg n ++ rest
    /\ Forall data_call rest.

(** Whether the topic map knows a folder, as the loop tests it. *)
Definition known (tm : value) (folder_name : str) : bool :=
  match py_contains tm folder_name with
  | Ok b => b
  | Raise _ => false
  end.

(** A computation that, when it returns, has added the chunks [g] to the
    chunks built so far and [c] to the count of processed folders. *)
Definition builds (g : list Document) (c : nat) (m : M unit) : Prop :=
  forall s, snd (m s) = Ok tt ->
    all_docs (fst (m s)) = all_docs s ++ g
    /\ processed_topics_count (fst (m s))
       = (processed_topics_count s + c)%nat.

(** A computation that leaves the two accumulators alone. *)
Definition keeps_data {A} (m : M A) : Prop :=
  forall s, all_docs (fst (m s)) = all_docs s
            /\ processed_topics_count (fst (m s)) = processed_topics_count s.

(** After the final report: no write yet, and no storage location and at
    least one chunk if the script goes on. *)
Definition reported {A} (r : result A) (s : state) : Prop :=
  writes (effects s) = []
  /\ match r with
     | Ok _ => storage s = None /\ all_docs s <> []
     | Raise _ => True
     end.

End Indexing.

(** ** Reference notions used in the statements below *)

(** The text left when the first [n] and the last [m] characters of [s]
    are removed. *)
Definition remove_first (n : nat) (s : str) : str := drop n s.
Definition remove_last (m : nat) (s : str) : str := take (length s - m) s.
Definition remove_ends (n m : nat) (s : str) : str :=
  remove_last m (remove_first n s).

(** Texts one after the other in the order given, a blank line between
    any two neighbours. *)
Definition blank_line_separated (texts : list str) : str :=
  match texts with
  | [] => []
  | t :: rest => t ++ concat (map (fun x => nl ++ nl ++ x) rest)
  end.

(** The ways the decoding of an answer can fail, stage by stage. *)
Inductive parse_failure {rt : PyRuntime} (text : str) (e : exn) : Prop :=
  | fail_json :
      json_loads text = Raise e ->
      parse_failure text e
  | fail_is_true_key (j : value) :
      json_loads text = Ok j ->
      py_getitem j (lit "statement_is_true") = Raise e ->
      parse_failure text e
  | fail_is_true_int (j v : value) :
      json_loads text = Ok j ->
      py_getitem j (lit "statement_is_true") = Ok v ->
      py_int v = Raise e ->
      parse_failure text e
  | fail_topic_key (j v : value) (a : Z) :
      json_loads text = Ok j ->
      py_getitem j (lit "statement_is_true") = Ok v ->
      py_int v = Ok a ->
      py_getitem j (lit "statement_topic") = Raise e ->
      parse_failure text e
  | fail_topic_int (j v v' : value) (a : Z) :
      json_loads text = Ok j ->
      py_getitem j (lit "statement_is_true") = Ok v ->
      py_int v = Ok a ->
      py_getitem j (lit "statement_topic") = Ok v' ->
      py_int v' = Raise e ->
      parse_failure text e.

(** Whether a run of [predict] went through the handler of the parse
    step: only the handler prints. *)
Definition took_default_path (r : Model.run) : bool :=
  existsb (fun e => match e with Model.Stdout _ => true | _ => false end)
          (Model.effects r).

(** What the scanner may answer on the text [s]: it does not run out of
    fuel, what it leaves unread is shorter than [s], and it fails with a
    [JSONDecodeError] or a [ValueError] only. *)
Definition well_scanned (s : str) (r : scan value) : Prop :=
  r <> OutOfFuel
  /\ (forall v rest, r = Scanned v rest -> (length rest < length s)%nat)
  /\ (forall e, r = Failed e -> e = JSONDecodeError \/ e = ValueError).

(** ** Sample inputs *)

(** The JSON object [{"statement_is_true": a, "statement_topic": b}] for
    two JSON texts [a] and [b]. *)
Definition answer (a b : str) : str :=
  lit "{" ++ dq ++ lit "statement_is_true" ++ dq ++ lit ": " ++ a
  ++ lit ", " ++ dq ++ lit "statement_topic" ++ dq ++ lit ": " ++ b
  ++ lit "}".

(** The same object inside a JSON code fence. *)
Definition fenced (body : str) : str :=
  lit "```json" ++ nl ++ body ++ nl ++ lit "```".

(** A deployment whose index returns [docs] to every query and whose
    model gives [response] to every prompt. *)
Definition canned (docs : list Document) (response topics : str)
  : Model.Deployment :=
  {| Model.vector_store := fun _ _ _ => Ok docs;
     Model.llm := fun _ => Ok response;
     Model.topics_list_str := topics |}.

(** [json.dumps({"Asthma": 1}, indent=2)] *)
Definition one_topic : str :=
  lit "{" ++ nl ++ lit "  " ++ dq ++ lit "Asthma" ++ dq ++ lit ": 1" ++ nl
  ++ lit "}".

Definition chest_pain : str := lit "Chest pain is always cardiac.".

(** The settings suggested in the second script. *)
Definition sample_config : Indexing.Config :=
  {| Indexing.DB_LOCATION := lit "./chroma_db";
     Indexing.COLLECTION_NAME := lit "medical_topics";
     Indexing.EMBEDDING_MODEL := lit "nomic-embed-text" |}.

(** Stand-ins for the two tools: a splitter that keeps a text whole, and
    an embedder that gives every text the empty vector. *)
Definition sample_tools : Indexing.Tools :=
  {| Indexing.split_text := fun content => Some [content];
     Indexing.embed_documents := fun texts => Some (map (fun _ => []) texts) |}.

(** A prior index: one record in the configured collection. *)
Definition old_index : Indexing.node :=
  Indexing.Directory
    [(lit "medical_topics",
      [{| Indexing.entry_text := lit "old chunk";
          Indexing.entry_embedding := [];
          Indexing.entry_metadata :=
            {| source_file := lit "old.md";
               topic_name := lit "Asthma";
               topic_id := VInt 1 |} |}])].

(** A corpus with a topic map and no topic folder at all. *)
Definition empty_corpus : Indexing.World :=
  {| Indexing.fs_read := fun path =>
       if str_eqb path Indexing.TOPICS_JSON_PATH
       then Ok (lit "{" ++ dq ++ lit "Asthma" ++ dq ++ lit ": 1}")
       else Raise FileNotFoundError;
     Indexing.fs_listdir := fun path =>
       if str_eqb path Indexing.TOPICS_BASE_PATH then Ok []
       else Raise FileNotFoundError;
     Indexing.fs_isdir := fun _ => false |}.

(** A corpus with the topic map [{"Asthma": 1}], a folder [Asthma] that
    holds [a.md] and [notes.txt], a folder [Misc] that holds [b.md], and a
    plain file [README]. *)
Definition small_corpus : Indexing.World :=
  {| Indexing.fs_read := fun path =>
       if str_eqb path Indexing.TOPICS_JSON_PATH
       then Ok (lit "{" ++ dq ++ lit "Asthma" ++ dq ++ lit ": 1}")
       else if str_eqb path (lit "data/topics/Asthma/a.md")
       then Ok (lit "Asthma is a chronic disease.")
       else if str_eqb path (lit "data/topics/Misc/b.md")
       then Ok (lit "Unrelated.")
       else Raise FileNotFoundError;
     Indexing.fs_listdir := fun path =>
       if str_eqb path Indexing.TOPICS_BASE_PATH
       then Ok [lit "Asthma"; lit "Misc"; lit "README"]
       else if str_eqb path (lit "data/topics/Asthma")
       then Ok [lit "a.md"; lit "notes.txt"]
       else if str_eqb path (lit "data/topics/Misc")
       then Ok [lit "b.md"]
       else Raise FileNotFoundError;
     Indexing.fs_isdir := fun path =>
       str_eqb path (lit "data/topics/Asthma")
       || str_eqb path (lit "data/topics/Misc") |}.

(** A corpus without [data/topics.json]. *)
Definition no_topic_map : Indexing.World :=
  {| Indexing.fs_read := fun _ => Raise FileNotFoundError;
     Indexing.fs_listdir := fun _ => Raise FileNotFoundError;
     Indexing.fs_isdir := fun _ => false |}.

(** [small_corpus] with a topic map that is cut short after its opening
    brace. *)
Definition broken_topic_map : Indexing.World :=
  {| Indexing.fs_read := fun path =>
       if str_eqb path Indexing.TOPICS_JSON_PATH then Ok (lit "{")
       else Indexing.fs_read small_corpus path;
     Indexing.fs_listdir := Indexing.fs_listdir small_corpus;
     Indexing.fs_isdir := Indexing.fs_isdir small_corpus |}.

(** [small_corpus] with the JSON array that holds [Asthma] for a topic
    map. *)
Definition list_topic_map : Indexing.World :=
  {| Indexing.fs_read := fun path =>
       if str_eqb path Indexing.TOPICS_JSON_PATH
       then Ok (lit "[" ++ dq ++ lit "Asthma" ++ dq ++ lit "]")
       else Indexing.fs_read small_corpus path;
     Indexing.fs_listdir := Indexing.fs_listdir small_corpus;
     Indexing.fs_isdir := Indexing.fs_isdir small_corpus |}.

(** A topic map and no folder [data/topics/]. *)
Definition no_topics_dir : Indexing.World :=
  {| Indexing.fs_read := Indexing.fs_read empty_corpus;
     Indexing.fs_listdir := fun _ => Raise FileNotFoundError;
     Indexing.fs_isdir := fun _ => false |}.

(** * Properties *)

(** ** The runtime model on known values *)

Example loads_object :
  json_loads (rt := ascii_runtime)
    (lit " {" ++ dq ++ lit "a" ++ dq ++ lit ": [1, -2.5e0, true, null], "
     ++ dq ++ lit "a" ++ dq ++ lit ": " ++ dq ++ lit "x\u00e9\n" ++ dq
     ++ lit "} ")
  = Ok (VDict [(lit "a", VStr [120%N; 233%N; 10%N])]).
Proof. vm_compute. reflexivity. Qed.

Example loads_rejects :
  map (json_loads (rt := ascii_runtime))
      [lit "not json"; lit "[1,]"; lit "{} x"; lit "01"; lit "1."; lit "-";
       lit "{'a': 1}"; lit ""]
  = repeat (Raise JSONDecodeError) 8.
Proof. vm_compute. reflexivity. Qed.

(** [int(1e23)], [int(0.99999999999999999999)], [int(-2.5)] and
    [int(5e-324)] as CPython computes them. *)
Example int_of_float_known :
  map (fun '(digits, exp10, neg) =>
         int_of_float (float_of_decimal neg digits exp10))
      [(1, 23, false); (99999999999999999999, -20, false);
       (25, -1, true); (5, -324, false)]
  = [Ok 99999999999999991611392; Ok 1; Ok (-2); Ok 0].
Proof. vm_compute. reflexivity. Qed.

Example float_overflow :
  float_of_decimal false 17976931348623157 292 <> FInf false
  /\ float_of_decimal false 17976931348623159 292 = FInf false
  /\ float_of_decimal false 1 400 = FInf false.
Proof. vm_compute. repeat split. discriminate. Qed.

Example int_of_str_known :
  map (int_of_str (rt := ascii_runtime))
      [lit " 1_000 "; lit "-12"; lit "+007"; lit "yes"; lit "1__0";
       lit "_1"; lit "1_"; lit "1.0"; lit ""; lit "0x10"]
  = [Ok 1000; Ok (-12); Ok 7; Raise ValueError; Raise ValueError;
     Raise ValueError; Raise ValueError; Raise ValueError;
     Raise ValueError; Raise ValueError].
Proof. vm_compute. reflexivity. Qed.

Example slice_known :
  map (fun s => py_slice (lit s) 7 (-4))
      ["0123456789abcdef"; "0123456789ab"; "0123456789"; "012"]%string
  = [lit "789ab"; lit "7"; []; []].
Proof. vm_compute. reflexivity. Qed.

(** ** The JSON scanner *)

Lemma skip_ws_length (s : str) : (length (skip_ws s) <= length s)%nat.
Proof.
  induction s as [| c s IH]; simpl; [lia |].
  destruct (is_ws c); simpl; lia.
Qed.

Lemma startswith_length (s p : str) :
  startswith s p = true -> (length p <= length s)%nat.
Proof.
  revert s; induction p as [| x p IH]; intros [| y s]; simpl; try lia; try discriminate.
  intros H. apply andb_true_iff in H as [_ H]. apply IH in H. lia.
Qed.

Lemma span_digits_length (s ds r : str) :
  span_digits s = (ds, r) -> (length r <= length s)%nat.
Proof.
  revert ds r; induction s as [| c s IH]; intros ds r; simpl.
  - intros [= <- <-]. simpl; lia.
  - destruct (is_digit c).
    + destruct (span_digits s) as [ds' r'] eqn:E. intros [= <- <-].
      specialize (IH _ _ eq_refl). lia.
    + intros [= <- <-]. simpl; lia.
Qed.

Lemma scanstring_length (n : nat) :
  forall (s acc text rest : str),
    (length s <= n)%nat ->
    scanstring s acc = Some (text, rest) -> (length rest < length s)%nat.
Proof.
  induction n as [| n IH]; intros s acc text rest Hn.
  - destruct s; [discriminate | simpl in Hn; lia].
  - destruct s as [| c t]; [discriminate |].
    simpl in Hn. cbn [scanstring].
    repeat match goal with
           | |- context [if ?b then _ else _] => destruct b
           | |- context [match ?x with _ => _ end] =>
               is_var x; destruct x; simpl in Hn
           | |- context [match hex4 ?a ?b ?c ?d with _ => _ end] =>
               destruct (hex4 a b c d)
           | |- context [match simple_escape ?a with _ => _ end] =>
               destruct (simple_escape a)
           | |- None = Some _ -> _ => discriminate
           | |- Some _ = Some _ -> _ => intros [= <- <-]; simpl; lia
           | |- scanstring ?s' _ = Some _ -> _ =>
               let H := fresh in
               intros H; apply IH in H; simpl in *; lia
           end.
Qed.

Lemma match_number_length (s : str) (n : number_literal) (rest : str) :
  match_number s = Some (n, rest) -> (length rest < length s)%nat.
Proof.
  unfold match_number.
  set (sign := match s with
               | c :: t => if (c =? 45)%N then (true, t) else (false, s)
               | [] => (false, s)
               end).
  assert (Hs1 : (length (snd sign) <= length s)%nat).
  { subst sign. destruct s as [| c t]; [simpl; lia |].
    destruct (c =? 45)%N; simpl; lia. }
  destruct sign as [neg s1]. simpl in Hs1.
  set (ip := match s1 with
             | c :: t =>
                 if (c =? 48)%N then Some ([c], t)
                 else if is_digit c then
                   let '(ds, r) := span_digits t in Some (c :: ds, r)
                 else None
             | [] => None
             end).
  assert (Hs2 : forall ints s2, ip = Some (ints, s2) ->
                                (length s2 < length s1)%nat).
  { subst ip. intros ints s2. destruct s1 as [| c t]; [discriminate |].
    destruct (c =? 48)%N; [intros [= <- <-]; simpl; lia |].
    destruct (is_digit c); [| discriminate].
    destruct (span_digits t) as [ds r] eqn:E. intros [= <- <-].
    apply span_digits_length in E. simpl; lia. }
  destruct ip as [[ints s2] |]; [| discriminate].
  specialize (Hs2 _ _ eq_refl).
  set (fp := match s2 with
             | dot :: d :: _ =>
                 if (dot =? 46)%N && is_digit d
                 then let '(fs, r) := span_digits (tl s2) in (Some fs, r)
                 else (None, s2)
             | _ => (None, s2)
             end).
  assert (Hs3 : (length (snd fp) <= length s2)%nat).
  { subst fp. destruct s2 as [| dot [| d t]]; try (simpl; lia).
    destruct ((dot =? 46)%N && is_digit d); [| simpl; lia].
    destruct (span_digits (tl (dot :: d :: t))) as [fs r] eqn:E.
    apply span_digits_length in E. simpl in *. lia. }
  destruct fp as [frac s3]. simpl in Hs3.
  match goal with
  | |- (let '(ex, s4) := ?e in _) = _ -> _ => set (ep := e)
  end.
  assert (Hs4 : (length (snd ep) <= length s3)%nat).
  { subst ep. destruct s3 as [| e t]; [simpl; lia |].
    destruct ((e =? 101)%N || (e =? 69)%N); [| simpl; lia].
    match goal with
    | |- context [let '(eneg, t1) := ?x in _] => set (sg := x)
    end.
    assert (Ht1 : (length (snd sg) <= length t)%nat).
    { subst sg. destruct t as [| c t']; [simpl; lia |].
      destruct (c =? 45)%N; [simpl; lia |].
      destruct (c =? 43)%N; simpl; lia. }
    destruct sg as [eneg t1]. simpl in Ht1.
    destruct (span_digits t1) as [es r] eqn:E.
    apply span_digits_length in E.
    destruct es; simpl; lia. }
  destruct ep as [ex s4]. simpl in Hs4.
  intros [= <- <-]. lia.
Qed.

Section Fuel.
Context {rt : PyRuntime}.

Lemma well_scanned_failed (s : str) :
  well_scanned s (Failed JSONDecodeError).
Proof.
  repeat split; try discriminate. intros e [= <-]. now left.
Qed.

Lemma well_scanned_scanned (s : str) (v : value) (rest : str) :
  (length rest < length s)%nat -> well_scanned s (Scanned v rest).
Proof.
  intros H. repeat split; try discriminate. now intros v' rest' [= _ <-].
Qed.

Lemma well_scanned_shorter (s s' : str) (r : scan value) :
  (length s' <= length s)%nat -> well_scanned s' r -> well_scanned s r.
Proof.
  intros Hle (H1 & H2 & H3). repeat split; auto.
  intros v rest Hr. specialize (H2 _ _ Hr). lia.
Qed.

Lemma number_value_error (n : number_literal) (e : exn) :
  number_value n = Raise e -> e = ValueError.
Proof.
  unfold number_value.
  destruct (num_frac n), (num_exp n) as [[? ?] |]; try discriminate.
  destruct (exceeds_digit_limit _); [now intros [= <-] | discriminate].
Qed.

Lemma scan_fuel (fuel : nat) :
  (forall s, (2 * length s < fuel)%nat -> well_scanned s (scan_once fuel s))
  /\ (forall s acc, (2 * length s + 1 < fuel)%nat ->
                    well_scanned s (scan_items fuel s acc))
  /\ (forall s acc, (2 * length s + 1 < fuel)%nat ->
                    well_scanned s (scan_members fuel s acc)).
Proof.
  induction fuel as [| fuel (IHonce & IHitems & IHmembers)].
  - repeat split; intros; lia.
  - split; [| split].
    + intros s Hfuel. cbn [scan_once].
      destruct s as [| c t]; [apply well_scanned_failed |].
      cbn [length] in Hfuel.
      destruct (c =? 34)%N.
      { destruct (scanstring t []) as [[text rest] |] eqn:E;
          [| apply well_scanned_failed].
        apply (scanstring_length _ _ _ _ _ (le_n _)) in E.
        apply well_scanned_scanned. simpl; lia. }
      destruct (c =? 123)%N.
      { pose proof (skip_ws_length t) as Hws.
        destruct (skip_ws t) as [| c' t']; [apply well_scanned_failed |].
        simpl in Hws.
        destruct (c' =? 125)%N;
          [apply well_scanned_scanned; simpl; lia |].
        apply (well_scanned_shorter _ (c' :: t')); [simpl; lia |].
        apply IHmembers. simpl; lia. }
      destruct (c =? 91)%N.
      { pose proof (skip_ws_length t) as Hws.
        destruct (skip_ws t) as [| c' t']; [apply well_scanned_failed |].
        simpl in Hws.
        destruct (c' =? 93)%N;
          [apply well_scanned_scanned; simpl; lia |].
        apply (well_scanned_shorter _ (c' :: t')); [simpl; lia |].
        apply IHitems. simpl; lia. }
      assert (Hdrop : forall p n, startswith (c :: t) p = true ->
                        length p = S n ->
                        (length (drop (S n) (c :: t)) < length (c :: t))%nat).
      { intros p n Hp Hlen. rewrite length_drop. simpl. lia. }
      repeat match goal with
             | |- context [if startswith ?s ?p then _ else _] =>
                 let H := fresh in
                 destruct (startswith s p) eqn:H;
                 [apply well_scanned_scanned;
                  apply (Hdrop _ _ H); reflexivity |]
             end.
      destruct (match_number (c :: t)) as [[n rest] |] eqn:E.
      { apply match_number_length in E.
        destruct (number_value n) as [v | e] eqn:En;
          [now apply well_scanned_scanned |].
        apply number_value_error in En as ->.
        repeat split; try discriminate. intros e [= <-]. now right. }
      repeat match goal with
             | |- context [if startswith ?s ?p then _ else _] =>
                 let H := fresh in
                 destruct (startswith s p) eqn:H;
                 [apply well_scanned_scanned;
                  apply (Hdrop _ _ H); reflexivity |]
             end.
      apply well_scanned_failed.
    + intros s acc Hfuel. cbn [scan_items].
      destruct (IHonce s ltac:(lia)) as (Hne & Hlen & Herr).
      destruct (scan_once fuel s) as [v rest | e |] eqn:E;
        [| repeat split; try discriminate; intros e' [= <-]; now apply Herr
         | congruence].
      specialize (Hlen _ _ eq_refl).
      pose proof (skip_ws_length rest) as Hws.
      destruct (skip_ws rest) as [| c t]; [apply well_scanned_failed |].
      simpl in Hws.
      destruct (c =? 93)%N; [apply well_scanned_scanned; lia |].
      destruct (c =? 44)%N; [| apply well_scanned_failed].
      pose proof (skip_ws_length t) as Hws'.
      apply (well_scanned_shorter _ (skip_ws t)); [lia |].
      apply IHitems. lia.
    + intros s acc Hfuel. cbn [scan_members].
      destruct s as [| q t]; [apply well_scanned_failed |].
      cbn [length] in Hfuel.
      destruct (q =? 34)%N; [| apply well_scanned_failed].
      destruct (scanstring t []) as [[key rest] |] eqn:Ekey;
        [| apply well_scanned_failed].
      apply (scanstring_length _ _ _ _ _ (le_n _)) in Ekey.
      pose proof (skip_ws_length rest) as Hws.
      destruct (skip_ws rest) as [| colon t1]; [apply well_scanned_failed |].
      simpl in Hws.
      destruct (colon =? 58)%N; [| apply well_scanned_failed].
      pose proof (skip_ws_length t1) as Hws1.
      destruct (IHonce (skip_ws t1) ltac:(lia)) as (Hne & Hlen & Herr).
      destruct (scan_once fuel (skip_ws t1)) as [v rest1 | e |] eqn:E;
        [| repeat split; try discriminate; intros e' [= <-]; now apply Herr
         | congruence].
      specialize (Hlen _ _ eq_refl).
      pose proof (skip_ws_length rest1) as Hws2.
      destruct (skip_ws rest1) as [| c t2]; [apply well_scanned_failed |].
      simpl in Hws2.
      destruct (c =? 125)%N; [apply well_scanned_scanned; simpl; lia |].
      destruct (c =? 44)%N; [| apply well_scanned_failed].
      pose proof (skip_ws_length t2) as Hws3.
      apply (well_scanned_shorter _ (skip_ws t2)); [simpl; lia |].
      apply IHmembers. lia.
Qed.

(** [json.loads] raises nothing but [JSONDecodeError] and [ValueError]; in
    particular the fuel of the scanner is never exhausted. *)
Lemma json_loads_errors (s : str) (e : exn) :
  json_loads s = Raise e -> e = JSONDecodeError \/ e = ValueError.
Proof.
  unfold json_loads.
  destruct (startswith s [65279%N]); [intros [= <-]; now left |].
  pose proof (skip_ws_length s) as Hws.
  destruct (proj1 (scan_fuel (2 * length s + 1)) (skip_ws s) ltac:(lia))
    as (Hne & _ & Herr).
  destruct (scan_once _ (skip_ws s)) as [v rest | e' |].
  - destruct (skip_ws rest); [discriminate | intros [= <-]; now left].
  - intros [= <-]. now apply Herr.
  - congruence.
Qed.
End Fuel.

(** ** Strings *)

Lemma py_slice_7_m4 (s : str) : py_slice s 7 (-4) = remove_ends 7 4 s.
Proof.
  unfold py_slice, remove_ends, remove_last, remove_first, adjust_index.
  rewrite length_drop.
  cbv zeta.
  change (7 <? 0) with false; change (-4 <? 0) with true; cbv iota.
  change (7 <? 0) with false; cbv iota.
  set (len := length s).
  destruct (Z.ltb_spec (Z.of_nat len) 7) as [Hshort | Hlong].
  - rewrite (drop_ge s 7) by (fold len; lia).
    rewrite (drop_ge s (Z.to_nat (Z.of_nat len))) by (fold len; lia).
    now rewrite !take_nil.
  - change (Z.to_nat 7) with 7%nat.
    f_equal.
    destruct (Z.ltb_spec (-4 + Z.of_nat len) 0);
      [| destruct (Z.ltb_spec (Z.of_nat len) (-4 + Z.of_nat len))]; lia.
Qed.

Lemma join_cons (sep x : str) (rest : list str) :
  join sep (x :: rest) = x ++ concat (map (fun y => sep ++ y) rest).
Proof.
  revert x; induction rest as [| y rest IH]; intros x.
  - simpl. now rewrite app_nil_r.
  - change (join sep (x :: y :: rest)) with (x ++ sep ++ join sep (y :: rest)).
    rewrite IH. simpl. now rewrite <- !app_assoc.
Qed.

Lemma join_blank_line (texts : list str) :
  join (nl ++ nl) texts = blank_line_separated texts.
Proof.
  destruct texts as [| t rest]; [reflexivity |].
  rewrite join_cons. reflexivity.
Qed.

(** ** The parse step of [predict] *)

Section ParseStep.
Context {rt : PyRuntime}.

(** A successful decoding went through all five stages. *)
Lemma decode_answer_ok (text : str) (a b : Z) :
  Model.decode_answer text = Ok (a, b) ->
  exists j v v',
    json_loads text = Ok j
    /\ py_getitem j (lit "statement_is_true") = Ok v /\ py_int v = Ok a
    /\ py_getitem j (lit "statement_topic") = Ok v' /\ py_int v' = Ok b.
Proof.
  unfold Model.decode_answer, mbind, result_bind.
  destruct (json_loads text) as [j |] eqn:Hj; [| discriminate].
  destruct (py_getitem j (lit "statement_is_true")) as [v |] eqn:Hv;
    [| discriminate].
  destruct (py_int v) as [a' |] eqn:Ha; [| discriminate].
  destruct (py_getitem j (lit "statement_topic")) as [v' |] eqn:Hv';
    [| discriminate].
  destruct (py_int v') as [b' |] eqn:Hb; [| discriminate].
  intros [= <- <-].
  exists j, v, v'. auto.
Qed.

(** A failed decoding failed at one of the five stages, and conversely. *)
Lemma decode_answer_raise (text : str) (e : exn) :
  Model.decode_answer text = Raise e <-> parse_failure text e.
Proof.
  unfold Model.decode_answer, mbind, result_bind. split.
  - destruct (json_loads text) as [j |] eqn:Hj;
      [| intros [= <-]; now apply fail_json].
    destruct (py_getitem j (lit "statement_is_true")) as [v |] eqn:Hv;
      [| intros [= <-]; now apply (fail_is_true_key _ _ j)].
    destruct (py_int v) as [a |] eqn:Ha;
      [| intros [= <-]; now apply (fail_is_true_int _ _ j v)].
    destruct (py_getitem j (lit "statement_topic")) as [v' |] eqn:Hv';
      [| intros [= <-]; now apply (fail_topic_key _ _ j v a)].
    destruct (py_int v') as [b |] eqn:Hb;
      [discriminate | intros [= <-]; now apply (fail_topic_int _ _ j v v' a)].
  - intros [H | j H1 H2 | j v H1 H2 H3 | j v a H1 H2 H3 H4
            | j v v' a H1 H2 H3 H4 H5].
    + now rewrite H.
    + now rewrite H1, H2.
    + now rewrite H1, H2, H3.
    + now rewrite H1, H2, H3, H4.
    + now rewrite H1, H2, H3, H4, H5.
Qed.

Lemma int_of_str_error (s : str) (e : exn) :
  int_of_str s = Raise e -> e = ValueError.
Proof.
  unfold int_of_str.
  repeat match goal with
         | |- context [match ?x with _ => _ end] => destruct x
         | |- (let '(_, _) := ?x in _) = _ -> _ => destruct x
         end;
    congruence.
Qed.

Lemma py_int_error (v : value) (e : exn) :
  py_int v = Raise e ->
  e = TypeError \/ e = ValueError \/ e = OverflowError.
Proof.
  destruct v as [| b | z | [m ex | neg |] | s | items | d]; simpl;
    try discriminate; try (intros [= <-]; auto).
  intros H. apply int_of_str_error in H. auto.
Qed.

Lemma py_getitem_error (v : value) (key : str) (e : exn) :
  py_getitem v key = Raise e -> e = KeyError \/ e = TypeError.
Proof.
  destruct v as [| | | | | | d]; simpl; try (intros [= <-]; auto).
  destruct (dict_get d key); [discriminate | intros [= <-]; auto].
Qed.


(** [predict] ends the way its parse step ends on the model's answer. *)
Lemma predict_answered (d : Model.Deployment) (statement response : str)
    (docs : list Document) :
  Model.vector_store d MMR {| k := 5; fetch_k := 20 |} statement = Ok docs ->
  Model.llm d (Model.format_prompt
                 (join (nl ++ nl) (map page_content docs))
                 statement (Model.topics_list_str d)) = Ok response ->
  Model.outcome (Model.predict d statement)
    = Model.outcome (Model.parse_step response)
  /\ took_default_path (Model.predict d statement)
     = took_default_path (Model.parse_step response).
Proof.
  intros Hdocs Hllm. unfold Model.predict.
  rewrite Hdocs, Hllm. split; reflexivity.
Qed.

End ParseStep.

(** ** Claims about [predict] *)

(** C1, as a defect of the code.  The handler names [JSONDecodeError],
    [KeyError] and [TypeError]; a value that [int] cannot read because it
    is a string that does not spell a number makes [int] raise
    [ValueError], which none of the three covers.  On the answer
    [{"statement_is_true": "yes", "statement_topic": 3}] the exception
    leaves [predict]: no pair is returned, and the handler prints
    nothing. *)
Theorem predict_value_error_escapes {rt : PyRuntime}
    (docs : list Document) (topics statement : str) :
  let r := Model.predict
             (canned docs (answer (dq ++ lit "yes" ++ dq) (lit "3")) topics)
             statement in
  Model.outcome r = Raise ValueError
  /\ took_default_path r = false
  /\ caught_by Model.handled ValueError = false.
Proof. vm_compute. auto. Qed.

(** The same happens for the two other values [int] refuses with an
    exception that is not a [TypeError]: [NaN] and an infinity. *)
Lemma predict_nan_escapes {rt : PyRuntime}
    (docs : list Document) (topics statement : str) :
  Model.outcome (Model.predict
                   (canned docs (answer (lit "1") (lit "NaN")) topics)
                   statement) = Raise ValueError.
Proof. vm_compute. reflexivity. Qed.

Lemma predict_infinity_escapes {rt : PyRuntime}
    (docs : list Document) (topics statement : str) :
  Model.outcome (Model.predict
                   (canned docs (answer (lit "1e999") (lit "3")) topics)
                   statement) = Raise OverflowError.
Proof. vm_compute. reflexivity. Qed.

(** The three kinds of failure the handler does cover, on one input each:
    text that is not JSON, a missing key, and a value of a type [int]
    does not accept. *)
Lemma predict_not_json {rt : PyRuntime}
    (docs : list Document) (topics statement : str) :
  Model.outcome (Model.predict (canned docs (lit "not json") topics)
                   statement) = Ok (0, 0).
Proof. vm_compute. reflexivity. Qed.

Lemma predict_missing_key {rt : PyRuntime}
    (docs : list Document) (topics statement : str) :
  Model.outcome (Model.predict
                   (canned docs (lit "{" ++ dq ++ lit "statement_is_true"
                                 ++ dq ++ lit ": 1}") topics)
                   statement) = Ok (0, 0).
Proof. vm_compute. reflexivity. Qed.

Lemma predict_null_value {rt : PyRuntime}
    (docs : list Document) (topics statement : str) :
  Model.outcome (Model.predict
                   (canned docs (answer (lit "null") (lit "3")) topics)
                   statement) = Ok (0, 0).
Proof. vm_compute. reflexivity. Qed.

(** C3, as stated, fails: the answer
    [{"statement_is_true": 7, "statement_topic": 3}] is decoded without
    going through the handler, and the first component returned is 7. *)
Lemma predict_returns_seven :
  let r := Model.predict (rt := ascii_runtime)
             (canned [] (answer (lit "7") (lit "3")) one_topic)
             chest_pain in
  Model.outcome r = Ok (7, 3)
  /\ took_default_path r = false
  /\ ~ (7 = 0 \/ 7 = 1).
Proof. vm_compute. repeat split; try reflexivity. intros [H | H]; discriminate H. Qed.

(** C3, amended: when [predict] returns without going through the
    handler, the first component is what [int] makes of the value the
    model supplied under [statement_is_true], whatever integer that is. *)
Theorem predict_is_true_coerced {rt : PyRuntime}
    (d : Model.Deployment) (statement response : str)
    (docs : list Document) (a b : Z) :
  Model.vector_store d MMR {| k := 5; fetch_k := 20 |} statement = Ok docs ->
  Model.llm d (Model.format_prompt
                 (join (nl ++ nl) (map page_content docs))
                 statement (Model.topics_list_str d)) = Ok response ->
  Model.outcome (Model.predict d statement) = Ok (a, b) ->
  took_default_path (Model.predict d statement) = false ->
  exists j v,
    json_loads (Model.strip_fence response) = Ok j
    /\ py_getitem j (lit "statement_is_true") = Ok v
    /\ py_int v = Ok a.
Proof.
  intros Hdocs Hllm Hout Hpath.
  destruct (predict_answered d statement response docs Hdocs Hllm)
    as [Ho Hp].
  rewrite Ho in Hout. rewrite Hp in Hpath. clear Ho Hp.
  unfold Model.parse_step, Model.conclude in Hout, Hpath.
  destruct (Model.decode_answer (Model.strip_fence response))
    as [[a' b'] | e] eqn:Hdec.
  - injection Hout as <- <-.
    destruct (decode_answer_ok _ _ _ Hdec) as (j & v & v' & Hj & Hv & Ha & _).
    exists j, v. auto.
  - destruct (caught_by Model.handled e); discriminate.
Qed.

Lemma predict_is_true_coerced_witness :
  exists j v,
    json_loads (rt := ascii_runtime)
      (Model.strip_fence (answer (lit "7") (lit "3"))) = Ok j
    /\ py_getitem j (lit "statement_is_true") = Ok v
    /\ py_int (rt := ascii_runtime) v = Ok 7.
Proof.
  apply (predict_is_true_coerced (rt := ascii_runtime)
           (canned [] (answer (lit "7") (lit "3")) one_topic)
           chest_pain (answer (lit "7") (lit "3")) [] 7 3);
    vm_compute; reflexivity.
Defined.

(** C5: the text handed to [json.loads] is the answer without its first
    7 and its last 4 characters exactly when the answer starts with the
    JSON fence marker, and the answer itself otherwise; and a fenced
    [{"statement_is_true": 1, "statement_topic": 3}] yields [(1, 3)]. *)
Theorem fence_stripped_iff_marked {rt : PyRuntime} :
  (forall response : str,
     Model.parse_step response =
     let text := if startswith response (lit "```json")
                 then remove_ends 7 4 response
                 else response in
     Model.conclude text (Model.decode_answer text))
  /\ (forall (docs : list Document) (topics statement : str),
        Model.outcome
          (Model.predict
             (canned docs (fenced (answer (lit "1") (lit "3"))) topics)
             statement) = Ok (1, 3)).
Proof.
  split.
  - intros response. unfold Model.parse_step, Model.strip_fence.
    change Model.json_fence with (lit "```json").
    cbv zeta. destruct (startswith response (lit "```json")).
    + now rewrite py_slice_7_m4.
    + reflexivity.
  - intros docs topics statement. vm_compute. reflexivity.
Qed.

(** A fence that is closed on the line of the closing brace loses the
    brace with it: the narrow rule of the parse step then yields the
    default. *)
Example fence_without_newline {rt : PyRuntime}
    (docs : list Document) (topics statement : str) :
  Model.outcome
    (Model.predict
       (canned docs (lit "```json" ++ nl ++ answer (lit "1") (lit "3")
                     ++ lit "```") topics)
       statement) = Ok (0, 0).
Proof. vm_compute. reflexivity. Qed.

(** C7: [predict] asks the vector index once, in MMR mode, for 5 results
    out of a pool of 20; if the index fails, [predict] fails with it;
    otherwise the context placed in the prompt is the texts of the
    returned documents, in the order returned, with a blank line between
    neighbours. *)
Theorem retrieval_is_mmr_5_of_20 {rt : PyRuntime}
    (d : Model.Deployment) (statement : str) :
  let r := Model.predict d statement in
  let request := Model.Retrieve MMR {| k := 5; fetch_k := 20 |} statement in
  match Model.vector_store d MMR {| k := 5; fetch_k := 20 |} statement with
  | Raise e => Model.effects r = [request] /\ Model.outcome r = Raise e
  | Ok docs =>
      exists rest,
        Model.effects r
        = request
          :: Model.Generate
               (Model.format_prompt
                  (blank_line_separated (map page_content docs))
                  statement (Model.topics_list_str d))
          :: rest
        /\ Forall (fun e => match e with
                            | Model.Retrieve _ _ _ => False
                            | _ => True
                            end) rest
  end.
Proof.
  cbv zeta. unfold Model.predict.
  destruct (Model.vector_store d MMR _ statement) as [docs | e];
    [| split; reflexivity].
  rewrite join_blank_line.
  destruct (Model.llm d _) as [response | e].
  - eexists. split; [reflexivity |].
    unfold Model.parse_step, Model.conclude.
    destruct (Model.decode_answer _) as [v | e]; [constructor |].
    destruct (caught_by Model.handled e); cbn [Model.effects];
      repeat (apply List.Forall_cons; [exact I |]); apply List.Forall_nil.
  - exists []. split; [reflexivity | constructor].
Qed.

(** C9: when the answer is decoded, the second component returned is what
    [int] makes of the value the model supplied under [statement_topic];
    the topic list of the deployment plays no part in it. *)
Theorem predict_topic_unvalidated {rt : PyRuntime}
    (d : Model.Deployment) (statement response : str)
    (docs : list Document) (a b : Z) :
  Model.vector_store d MMR {| k := 5; fetch_k := 20 |} statement = Ok docs ->
  Model.llm d (Model.format_prompt
                 (join (nl ++ nl) (map page_content docs))
                 statement (Model.topics_list_str d)) = Ok response ->
  Model.decode_answer (Model.strip_fence response) = Ok (a, b) ->
  Model.outcome (Model.predict d statement) = Ok (a, b)
  /\ exists j v,
       json_loads (Model.strip_fence response) = Ok j
       /\ py_getitem j (lit "statement_topic") = Ok v
       /\ py_int v = Ok b.
Proof.
  intros Hdocs Hllm Hdec.
  destruct (predict_answered d statement response docs Hdocs Hllm)
    as [Ho _].
  rewrite Ho. unfold Model.parse_step. rewrite Hdec. split; [reflexivity |].
  destruct (decode_answer_ok _ _ _ Hdec) as (j & v & v' & Hj & _ & _ & Hv' & Hb).
  exists j, v'. auto.
Qed.

(** With [{"Asthma": 1}] as the only topic, the topic 999 is returned as
    it is. *)
Lemma predict_topic_unvalidated_witness :
  Model.outcome
    (Model.predict (rt := ascii_runtime)
       (canned [] (answer (lit "1") (lit "999")) one_topic) chest_pain)
  = Ok (1, 999)
  /\ exists j v,
       json_loads (rt := ascii_runtime)
         (Model.strip_fence (answer (lit "1") (lit "999"))) = Ok j
       /\ py_getitem j (lit "statement_topic") = Ok v
       /\ py_int (rt := ascii_runtime) v = Ok 999.
Proof.
  apply (predict_topic_unvalidated (rt := ascii_runtime)
           (canned [] (answer (lit "1") (lit "999")) one_topic)
           chest_pain (answer (lit "1") (lit "999")) [] 1 999);
    vm_compute; reflexivity.
Defined.

(** C10: whenever the decoding fails, at whichever of its five stages,
    with an exception the handler names, both components returned are the
    default 0, also when the first value had been read already. *)
Theorem predict_failure_is_all_default {rt : PyRuntime}
    (d : Model.Deployment) (statement response : str)
    (docs : list Document) (e : exn) :
  Model.vector_store d MMR {| k := 5; fetch_k := 20 |} statement = Ok docs ->
  Model.llm d (Model.format_prompt
                 (join (nl ++ nl) (map page_content docs))
                 statement (Model.topics_list_str d)) = Ok response ->
  parse_failure (Model.strip_fence response) e ->
  caught_by Model.handled e = true ->
  Model.outcome (Model.predict d statement) = Ok (0, 0).
Proof.
  intros Hdocs Hllm Hfail Hcaught.
  destruct (predict_answered d statement response docs Hdocs Hllm)
    as [Ho _].
  rewrite Ho. unfold Model.parse_step, Model.conclude.
  apply decode_answer_raise in Hfail. rewrite Hfail, Hcaught. reflexivity.
Qed.

(** The answer [{"statement_is_true": 1, "statement_topic": null}]: the
    first value is read as 1, the second makes [int] raise [TypeError],
    and the pair returned is [(0, 0)], not [(1, 0)]. *)
Lemma predict_failure_is_all_default_witness :
  Model.outcome
    (Model.predict (rt := ascii_runtime)
       (canned [] (answer (lit "1") (lit "null")) one_topic) chest_pain)
  = Ok (0, 0).
Proof.
  apply (predict_failure_is_all_default (rt := ascii_runtime)
           (canned [] (answer (lit "1") (lit "null")) one_topic)
           chest_pain (answer (lit "1") (lit "null")) [] TypeError).
  - vm_compute; reflexivity.
  - vm_compute; reflexivity.
  - apply (fail_topic_int _ _
             (VDict [(lit "statement_is_true", VInt 1);
                     (lit "statement_topic", VNone)])
             (VInt 1) VNone 1); vm_compute; reflexivity.
  - vm_compute; reflexivity.
Defined.

(** ** Further properties of [predict] *)

Section ModelExtras.
Context {rt : PyRuntime}.

Lemma decode_answer_error (text : str) (e : exn) :
  Model.decode_answer text = Raise e ->
  e = JSONDecodeError \/ e = KeyError \/ e = TypeError
  \/ e = ValueError \/ e = OverflowError.
Proof.
  intros H. apply decode_answer_raise in H.
  destruct H as [H | j _ H | j v _ _ H | j v a _ _ _ H
                 | j v v' a _ _ _ _ H].
  - apply json_loads_errors in H as [-> | ->]; auto.
  - apply py_getitem_error in H as [-> | ->]; auto.
  - apply py_int_error in H as [-> | [-> | ->]]; auto.
  - apply py_getitem_error in H as [-> | ->]; auto.
  - apply py_int_error in H as [-> | [-> | ->]]; auto.
Qed.


(** X2: once the index and the model have answered, [predict] prints its
    two lines exactly when decoding the answer, fence stripped, raises one
    of the three classes that the handler names. *)
Theorem default_path_iff
    (d : Model.Deployment) (statement response : str)
    (docs : list Document) :
  Model.vector_store d MMR {| k := 5; fetch_k := 20 |} statement = Ok docs ->
  Model.llm d (Model.format_prompt
                 (join (nl ++ nl) (map page_content docs))
                 statement (Model.topics_list_str d)) = Ok response ->
  (took_default_path (Model.predict d statement) = true
   <-> exists e,
         Model.decode_answer (Model.strip_fence response) = Raise e
         /\ (e = JSONDecodeError \/ e = KeyError \/ e = TypeError)).
Proof.
  intros Hdocs Hllm.
  destruct (predict_answered d statement response docs Hdocs Hllm)
    as [_ Hp].
  rewrite Hp. unfold Model.parse_step, Model.conclude.
  destruct (Model.decode_answer (Model.strip_fence response))
    as [v | e] eqn:Hdec.
  - split; [discriminate | intros (e & [=] & _)].
  - apply decode_answer_error in Hdec.
    split.
    + intros H. exists e. split; [reflexivity |].
      destruct Hdec as [-> | [-> | [-> | [-> | ->]]]]; auto; discriminate H.
    + intros (e' & [= <-] & [-> | [-> | ->]]); reflexivity.
Qed.

(** X3: an answer that is valid JSON but not an object (a number, a
    string, a list, [null], ...) makes the first subscript raise
    [TypeError]: [predict] returns [(0, 0)] through the handler. *)
Theorem non_object_answer_is_default
    (d : Model.Deployment) (statement response : str)
    (docs : list Document) (j : value) :
  Model.vector_store d MMR {| k := 5; fetch_k := 20 |} statement = Ok docs ->
  Model.llm d (Model.format_prompt
                 (join (nl ++ nl) (map page_content docs))
                 statement (Model.topics_list_str d)) = Ok response ->
  json_loads (Model.strip_fence response) = Ok j ->
  (forall members, j <> VDict members) ->
  Model.outcome (Model.predict d statement) = Ok (0, 0)
  /\ took_default_path (Model.predict d statement) = true.
Proof.
  intros Hdocs Hllm Hj Hnot.
  destruct (predict_answered d statement response docs Hdocs Hllm)
    as [Ho Hp].
  rewrite Ho, Hp. unfold Model.parse_step.
  assert (Hdec : Model.decode_answer (Model.strip_fence response)
                 = Raise TypeError).
  { apply decode_answer_raise. apply (fail_is_true_key _ _ j Hj).
    destruct j; try reflexivity. now destruct (Hnot members). }
  rewrite Hdec. split; reflexivity.
Qed.

Lemma loads_empty : json_loads [] = Raise JSONDecodeError.
Proof. reflexivity. Qed.

(** X4: an answer that starts with the fence marker and has at most 11
    characters is sliced to the empty text, which [json.loads] refuses:
    [predict] returns [(0, 0)] through the handler. *)
Theorem short_fenced_answer_is_default
    (d : Model.Deployment) (statement response : str)
    (docs : list Document) :
  Model.vector_store d MMR {| k := 5; fetch_k := 20 |} statement = Ok docs ->
  Model.llm d (Model.format_prompt
                 (join (nl ++ nl) (map page_content docs))
                 statement (Model.topics_list_str d)) = Ok response ->
  startswith response (lit "```json") = true ->
  (length response <= 11)%nat ->
  Model.outcome (Model.predict d statement) = Ok (0, 0)
  /\ took_default_path (Model.predict d statement) = true.
Proof.
  intros Hdocs Hllm Hfence Hlen.
  destruct (predict_answered d statement response docs Hdocs Hllm)
    as [Ho Hp].
  rewrite Ho, Hp. unfold Model.parse_step, Model.strip_fence.
  change Model.json_fence with (lit "```json"). rewrite Hfence.
  rewrite py_slice_7_m4. unfold remove_ends, remove_last, remove_first.
  rewrite length_drop.
  replace (length response - 7 - 4)%nat with 0%nat by lia.
  rewrite take_0.
  split; reflexivity.
Qed.


Lemma loads_backtick (response t : str) :
  skip_ws response = 96%N :: t ->
  json_loads response = Raise JSONDecodeError.
Proof.
  intros Hws. unfold json_loads.
  assert (Hbom : startswith response [65279%N] = false).
  { destruct response as [| c r]; [reflexivity |].
    cbn [startswith skip_ws] in *.
    destruct (N.eqb_spec 65279 c) as [<- | Hne]; [| reflexivity].
    discriminate Hws. }
  rewrite Hbom, Hws.
  replace (2 * length response + 1)%nat with (S (2 * length response))
    by lia.
  reflexivity.
Qed.

(** X5: the fence is stripped only when it is spelt with the word json at
    the very start of the answer.  An answer whose first character after
    white space is a backquote, and which does not start with the marker,
    reaches [json.loads] with its backquote: [predict] returns [(0, 0)]
    through the handler. *)
Theorem unstripped_fence_is_default
    (d : Model.Deployment) (statement response t : str)
    (docs : list Document) :
  Model.vector_store d MMR {| k := 5; fetch_k := 20 |} statement = Ok docs ->
  Model.llm d (Model.format_prompt
                 (join (nl ++ nl) (map page_content docs))
                 statement (Model.topics_list_str d)) = Ok response ->
  startswith response (lit "```json") = false ->
  skip_ws response = 96%N :: t ->
  Model.outcome (Model.predict d statement) = Ok (0, 0)
  /\ took_default_path (Model.predict d statement) = true.
Proof.
  intros Hdocs Hllm Hfence Hws.
  destruct (predict_answered d statement response docs Hdocs Hllm)
    as [Ho Hp].
  rewrite Ho, Hp. unfold Model.parse_step, Model.strip_fence.
  change Model.json_fence with (lit "```json"). rewrite Hfence.
  unfold Model.decode_answer. rewrite (loads_backtick _ _ Hws).
  split; reflexivity.
Qed.
End ModelExtras.


Lemma default_path_iff_witness :
  took_default_path
    (Model.predict (rt := ascii_runtime)
       (canned [] (lit "TRUE, topic 3") one_topic) chest_pain) = true
  <-> exists e,
        Model.decode_answer (rt := ascii_runtime)
          (Model.strip_fence (lit "TRUE, topic 3")) = Raise e
        /\ (e = JSONDecodeError \/ e = KeyError \/ e = TypeError).
Proof.
  apply (default_path_iff (rt := ascii_runtime)
           (canned [] (lit "TRUE, topic 3") one_topic)
           chest_pain (lit "TRUE, topic 3") []);
    vm_compute; reflexivity.
Defined.

Lemma non_object_answer_is_default_witness :
  Model.outcome
    (Model.predict (rt := ascii_runtime)
       (canned [] (lit "[1, 3]") one_topic) chest_pain) = Ok (0, 0)
  /\ took_default_path
       (Model.predict (rt := ascii_runtime)
          (canned [] (lit "[1, 3]") one_topic) chest_pain) = true.
Proof.
  apply (non_object_answer_is_default (rt := ascii_runtime)
           (canned [] (lit "[1, 3]") one_topic)
           chest_pain (lit "[1, 3]") [] (VList [VInt 1; VInt 3]));
    [vm_compute; reflexivity | vm_compute; reflexivity
     | vm_compute; reflexivity | intros members; discriminate].
Defined.

Lemma short_fenced_answer_is_default_witness :
  Model.outcome
    (Model.predict (rt := ascii_runtime)
       (canned [] (lit "```json" ++ nl ++ lit "```") one_topic) chest_pain) = Ok (0, 0)
  /\ took_default_path
       (Model.predict (rt := ascii_runtime)
          (canned [] (lit "```json" ++ nl ++ lit "```") one_topic) chest_pain) = true.
Proof.
  apply (short_fenced_answer_is_default (rt := ascii_runtime)
           (canned [] (lit "```json" ++ nl ++ lit "```") one_topic) chest_pain (lit "```json" ++ nl ++ lit "```") []);
    [vm_compute; reflexivity | vm_compute; reflexivity
     | vm_compute; reflexivity | simpl; lia].
Defined.

Lemma unstripped_fence_is_default_witness :
  Model.outcome
    (Model.predict (rt := ascii_runtime)
       (canned [] (nl ++ fenced (answer (lit "1") (lit "3"))) one_topic)
       chest_pain) = Ok (0, 0)
  /\ took_default_path
       (Model.predict (rt := ascii_runtime)
          (canned [] (nl ++ fenced (answer (lit "1") (lit "3"))) one_topic)
          chest_pain) = true.
Proof.
  apply (unstripped_fence_is_default (rt := ascii_runtime)
           (canned [] (nl ++ fenced (answer (lit "1") (lit "3"))) one_topic)
           chest_pain (nl ++ fenced (answer (lit "1") (lit "3")))
           (lit "``json" ++ nl ++ answer (lit "1") (lit "3") ++ nl
            ++ lit "```") []);
    vm_compute; reflexivity.
Defined.

(** ** The indexing scripts *)

Import Indexing.

Lemma world_effects_app (l1 l2 : list effect) :
  world_effects (l1 ++ l2) = world_effects l1 ++ world_effects l2.
Proof. apply List.filter_app. Qed.

Lemma sim_refl (s : state) : sim s s.
Proof. repeat split. Qed.

Lemma equiv_bind {A B} (m1 m2 : M A) (k1 k2 : A -> M B) :
  equiv m1 m2 -> (forall a, equiv (k1 a) (k2 a)) ->
  equiv (m1 ≫= k1) (m2 ≫= k2).
Proof.
  intros Hm Hk s1 s2 Hs. unfold mbind, M_bind.
  destruct (Hm s1 s2 Hs) as [Hs' Hr].
  destruct (m1 s1) as [s1' [a1 | e1]], (m2 s2) as [s2' [a2 | e2]];
    simpl in *; try discriminate.
  - injection Hr as <-. now apply Hk.
  - injection Hr as <-. auto.
Qed.

Lemma equiv_ret {A} (a : A) : equiv (ret a) (ret a).
Proof. intros s1 s2 Hs. auto. Qed.

Lemma equiv_raise {A} (e : exn) : equiv (@raise A e) (raise e).
Proof. intros s1 s2 Hs. auto. Qed.

Lemma equiv_exit {A} : equiv (@exit A) exit.
Proof. apply equiv_raise. Qed.

Lemma equiv_lift {A} (r : result A) : equiv (lift r) (lift r).
Proof. intros s1 s2 Hs. auto. Qed.

Lemma equiv_call_tool {A} (o : option A) : equiv (call_tool o) (call_tool o).
Proof. destruct o; [apply equiv_ret | apply equiv_raise]. Qed.

Lemma equiv_emit (e : effect) : equiv (emit e) (emit e).
Proof.
  intros s1 s2 (H1 & H2 & H3 & H4). repeat split; simpl; auto.
  rewrite !world_effects_app. now rewrite H2.
Qed.

Lemma equiv_print (l1 l2 : line) : equiv (print l1) (print l2).
Proof.
  intros s1 s2 (H1 & H2 & H3 & H4). repeat split; simpl; auto.
  rewrite !world_effects_app. simpl. now rewrite !app_nil_r.
Qed.

Lemma equiv_print_l {A} (l : line) (m1 m2 : M A) :
  equiv m1 m2 -> equiv (print l;; m1) m2.
Proof.
  intros Hm s1 s2 (H1 & H2 & H3 & H4). unfold mbind, M_bind. simpl.
  apply Hm. repeat split; simpl; auto.
  rewrite world_effects_app. simpl. now rewrite app_nil_r.
Qed.

Lemma equiv_print_r {A} (l : line) (m1 m2 : M A) :
  equiv m1 m2 -> equiv m1 (print l;; m2).
Proof.
  intros Hm s1 s2 (H1 & H2 & H3 & H4). unfold mbind, M_bind. simpl.
  apply Hm. repeat split; simpl; auto.
  rewrite world_effects_app. simpl. now rewrite app_nil_r.
Qed.

Lemma equiv_ret_print (l : line) : equiv (ret tt) (print l).
Proof.
  intros s1 s2 (H1 & H2 & H3 & H4). repeat split; simpl; auto.
  rewrite world_effects_app. simpl. now rewrite app_nil_r.
Qed.

Lemma equiv_get_count_l {A} (k : nat -> M A) (m : M A) :
  (forall n, equiv (k n) m) -> equiv (get_count ≫= k) m.
Proof. intros Hk s1 s2 Hs. apply (Hk _ s1 s2 Hs). Qed.

Lemma equiv_get_count_r {A} (k : nat -> M A) (m : M A) :
  (forall n, equiv m (k n)) -> equiv m (get_count ≫= k).
Proof. intros Hk s1 s2 Hs. apply (Hk _ s1 s2 Hs). Qed.

Lemma equiv_get_storage : equiv get_storage get_storage.
Proof. intros s1 s2 Hs. split; [assumption |]. simpl. f_equal. apply Hs. Qed.

Lemma equiv_get_all_docs : equiv get_all_docs get_all_docs.
Proof. intros s1 s2 Hs. split; [assumption |]. simpl. f_equal. apply Hs. Qed.

Lemma equiv_get_count : equiv get_count get_count.
Proof. intros s1 s2 Hs. split; [assumption |]. simpl. f_equal. apply Hs. Qed.

Lemma equiv_set_storage (n : option node) :
  equiv (set_storage n) (set_storage n).
Proof. intros s1 s2 (H1 & H2 & H3 & H4). repeat split; simpl; auto. Qed.

Lemma equiv_append_doc (doc : Document) :
  equiv (append_doc doc) (append_doc doc).
Proof.
  intros s1 s2 (H1 & H2 & H3 & H4). repeat split; simpl; auto.
  now rewrite H3.
Qed.

Lemma equiv_incr_count : equiv incr_count incr_count.
Proof.
  intros s1 s2 (H1 & H2 & H3 & H4). repeat split; simpl; auto.
Qed.

Lemma equiv_reset_accumulators :
  equiv reset_accumulators reset_accumulators.
Proof. intros s1 s2 (H1 & H2 & H3 & H4). repeat split; simpl; auto. Qed.

Lemma equiv_try_except {A} (m1 m2 : M A) (classes : list exn)
    (h1 h2 : exn -> M A) :
  equiv m1 m2 -> (forall e, equiv (h1 e) (h2 e)) ->
  equiv (try_except m1 classes h1) (try_except m2 classes h2).
Proof.
  intros Hm Hh s1 s2 Hs. unfold try_except.
  destruct (Hm s1 s2 Hs) as [Hs' Hr].
  destruct (m1 s1) as [s1' [a1 | e1]], (m2 s2) as [s2' [a2 | e2]];
    simpl in *; try discriminate; auto.
  injection Hr as <-.
  destruct (caught_by classes e1); [now apply Hh | auto].
Qed.

Lemma equiv_for_each {A} (l : list A) (b1 b2 : A -> M unit) :
  (forall x, equiv (b1 x) (b2 x)) ->
  equiv (for_each l b1) (for_each l b2).
Proof.
  intros Hb. induction l as [| x l IH]; simpl.
  - apply equiv_ret.
  - apply equiv_bind; [apply Hb | intros _; apply IH].
Qed.

Lemma equiv_filter_by {A} (keep1 keep2 : A -> M bool) (l : list A) :
  (forall x, equiv (keep1 x) (keep2 x)) ->
  equiv (filter_by keep1 l) (filter_by keep2 l).
Proof.
  intros Hk. induction l as [| x l IH]; simpl.
  - apply equiv_ret.
  - apply equiv_bind; [apply Hk | intros b].
    apply equiv_bind; [apply IH | intros rest]. apply equiv_ret.
Qed.

Create HintDb equiv discriminated.
#[local] Hint Resolve equiv_ret equiv_raise equiv_exit equiv_lift equiv_call_tool equiv_emit equiv_print
  equiv_get_storage equiv_get_all_docs equiv_get_count equiv_set_storage
  equiv_append_doc equiv_incr_count equiv_reset_accumulators : equiv.

(** One step of a proof that two computations are equivalent: through a
    bind, a handler, a loop or a test, or by a primitive. *)
Ltac equiv_step :=
  first
    [ solve [auto with equiv]
    | match goal with
      | |- forall _, _ => intro
      | |- equiv (let x := _ in _) _ => cbv zeta
      | |- equiv (if ?b then _ else _) (if ?b then _ else _) => destruct b
      | |- equiv (match ?x with _ => _ end) (match ?x with _ => _ end) =>
          destruct x
      | |- equiv (_ ≫= _) (_ ≫= _) => apply equiv_bind
      | |- equiv (try_except _ _ _) (try_except _ _ _) =>
          apply equiv_try_except
      | |- equiv (for_each _ _) (for_each _ _) => apply equiv_for_each
      | |- equiv (filter_by _ _) (filter_by _ _) => apply equiv_filter_by
      end ].

Section Agreement.
Context {rt : PyRuntime}.
Variable cfg : Config.
Variable tools : Tools.
Variable w : World.

Lemma equiv_db_exists : equiv (db_exists cfg) (db_exists cfg).
Proof. unfold db_exists. repeat equiv_step. Qed.

Lemma equiv_rmtree : equiv (rmtree cfg) (rmtree cfg).
Proof. unfold rmtree. repeat equiv_step. Qed.

Lemma equiv_read_text (path : str) : equiv (read_text w path) (read_text w path).
Proof. unfold read_text. repeat equiv_step. Qed.

Lemma equiv_listdir (path : str) : equiv (listdir w path) (listdir w path).
Proof. unfold listdir. repeat equiv_step. Qed.

Lemma equiv_isdir (path : str) : equiv (isdir w path) (isdir w path).
Proof. unfold isdir. repeat equiv_step. Qed.

Lemma equiv_from_documents (docs : list Document) :
  equiv (from_documents cfg tools docs) (from_documents cfg tools docs).
Proof. unfold from_documents. repeat equiv_step. Qed.

#[local] Hint Resolve equiv_db_exists equiv_rmtree equiv_read_text
  equiv_listdir equiv_isdir equiv_from_documents : equiv.

Lemma equiv_clean_up : equiv (Script1.clean_up cfg) (Script2.clean_up cfg).
Proof. unfold Script1.clean_up, Script2.clean_up. repeat equiv_step. Qed.

Lemma equiv_load_topics :
  equiv (Script1.load_topics w) (Script2.load_topics w).
Proof. unfold Script1.load_topics, Script2.load_topics. repeat equiv_step. Qed.

Lemma equiv_index_file (folder_name md_file file_path : str) (tid : value) :
  equiv (Script1.index_file tools w folder_name md_file file_path tid)
        (Script2.index_file tools w folder_name md_file file_path tid).
Proof. unfold Script1.index_file, Script2.index_file. repeat equiv_step. Qed.

#[local] Hint Resolve equiv_index_file : equiv.

Lemma equiv_process_folder (tm : value) (folder_name : str) :
  equiv (Script1.process_folder tools w tm folder_name)
        (Script2.process_folder tools w tm folder_name).
Proof.
  unfold Script1.process_folder, Script2.process_folder.
  repeat equiv_step.
Qed.

#[local] Hint Resolve equiv_process_folder : equiv.

Lemma equiv_process_folders (tm : value) :
  equiv (Script1.process_folders tools w tm)
        (Script2.process_folders tools w tm).
Proof.
  unfold Script1.process_folders, Script2.process_folders.
  repeat equiv_step.
Qed.

#[local] Hint Resolve equiv_clean_up equiv_load_topics
  equiv_process_folders : equiv.

Lemma equiv_gather : equiv (Script1.gather cfg tools w) (Script2.gather cfg tools w).
Proof.
  unfold Script1.gather, Script2.gather. repeat equiv_step.
Qed.

Lemma equiv_final_report : equiv Script1.final_report Script2.final_report.
Proof.
  unfold Script1.final_report, Script2.final_report.
  apply equiv_get_count_l; intros count.
  apply equiv_bind; [apply equiv_get_all_docs | intros docs].
  apply equiv_print_l. destruct docs as [| doc docs].
  - repeat equiv_step.
  - apply equiv_get_count_r; intros count'. apply equiv_ret_print.
Qed.

Lemma equiv_create_store :
  equiv (Script1.create_store cfg tools) (Script2.create_store cfg tools).
Proof.
  unfold Script1.create_store, Script2.create_store. repeat equiv_step.
Qed.

#[local] Hint Resolve equiv_gather equiv_final_report
  equiv_create_store : equiv.

Lemma equiv_main : equiv (Script1.main cfg tools w) (Script2.main cfg tools w).
Proof.
  unfold Script1.main, Script2.main. repeat equiv_step.
Qed.

End Agreement.

(** *** Invariants *)

Lemma preserves_bind {A B} (I : state -> Prop) (m : M A) (k : A -> M B) :
  preserves I m -> (forall a, preserves I (k a)) -> preserves I (m ≫= k).
Proof.
  intros Hm Hk s Hs. unfold mbind, M_bind.
  specialize (Hm s Hs). destruct (m s) as [s' [a | e]]; simpl in *.
  - now apply Hk.
  - assumption.
Qed.

(** A computation that leaves the state alone keeps every invariant. *)
Lemma preserves_pure {A} (I : state -> Prop) (m : M A) :
  (forall s, fst (m s) = s) -> preserves I m.
Proof. intros Hm s Hs. now rewrite Hm. Qed.

Lemma preserves_ret {A} (I : state -> Prop) (a : A) : preserves I (ret a).
Proof. now apply preserves_pure. Qed.

Lemma preserves_raise {A} (I : state -> Prop) (e : exn) :
  preserves I (@raise A e).
Proof. now apply preserves_pure. Qed.

Lemma preserves_exit {A} (I : state -> Prop) : preserves I (@exit A).
Proof. now apply preserves_pure. Qed.

Lemma preserves_lift {A} (I : state -> Prop) (r : result A) :
  preserves I (lift r).
Proof. now apply preserves_pure. Qed.

Lemma preserves_call_tool {A} (I : state -> Prop) (o : option A) :
  preserves I (call_tool o).
Proof. apply preserves_pure. now destruct o. Qed.

Lemma preserves_get_storage (I : state -> Prop) : preserves I get_storage.
Proof. now apply preserves_pure. Qed.

Lemma preserves_get_all_docs (I : state -> Prop) : preserves I get_all_docs.
Proof. now apply preserves_pure. Qed.

Lemma preserves_get_count (I : state -> Prop) : preserves I get_count.
Proof. now apply preserves_pure. Qed.

Lemma preserves_try_except {A} (I : state -> Prop) (m : M A)
    (classes : list exn) (h : exn -> M A) :
  preserves I m -> (forall e, preserves I (h e)) ->
  preserves I (try_except m classes h).
Proof.
  intros Hm Hh s Hs. unfold try_except.
  specialize (Hm s Hs). destruct (m s) as [s' [a | e]]; simpl in *; auto.
  destruct (caught_by classes e); [now apply Hh | assumption].
Qed.

Lemma preserves_for_each {A} (I : state -> Prop) (l : list A)
    (body : A -> M unit) :
  (forall x, preserves I (body x)) -> preserves I (for_each l body).
Proof.
  intros Hb. induction l as [| x l IH]; simpl.
  - apply preserves_ret.
  - apply preserves_bind; [apply Hb | intros _; apply IH].
Qed.

Lemma preserves_filter_by {A} (I : state -> Prop) (keep : A -> M bool)
    (l : list A) :
  (forall x, preserves I (keep x)) -> preserves I (filter_by keep l).
Proof.
  intros Hk. induction l as [| x l IH]; simpl.
  - apply preserves_ret.
  - apply preserves_bind; [apply Hk | intros b].
    apply preserves_bind; [apply IH | intros rest]. apply preserves_ret.
Qed.

Create HintDb preserves discriminated.
#[local] Hint Resolve preserves_ret preserves_raise preserves_exit
  preserves_lift preserves_call_tool preserves_get_storage
  preserves_get_all_docs preserves_get_count : preserves.

Ltac preserves_step :=
  first
    [ solve [auto with preserves]
    | match goal with
      | |- forall _, _ => intro
      | |- preserves _ (let x := _ in _) => cbv zeta
      | |- preserves _ (if ?b then _ else _) => destruct b
      | |- preserves _ (match ?x with _ => _ end) => destruct x
      | |- preserves _ (_ ≫= _) => apply preserves_bind
      | |- preserves _ (try_except _ _ _) => apply preserves_try_except
      | |- preserves _ (for_each _ _) => apply preserves_for_each
      | |- preserves _ (filter_by _ _) => apply preserves_filter_by
      end ].

(** *** The invariants of the scripts *)

#[local] Instance storage_absent_acc_blind : AccBlind storage_absent.
Proof. split; [| | intros doc]; intros s Hs; exact Hs. Qed.

#[local] Instance nothing_written_call_blind : CallBlind nothing_written.
Proof.
  intros e He s Hs. unfold nothing_written in *. simpl.
  apply Forall_app. split; [assumption |]. now constructor.
Qed.

#[local] Instance nothing_written_acc_blind : AccBlind nothing_written.
Proof. split; [| | intros doc]; intros s Hs; exact Hs. Qed.

#[local] Instance nothing_written_storage_blind : StorageBlind nothing_written.
Proof. intros n s Hs. exact Hs. Qed.

#[local] Instance no_docs_call_blind : CallBlind no_docs.
Proof. intros e _ s Hs. exact Hs. Qed.

#[local] Instance no_docs_storage_blind : StorageBlind no_docs.
Proof. intros n s Hs. exact Hs. Qed.

Lemma begins_with_emit (l : list effect) (e : effect) :
  preserves (begins_with l) (emit e).
Proof.
  intros s [post Hs]. unfold begins_with. simpl.
  rewrite world_effects_app, Hs, <- app_assoc. eauto.
Qed.

#[local] Instance begins_with_acc_blind (l : list effect) :
  AccBlind (begins_with l).
Proof. split; [| | intros doc]; intros s Hs; exact Hs. Qed.

#[local] Instance begins_with_storage_blind (l : list effect) :
  StorageBlind (begins_with l).
Proof. intros n s Hs. exact Hs. Qed.

#[local] Instance docs_mapped_call_blind (tm : value) :
  CallBlind (docs_mapped tm).
Proof. intros e _ s Hs. exact Hs. Qed.

#[local] Instance docs_mapped_storage_blind (tm : value) :
  StorageBlind (docs_mapped tm).
Proof. intros n s Hs. exact Hs. Qed.

Lemma docs_mapped_append_doc (tm : value) (doc : Document) :
  mapped tm doc -> preserves (docs_mapped tm) (append_doc doc).
Proof.
  intros Hdoc s Hs. unfold docs_mapped in *. simpl.
  apply Forall_app. split; [assumption | now constructor].
Qed.

#[local] Instance effect_blind_call_blind (I : state -> Prop)
    `{!EffectBlind I} : CallBlind I.
Proof. intros e _. apply effect_blind. Qed.

#[local] Instance storage_absent_effect_blind : EffectBlind storage_absent.
Proof. intros e s Hs. exact Hs. Qed.

#[local] Instance begins_with_effect_blind (l : list effect) :
  EffectBlind (begins_with l).
Proof. intros e. apply begins_with_emit. Qed.

#[local] Instance docs_are_effect_blind (docs : list Document) :
  EffectBlind (fun s => all_docs s = docs).
Proof. intros e s Hs. exact Hs. Qed.

#[local] Instance docs_are_storage_blind (docs : list Document) :
  StorageBlind (fun s => all_docs s = docs).
Proof. intros n s Hs. exact Hs. Qed.

Lemma preserves_and {A} (I J : state -> Prop) (m : M A) :
  preserves I m -> preserves J m ->
  preserves (fun s => I s /\ J s) m.
Proof. intros HI HJ s [Hi Hj]. split; [now apply HI | now apply HJ]. Qed.

Lemma preserves_print (I : state -> Prop) `{!CallBlind I} (l : line) :
  preserves I (print l).
Proof. now apply call_blind. Qed.

Lemma preserves_emit (I : state -> Prop) `{!CallBlind I} (e : effect) :
  is_write e = false -> preserves I (emit e).
Proof. apply call_blind. Qed.

#[local] Hint Resolve preserves_print storage_blind acc_blind_incr
  acc_blind_reset acc_blind_append : preserves.
#[local] Hint Extern 0 (CallBlind _) => typeclasses eauto : preserves.
#[local] Hint Extern 0 (EffectBlind _) => typeclasses eauto : preserves.
#[local] Hint Extern 0 (AccBlind _) => typeclasses eauto : preserves.
#[local] Hint Extern 0 (StorageBlind _) => typeclasses eauto : preserves.
#[local] Hint Extern 1 (preserves _ (emit _)) =>
  first [ apply preserves_emit; [typeclasses eauto | reflexivity]
        | apply effect_blind ] : preserves.

Section Phases.
Context {rt : PyRuntime}.
Variable cfg : Config.
Variable tools : Tools.
Variable w : World.

Lemma preserves_read_text (I : state -> Prop) `{!CallBlind I} (path : str) :
  preserves I (read_text w path).
Proof. unfold read_text. repeat preserves_step. Qed.

Lemma preserves_listdir (I : state -> Prop) `{!CallBlind I} (path : str) :
  preserves I (listdir w path).
Proof. unfold listdir. repeat preserves_step. Qed.

Lemma preserves_isdir (I : state -> Prop) `{!CallBlind I} (path : str) :
  preserves I (isdir w path).
Proof. unfold isdir. repeat preserves_step. Qed.

Lemma preserves_db_exists (I : state -> Prop) `{!CallBlind I} :
  preserves I (db_exists cfg).
Proof. unfold db_exists. repeat preserves_step. Qed.

Lemma preserves_rmtree (I : state -> Prop)
    `{!CallBlind I, !StorageBlind I} :
  preserves I (rmtree cfg).
Proof. unfold rmtree. repeat preserves_step. Qed.

#[local] Hint Resolve preserves_read_text preserves_listdir preserves_isdir
  preserves_db_exists preserves_rmtree : preserves.

Lemma preserves_clean_up (I : state -> Prop)
    `{!CallBlind I, !StorageBlind I} :
  preserves I (Script1.clean_up cfg).
Proof. unfold Script1.clean_up. repeat preserves_step. Qed.

Lemma preserves_load_topics (I : state -> Prop) `{!CallBlind I} :
  preserves I (Script1.load_topics w).
Proof. unfold Script1.load_topics. repeat preserves_step. Qed.

Lemma preserves_index_file (I : state -> Prop)
    `{!CallBlind I, !AccBlind I} (folder_name md_file file_path : str)
    (tid : value) :
  preserves I (Script1.index_file tools w folder_name md_file file_path tid).
Proof. unfold Script1.index_file. repeat preserves_step. Qed.

#[local] Hint Resolve preserves_index_file : preserves.

Lemma preserves_process_folder (I : state -> Prop)
    `{!CallBlind I, !AccBlind I} (tm : value) (folder_name : str) :
  preserves I (Script1.process_folder tools w tm folder_name).
Proof. unfold Script1.process_folder. repeat preserves_step. Qed.

#[local] Hint Resolve preserves_process_folder : preserves.

Lemma preserves_process_folders (I : state -> Prop)
    `{!CallBlind I, !AccBlind I} (tm : value) :
  preserves I (Script1.process_folders tools w tm).
Proof. unfold Script1.process_folders. repeat preserves_step. Qed.

Lemma preserves_final_report (I : state -> Prop) `{!CallBlind I} :
  preserves I Script1.final_report.
Proof. unfold Script1.final_report. repeat preserves_step. Qed.

#[local] Hint Resolve preserves_clean_up preserves_load_topics
  preserves_process_folders preserves_final_report : preserves.

Lemma preserves_gather (I : state -> Prop)
    `{!CallBlind I, !AccBlind I, !StorageBlind I} :
  preserves I (Script1.gather cfg tools w).
Proof. unfold Script1.gather. repeat preserves_step. Qed.


(** *** How the phases end *)

Lemma hoare_bind {A B} (P : state -> Prop) (m : M A) (k : A -> M B)
    (Q1 : result A -> state -> Prop) (Q : result B -> state -> Prop) :
  hoare P m Q1 ->
  (forall a, hoare (Q1 (Ok a)) (k a) Q) ->
  (forall e s, Q1 (Raise e) s -> Q (Raise e) s) ->
  hoare P (m ≫= k) Q.
Proof.
  intros Hm Hk He s Hs. unfold mbind, M_bind.
  specialize (Hm s Hs). destruct (m s) as [s' [a | e]]; simpl in *.
  - now apply Hk.
  - now apply He.
Qed.

Lemma hoare_preserves {A} (I : state -> Prop) (m : M A) :
  preserves I m -> hoare I m (fun _ s => I s).
Proof. intros Hm s Hs. now apply Hm. Qed.

Lemma hoare_conseq {A} (P P' : state -> Prop) (m : M A)
    (Q Q' : result A -> state -> Prop) :
  hoare P' m Q' -> (forall s, P s -> P' s) ->
  (forall r s, Q' r s -> Q r s) -> hoare P m Q.
Proof. intros Hm HP HQ s Hs. apply HQ, Hm, HP, Hs. Qed.

Lemma clean_up_cleaned :
  hoare (fun _ => True) (Script1.clean_up cfg) cleaned.
Proof.
  intros s _.
  unfold Script1.clean_up, db_exists, rmtree, cleaned, storage_absent,
    mbind, M_bind, emit, print, get_storage, set_storage, ret, raise.
  cbn [fst snd storage].
  destruct (storage s) as [[| cols] |]; cbn [fst snd storage]; auto.
Qed.

Lemma cleaned_ok {A} (a : A) (s : state) :
  cleaned (Ok a) s -> storage_absent s.
Proof. intros [H | H]; [assumption | discriminate]. Qed.

Lemma cleaned_raise {A B} (e : exn) (s : state) :
  @cleaned A (Raise e) s -> @cleaned B (Raise e) s.
Proof. intros [H | [= ->]]; [now left | now right]. Qed.

Lemma cleaned_exit_clean {A} (r : result A) (s : state) :
  cleaned r s -> exit_clean r s.
Proof.
  intros [H | ->]; [| exact I].
  unfold exit_clean. destruct r as [a | []]; auto.
Qed.

Lemma hoare_print_seq {A} (P : state -> Prop) `{!CallBlind P} (l : line)
    (m : M A) (Q : result A -> state -> Prop) :
  hoare P m Q -> hoare P (print l;; m) Q.
Proof.
  intros Hm s Hs. unfold mbind, M_bind, print. cbn [emit fst snd].
  apply Hm. now apply (call_blind (Stdout l) eq_refl s).
Qed.

#[local] Instance true_call_blind : CallBlind (fun _ => True).
Proof. intros e _ s _. exact I. Qed.

(** Sections 1 to 5 end with the storage location absent, unless the
    clean-up failed. *)
Lemma gather_cleaned :
  hoare (fun _ => True) (Script1.gather cfg tools w) cleaned.
Proof.
  unfold Script1.gather.
  do 2 apply (hoare_print_seq (fun _ => True)).
  apply hoare_bind with (Q1 := cleaned);
    [apply clean_up_cleaned | intros [] | intros e s; apply cleaned_raise].
  apply hoare_conseq with (P' := storage_absent)
                          (Q' := fun _ s => storage_absent s);
    [| intros s; apply cleaned_ok | intros r s H; now left].
  apply hoare_preserves. repeat preserves_step.
Qed.

(** The creation of the store does not end on [SystemExit]. *)
Lemma create_store_no_exit (s : state) :
  storage_absent s ->
  snd (Script1.create_store cfg tools s) <> Raise SystemExit.
Proof.
  unfold storage_absent. intros Hs.
  unfold Script1.create_store, from_documents, mbind, M_bind, print, emit,
    get_all_docs, get_storage, set_storage, call_tool, ret, raise.
  cbn [fst snd storage all_docs]. rewrite Hs.
  destruct (embed_documents tools _); cbn [fst snd]; discriminate.
Qed.

(** A whole run that ends on [SystemExit] leaves no index behind. *)
Lemma main_exit_clean :
  hoare (fun _ => True) (Script1.main cfg tools w) exit_clean.
Proof.
  unfold Script1.main.
  apply hoare_bind with (Q1 := cleaned);
    [apply gather_cleaned | intros []
     | intros e s H; apply cleaned_exit_clean; revert H;
       apply cleaned_raise].
  apply hoare_conseq with (P' := storage_absent) (Q' := exit_clean);
    [| intros s; apply cleaned_ok | auto].
  apply hoare_bind with (Q1 := fun _ s => storage_absent s).
  - apply hoare_preserves, preserves_final_report. typeclasses eauto.
  - intros [] s Hs. pose proof (create_store_no_exit s Hs) as Hne.
    unfold exit_clean.
    destruct (snd (Script1.create_store cfg tools s)) as [a | []];
      try exact I. congruence.
  - intros e s Hs. unfold exit_clean. now destruct e.
Qed.


(** *** The first calls of a run *)

Lemma hoare_seq {A} (P : state -> Prop) (m0 : M unit) (m : M A)
    (Q : result A -> state -> Prop) :
  preserves P m0 -> (forall s, snd (m0 s) = Ok tt) ->
  hoare P m Q -> hoare P (m0;; m) Q.
Proof.
  intros H0 Hok Hm s Hs. unfold mbind, M_bind.
  specialize (H0 s Hs). specialize (Hok s).
  destruct (m0 s) as [s' r]. simpl in *. subst r. now apply Hm.
Qed.

Lemma untouched_print (n : node) (l : line) :
  preserves (untouched n) (print l).
Proof.
  intros s [H1 H2]. split; [exact H1 |]. simpl.
  rewrite world_effects_app, H2. reflexivity.
Qed.

Lemma clean_up_calls (n : node) :
  hoare (untouched n) (Script1.clean_up cfg)
        (fun _ s => begins_with (cleanup_calls cfg) s).
Proof.
  intros s [H1 H2].
  unfold Script1.clean_up, db_exists, rmtree, mbind, M_bind, print, emit,
    get_storage, set_storage, ret, raise.
  cbn [fst snd storage effects]. rewrite H1. cbn [fst snd storage effects].
  exists [].
  destruct n as [| cols]; cbn [fst snd effects];
    rewrite !world_effects_app, H2; reflexivity.
Qed.

Lemma preserves_from_documents (I : state -> Prop)
    `{!EffectBlind I, !StorageBlind I} (docs : list Document) :
  preserves I (from_documents cfg tools docs).
Proof. unfold from_documents. repeat preserves_step. Qed.

#[local] Hint Resolve preserves_from_documents : preserves.

Lemma preserves_create_store (I : state -> Prop)
    `{!EffectBlind I, !StorageBlind I} :
  preserves I (Script1.create_store cfg tools).
Proof. unfold Script1.create_store. repeat preserves_step. Qed.

#[local] Hint Resolve preserves_create_store : preserves.

Lemma main_begins_with_cleanup (n : node) :
  hoare (untouched n) (Script1.main cfg tools w)
        (fun _ s => begins_with (cleanup_calls cfg) s).
Proof.
  unfold Script1.main, Script1.gather.
  apply hoare_bind with (Q1 := fun _ s => begins_with (cleanup_calls cfg) s);
    [| intros [] | auto].
  - do 2 (apply hoare_seq; [apply untouched_print | reflexivity |]).
    apply hoare_bind with (Q1 := fun _ s => begins_with (cleanup_calls cfg) s);
      [apply clean_up_calls | intros [] | auto].
    apply hoare_preserves. repeat preserves_step.
  - apply hoare_preserves. repeat preserves_step.
Qed.


(** *** The topic carried by the chunks *)

Lemma preserves_bind_lift {A B} (I : state -> Prop) (r : result A)
    (k : A -> M B) :
  (forall a, r = Ok a -> preserves I (k a)) -> preserves I (lift r ≫= k).
Proof.
  intros Hk s Hs. unfold mbind, M_bind, lift.
  destruct r as [a | e]; [now apply (Hk a) | exact Hs].
Qed.

Lemma getitem_mapped (tm tid : value) (chunk md_file folder_name : str) :
  py_getitem tm folder_name = Ok tid ->
  mapped tm (make_doc chunk md_file folder_name tid).
Proof.
  unfold py_getitem. destruct tm as [| | | | | | d]; try discriminate.
  destruct (dict_get d folder_name) as [x |] eqn:Hx; [| discriminate].
  intros [= ->]. exists d. split; [reflexivity | exact Hx].
Qed.

Lemma docs_mapped_incr (tm : value) : preserves (docs_mapped tm) incr_count.
Proof. intros s Hs. exact Hs. Qed.

Lemma docs_mapped_reset (tm : value) :
  preserves (docs_mapped tm) reset_accumulators.
Proof. intros s Hs. constructor. Qed.

Lemma process_folder_mapped (tm : value) (folder_name : str) :
  preserves (docs_mapped tm)
            (Script1.process_folder tools w tm folder_name).
Proof.
  unfold Script1.process_folder.
  apply preserves_bind; [auto with preserves | intros [|]];
    [| auto with preserves].
  apply preserves_bind_lift. intros tid Htid. cbv zeta.
  apply preserves_bind; [apply docs_mapped_incr | intros _].
  apply preserves_bind; [auto with preserves | intros names].
  destruct (List.filter _ names) as [| f fs]; [auto with preserves |].
  apply preserves_for_each. intros md_file.
  apply preserves_try_except; [| auto with preserves].
  unfold Script1.index_file.
  apply preserves_bind; [auto with preserves | intros content].
  apply preserves_bind; [auto with preserves | intros chunks].
  apply preserves_for_each. intros chunk.
  apply docs_mapped_append_doc. now apply getitem_mapped.
Qed.

Lemma process_folders_mapped (tm : value) :
  preserves (docs_mapped tm) (Script1.process_folders tools w tm).
Proof.
  unfold Script1.process_folders.
  apply preserves_bind; [auto with preserves | intros _].
  apply preserves_bind; [apply docs_mapped_reset | intros _].
  apply preserves_bind; [auto with preserves | intros entries].
  apply preserves_bind; [repeat preserves_step | intros folders].
  apply preserves_for_each. intros folder_name.
  apply process_folder_mapped.
Qed.

(** The topic map the script works with is what [topics.json] holds. *)
Lemma load_topics_loaded (s : state) (tm : value) :
  snd (Script1.load_topics w s) = Ok tm -> loaded w tm.
Proof.
  unfold Script1.load_topics, read_text, try_except, mbind, M_bind, print,
    emit, lift, exit, raise.
  cbn [fst snd].
  destruct (fs_read w TOPICS_JSON_PATH) as [content | e] eqn:Hread.
  - destruct (json_loads content) as [tm' | e] eqn:Hload.
    + cbn [snd]. intros [= ->]. now exists content.
    + destruct (caught_by [FileNotFoundError] e); cbn [snd]; discriminate.
  - destruct (caught_by [FileNotFoundError] e); cbn [snd]; discriminate.
Qed.

Lemma gather_chunks_sound :
  hoare no_docs (Script1.gather cfg tools w) (fun _ s => chunks_sound w s).
Proof.
  unfold Script1.gather.
  do 2 (apply hoare_seq; [auto with preserves | reflexivity |]).
  apply hoare_bind with (Q1 := fun _ s => no_docs s);
    [apply hoare_preserves; auto with preserves | intros []
     | intros e s H; now left].
  apply hoare_bind
    with (Q1 := fun r s => no_docs s /\ forall tm, r = Ok tm -> loaded w tm).
  - intros s Hs. split; [apply preserves_load_topics; auto with preserves |].
    intros tm. apply load_topics_loaded.
  - intros tm s [Hs Hl]. right. exists tm. split; [now apply Hl |].
    apply process_folders_mapped. unfold docs_mapped. rewrite Hs.
    constructor.
  - intros e s [Hs _]. now left.
Qed.

Lemma main_chunks_sound :
  hoare no_docs (Script1.main cfg tools w) (fun _ s => chunks_sound w s).
Proof.
  unfold Script1.main.
  apply hoare_bind with (Q1 := fun _ s => chunks_sound w s);
    [apply gather_chunks_sound | intros [] | auto].
  intros s Hs. unfold chunks_sound, docs_mapped in *.
  assert (Hdocs : all_docs (fst ((Script1.final_report;;
                                  Script1.create_store cfg tools) s))
                  = all_docs s).
  { apply (preserves_bind (fun s' => all_docs s' = all_docs s));
      [auto with preserves | intros _; auto with preserves | reflexivity]. }
  now rewrite Hdocs.
Qed.

(** *** The halt on an empty corpus *)

Lemma nothing_written_world (s : state) :
  nothing_written s
  <-> Forall (fun e => is_write e = false) (world_effects (effects s)).
Proof.
  unfold nothing_written, world_effects. rewrite !List.Forall_forall.
  split.
  - intros H e He. apply List.filter_In in He as [He _]. now apply H.
  - intros H e He. destruct (is_stdout e) eqn:Hout.
    + now destruct e.
    + apply H. apply List.filter_In. split; [assumption |]. now rewrite Hout.
Qed.

Lemma bind_ok {A B} (m : M A) (k : A -> M B) (s s' : state) (a : A) :
  m s = (s', Ok a) -> (m ≫= k) s = k a s'.
Proof. intros H. unfold mbind, M_bind. now rewrite H. Qed.

Lemma empty_corpus_halt_1 (n : option node) (s : state) :
  Script1.gather cfg tools w (initial n) = (s, Ok tt) ->
  all_docs s = [] ->
  let r := Script1.main cfg tools w (initial n) in
  snd r = Raise SystemExit
  /\ storage (fst r) = None
  /\ nothing_written (fst r)
  /\ world_effects (effects (fst r)) = world_effects (effects s).
Proof.
  intros Hg Hdocs. cbv zeta. unfold Script1.main.
  rewrite (bind_ok _ _ _ _ _ Hg).
  pose proof (gather_cleaned (initial n) I) as Hc.
  pose proof (preserves_gather nothing_written (initial n)) as Hw.
  rewrite Hg in Hc, Hw. cbn [fst snd] in Hc, Hw.
  apply cleaned_ok in Hc.
  assert (Hw' : nothing_written s) by (apply Hw; constructor).
  clear Hw.
  unfold Script1.final_report, mbind, M_bind, get_count, get_all_docs,
    print, emit, exit, raise.
  cbn [fst snd all_docs]. rewrite Hdocs. cbn [fst snd storage effects].
  repeat split.
  - exact Hc.
  - unfold nothing_written in *. cbn [effects].
    repeat (apply Forall_app; split); try assumption; now repeat constructor.
  - rewrite !world_effects_app. cbn. now rewrite !app_nil_r.
Qed.

End Phases.

(** *** The two scripts, side by side *)

Lemma main_agree {rt : PyRuntime} (cfg : Config) (tools : Tools) (w : World)
    (n : option node) :
  sim (fst (Script1.main cfg tools w (initial n)))
      (fst (Script2.main cfg tools w (initial n)))
  /\ snd (Script1.main cfg tools w (initial n))
     = snd (Script2.main cfg tools w (initial n)).
Proof. apply equiv_main, sim_refl. Qed.

Lemma gather_agree {rt : PyRuntime} (cfg : Config) (tools : Tools)
    (w : World) (n : option node) :
  sim (fst (Script1.gather cfg tools w (initial n)))
      (fst (Script2.gather cfg tools w (initial n)))
  /\ snd (Script1.gather cfg tools w (initial n))
     = snd (Script2.gather cfg tools w (initial n)).
Proof. apply equiv_gather, sim_refl. Qed.

(** *** A run on a small corpus

    The folder [Asthma] is in the topic map and holds one markdown file:
    one chunk is built and written, in place of the old index; the folder
    [Misc], the plain file [README] and [notes.txt] contribute nothing. *)
Example small_corpus_run :
  let r := Script1.main (rt := ascii_runtime) sample_config sample_tools
             small_corpus (initial (Some old_index)) in
  snd r = Ok tt
  /\ processed_topics_count (fst r) = 1%nat
  /\ records_written (lit "medical_topics") (storage (fst r))
     = [(lit "Asthma is a chronic disease.", lit "a.md", lit "Asthma",
         VInt 1)]
  /\ world_effects (effects (fst r))
     = [PathExists (lit "./chroma_db"); RmTree (lit "./chroma_db");
        OpenRead (lit "data/topics.json"); ListDir (lit "data/topics/");
        IsDir (lit "data/topics/Asthma"); IsDir (lit "data/topics/Misc");
        IsDir (lit "data/topics/README");
        ListDir (lit "data/topics/Asthma");
        OpenRead (lit "data/topics/Asthma/a.md");
        FromDocuments
          [make_doc (lit "Asthma is a chronic disease.") (lit "a.md")
             (lit "Asthma") (VInt 1)]].
Proof. vm_compute. repeat split. Qed.

(** ** Claims about the indexing scripts *)

(** C6: from the same storage location, corpus, settings and tools, the
    two scripts end the same way (completion, [exit()], or the same
    exception), leave the same index behind, with the same records in the
    same order, have built the same chunks and have made the same calls
    on the world; they differ in what they print only. *)
Theorem scripts_differ_only_in_console {rt : PyRuntime}
    (cfg : Config) (tools : Tools) (w : World) (n : option node) :
  let r1 := Script1.main cfg tools w (initial n) in
  let r2 := Script2.main cfg tools w (initial n) in
  snd r1 = snd r2
  /\ storage (fst r1) = storage (fst r2)
  /\ records_written (COLLECTION_NAME cfg) (storage (fst r1))
     = records_written (COLLECTION_NAME cfg) (storage (fst r2))
  /\ all_docs (fst r1) = all_docs (fst r2)
  /\ world_effects (effects (fst r1)) = world_effects (effects (fst r2)).
Proof.
  cbv zeta.
  destruct (main_agree cfg tools w n) as [(Hst & Hfx & Hdocs & _) Hres].
  repeat split; try assumption. now rewrite Hst.
Qed.

(** C4: whatever way a run ends, either it has built no chunk, or
    [topics.json] holds a JSON object and every chunk built carries, as
    [topic_id], the value of that object under the chunk's [topic_name],
    which is therefore one of its keys; a folder name that is not a key
    is the [topic_name] of no chunk. *)
Theorem chunks_carry_mapped_topics {rt : PyRuntime} (p : script)
    (cfg : Config) (tools : Tools) (w : World) (n : option node) :
  let docs := all_docs (fst (main_of p cfg tools w (initial n))) in
  docs = []
  \/ exists d,
       loaded w (VDict d)
       /\ Forall (fun doc => dict_get d (topic_name (metadata doc))
                             = Some (topic_id (metadata doc))) docs
       /\ forall folder_name,
            dict_get d folder_name <> None
            \/ Forall (fun doc => topic_name (metadata doc) <> folder_name)
                      docs.
Proof.
  cbv zeta.
  assert (H1 : chunks_sound w (fst (Script1.main cfg tools w (initial n))))
    by (apply main_chunks_sound; reflexivity).
  assert (H : chunks_sound w (fst (main_of p cfg tools w (initial n)))).
  { destruct p; [exact H1 |]. simpl.
    destruct (main_agree cfg tools w n) as [(_ & _ & Hdocs & _) _].
    unfold chunks_sound, docs_mapped in *. now rewrite <- Hdocs. }
  clear H1. destruct H as [H | (tm & Hload & Hmapped)]; [now left |].
  unfold docs_mapped in Hmapped.
  destruct (all_docs _) as [| doc docs] eqn:Hdocs; [now left | right].
  pose proof (Forall_inv Hmapped) as (d & -> & _).
  exists d. split; [exact Hload |].
  assert (Hall : Forall (fun doc => dict_get d (topic_name (metadata doc))
                                    = Some (topic_id (metadata doc)))
                        (doc :: docs)).
  { apply List.Forall_forall. intros x Hx.
    rewrite List.Forall_forall in Hmapped.
    destruct (Hmapped x Hx) as (d' & [= <-] & Hd'). exact Hd'. }
  split; [exact Hall |].
  intros folder_name.
  destruct (dict_get d folder_name) as [tid |] eqn:Hf; [now left | right].
  apply List.Forall_forall. intros x Hx Heq.
  rewrite List.Forall_forall in Hall. specialize (Hall x Hx).
  rewrite Heq, Hf in Hall. discriminate.
Qed.

(** C2, as stated, fails: on a corpus without any topic folder, and with
    an index already at the storage location, the loop ends with no
    chunk, the script stops on [exit()], and the storage location, which
    held the old index, is absent. *)
Lemma empty_corpus_run_removes_old_index :
  let g := Script1.gather (rt := ascii_runtime) sample_config sample_tools
             empty_corpus (initial (Some old_index)) in
  let r := Script1.main (rt := ascii_runtime) sample_config sample_tools
             empty_corpus (initial (Some old_index)) in
  snd g = Ok tt
  /\ all_docs (fst g) = []
  /\ snd r = Raise SystemExit
  /\ storage (fst r) = None
  /\ storage (fst r) <> storage (initial (Some old_index)).
Proof. vm_compute. repeat split; discriminate. Qed.

(** C2, amended: when the loop over the folders ends with no chunk, the
    script stops on [exit()] without having called
    [Chroma.from_documents], and the storage location is absent: a prior
    index was removed by the clean-up, so the location is as it was only
    if it did not exist before the run. *)
Theorem empty_corpus_halts_before_writing {rt : PyRuntime} (p : script)
    (cfg : Config) (tools : Tools) (w : World) (n : option node)
    (s : state) :
  gather_of p cfg tools w (initial n) = (s, Ok tt) ->
  all_docs s = [] ->
  let r := main_of p cfg tools w (initial n) in
  snd r = Raise SystemExit
  /\ nothing_written (fst r)
  /\ storage (fst r) = None.
Proof.
  intros Hg Hdocs. cbv zeta.
  assert (H1 : exists s1, Script1.gather cfg tools w (initial n) = (s1, Ok tt)
                          /\ all_docs s1 = []).
  { destruct p; [now exists s |]. simpl in Hg.
    destruct (gather_agree cfg tools w n) as [(_ & _ & Hd & _) Hres].
    rewrite Hg in Hd, Hres. cbn [fst snd] in Hd, Hres.
    destruct (Script1.gather cfg tools w (initial n)) as [s1 r1].
    cbn [fst snd] in Hd, Hres. subst r1. exists s1. split; congruence. }
  destruct H1 as (s1 & Hg1 & Hdocs1).
  destruct (empty_corpus_halt_1 cfg tools w n s1 Hg1 Hdocs1)
    as (Hres & Hst & Hw & _).
  destruct p; [auto |]. simpl.
  destruct (main_agree cfg tools w n) as [(Hst' & Hfx & _) Hres'].
  rewrite <- Hres', <- Hst'. repeat split; try assumption.
  apply nothing_written_world. rewrite <- Hfx.
  now apply nothing_written_world.
Qed.

Lemma empty_corpus_halts_before_writing_witness :
  let r := Script2.main (rt := ascii_runtime) sample_config sample_tools
             empty_corpus (initial (Some old_index)) in
  snd r = Raise SystemExit
  /\ nothing_written (fst r)
  /\ storage (fst r) = None.
Proof.
  apply (empty_corpus_halts_before_writing (rt := ascii_runtime)
           chunking_embedding_ingestion_2 sample_config sample_tools
           empty_corpus (Some old_index)
           (fst (Script2.gather (rt := ascii_runtime) sample_config
                   sample_tools empty_corpus (initial (Some old_index)))));
    vm_compute; reflexivity.
Defined.

(** C8: when the storage location exists at the start of a run, the
    first two calls the script makes on the world are the test for the
    storage location and its recursive removal, so the topic map is
    opened, and every directory and document read, after them; and a run
    that stops on [exit()] leaves the storage location absent. *)
Theorem cleanup_comes_first {rt : PyRuntime} (p : script)
    (cfg : Config) (tools : Tools) (w : World) (prior : node) :
  let r := main_of p cfg tools w (initial (Some prior)) in
  (exists post,
     world_effects (effects (fst r))
     = PathExists (DB_LOCATION cfg) :: RmTree (DB_LOCATION cfg) :: post)
  /\ exit_clean (snd r) (fst r).
Proof.
  cbv zeta.
  assert (H1 : begins_with (cleanup_calls cfg)
                 (fst (Script1.main cfg tools w (initial (Some prior))))).
  { apply (main_begins_with_cleanup cfg tools w prior). now split. }
  pose proof (main_exit_clean cfg tools w (initial (Some prior)) I) as H2.
  destruct p; [split; assumption |]. simpl.
  destruct (main_agree cfg tools w (Some prior)) as [(Hst & Hfx & _) Hres].
  rewrite <- Hres. split.
  - destruct H1 as [post H1]. exists post. now rewrite <- Hfx.
  - unfold exit_clean, storage_absent in *. now rewrite <- Hst.
Qed.

(** * Further properties *)

(** ** What a run of either script can be observed to do *)

Lemma main_of_observed {rt : PyRuntime} (p : script) (cfg : Config)
    (tools : Tools) (w : World) (n : option node) :
  sim (fst (Script1.main cfg tools w (initial n)))
      (fst (main_of p cfg tools w (initial n)))
  /\ snd (Script1.main cfg tools w (initial n))
     = snd (main_of p cfg tools w (initial n)).
Proof.
  destruct p; [split; [apply sim_refl | reflexivity] |].
  apply main_agree.
Qed.

Lemma gather_of_observed {rt : PyRuntime} (p : script) (cfg : Config)
    (tools : Tools) (w : World) (n : option node) :
  sim (fst (Script1.gather cfg tools w (initial n)))
      (fst (gather_of p cfg tools w (initial n)))
  /\ snd (Script1.gather cfg tools w (initial n))
     = snd (gather_of p cfg tools w (initial n)).
Proof.
  destruct p; [split; [apply sim_refl | reflexivity] |].
  apply gather_agree.
Qed.

(** Restate a goal about a run of the script [p] as the same goal about
    a run of the first script. *)
Ltac via_script1 p cfg tools w n :=
  let Hst := fresh "Hst" in
  let Hfx := fresh "Hfx" in
  let Hdocs := fresh "Hdocs" in
  let Hcnt := fresh "Hcnt" in
  let Hres := fresh "Hres" in
  destruct (main_of_observed p cfg tools w n)
    as [(Hst & Hfx & Hdocs & Hcnt) Hres];
  rewrite <- ?Hst, <- ?Hfx, <- ?Hdocs, <- ?Hcnt, <- ?Hres;
  clear Hst Hfx Hdocs Hcnt Hres.

Lemma loaded_iff {rt : PyRuntime} (w : World) (tm : value) :
  loaded w tm <-> load_topic_map w = Ok tm.
Proof.
  unfold loaded, load_topic_map, mbind, result_bind. split.
  - intros (content & -> & H). exact H.
  - destruct (fs_read w TOPICS_JSON_PATH) as [content | e];
      [| discriminate].
    intros H. now exists content.
Qed.

Lemma load_topic_map_missing {rt : PyRuntime} (w : World) (e : exn) :
  load_topic_map w = Raise e ->
  isinstance e FileNotFoundError = true ->
  fs_read w TOPICS_JSON_PATH = Raise e.
Proof.
  unfold load_topic_map, mbind, result_bind.
  destruct (fs_read w TOPICS_JSON_PATH) as [content | e']; [| congruence].
  intros H. apply json_loads_errors in H as [-> | ->]; discriminate.
Qed.

Section FailurePaths.
Context {rt : PyRuntime}.
Variable cfg : Config.
Variable tools : Tools.
Variable w : World.

Ltac run_script :=
  unfold Script1.main, Script1.gather, Script1.clean_up, Script1.load_topics,
    Script1.process_folders,
    db_exists, rmtree, read_text, listdir, try_except, mbind, M_bind, print,
    emit, get_storage, set_storage, reset_accumulators, lift, exit, ret,
    raise, initial.

Lemma missing_topic_map_1 (n : option node) (e : exn) :
  n <> Some RegularFile ->
  load_topic_map w = Raise e ->
  isinstance e FileNotFoundError = true ->
  let r := Script1.main cfg tools w (initial n) in
  snd r = Raise SystemExit
  /\ storage (fst r) = None
  /\ all_docs (fst r) = []
  /\ world_effects (effects (fst r))
     = cleanup_trace cfg n ++ [OpenRead TOPICS_JSON_PATH].
Proof.
  intros Hn Hload Hinst. cbv zeta.
  pose proof (load_topic_map_missing w e Hload Hinst) as Hread.
  run_script.
  destruct n as [[| cols] |]; [congruence | |];
    cbn [fst snd storage effects all_docs]; rewrite Hread;
    cbn [fst snd storage effects all_docs caught_by existsb];
    rewrite Hinst; cbn [orb fst snd storage effects all_docs];
    repeat split.
Qed.

Lemma unreadable_topic_map_1 (n : option node) (e : exn) :
  n <> Some RegularFile ->
  load_topic_map w = Raise e ->
  isinstance e FileNotFoundError = false ->
  let r := Script1.main cfg tools w (initial n) in
  snd r = Raise e
  /\ storage (fst r) = None
  /\ all_docs (fst r) = []
  /\ world_effects (effects (fst r))
     = cleanup_trace cfg n ++ [OpenRead TOPICS_JSON_PATH].
Proof.
  intros Hn Hload Hinst. cbv zeta.
  unfold load_topic_map, mbind, result_bind in Hload.
  run_script.
  destruct n as [[| cols] |]; [congruence | |];
    cbn [fst snd storage effects all_docs];
    (destruct (fs_read w TOPICS_JSON_PATH) as [content | e'];
     [rewrite Hload | injection Hload as ->]);
    cbn [fst snd storage effects all_docs caught_by existsb];
    rewrite Hinst; cbn [orb fst snd storage effects all_docs];
    repeat split.
Qed.

Lemma missing_topics_dir_1 (n : option node) (tm : value) (e : exn) :
  n <> Some RegularFile ->
  load_topic_map w = Ok tm ->
  fs_listdir w TOPICS_BASE_PATH = Raise e ->
  let r := Script1.main cfg tools w (initial n) in
  snd r = Raise e
  /\ storage (fst r) = None
  /\ all_docs (fst r) = []
  /\ world_effects (effects (fst r))
     = cleanup_trace cfg n
       ++ [OpenRead TOPICS_JSON_PATH; ListDir TOPICS_BASE_PATH].
Proof.
  intros Hn Hload Hlist. cbv zeta.
  unfold load_topic_map, mbind, result_bind in Hload.
  run_script.
  destruct n as [[| cols] |]; [congruence | |];
    cbn [fst snd storage effects all_docs];
    (destruct (fs_read w TOPICS_JSON_PATH) as [content | e'];
     [rewrite Hload | discriminate Hload]);
    cbn [fst snd storage effects all_docs]; rewrite Hlist;
    cbn [fst snd storage effects all_docs];
    repeat split.
Qed.

Lemma plain_file_storage_1 :
  let r := Script1.main cfg tools w (initial (Some RegularFile)) in
  snd r = Raise NotADirectoryError
  /\ storage (fst r) = Some RegularFile
  /\ all_docs (fst r) = []
  /\ world_effects (effects (fst r))
     = [PathExists (DB_LOCATION cfg); RmTree (DB_LOCATION cfg)].
Proof. cbv zeta. run_script. cbn. repeat split. Qed.

End FailurePaths.

(** ** Failures before the first chunk *)

(** X6: when [data/topics.json] cannot be opened because it does not
    exist, the script prints its error and stops on [exit()]: the storage
    location is absent, no chunk was built, and the only calls made are
    the clean-up and the attempt to open the topic map. *)
Theorem missing_topic_map_exits {rt : PyRuntime} (p : script)
    (cfg : Config) (tools : Tools) (w : World) (n : option node)
    (e : exn) :
  n <> Some RegularFile ->
  load_topic_map w = Raise e ->
  isinstance e FileNotFoundError = true ->
  let r := main_of p cfg tools w (initial n) in
  snd r = Raise SystemExit
  /\ storage (fst r) = None
  /\ all_docs (fst r) = []
  /\ world_effects (effects (fst r))
     = cleanup_trace cfg n ++ [OpenRead TOPICS_JSON_PATH].
Proof.
  intros Hn Hload Hinst. cbv zeta. via_script1 p cfg tools w n.
  now apply (missing_topic_map_1 cfg tools w n e).
Qed.

Lemma missing_topic_map_exits_witness :
  let r := main_of (rt := ascii_runtime) indexing_1 sample_config
             sample_tools no_topic_map (initial (Some old_index)) in
  snd r = Raise SystemExit
  /\ storage (fst r) = None
  /\ all_docs (fst r) = []
  /\ world_effects (effects (fst r))
     = cleanup_trace sample_config (Some old_index)
       ++ [OpenRead TOPICS_JSON_PATH].
Proof.
  apply (missing_topic_map_exits (rt := ascii_runtime) indexing_1
           sample_config sample_tools no_topic_map (Some old_index)
           FileNotFoundError);
    [discriminate | vm_compute; reflexivity | vm_compute; reflexivity].
Defined.


(** X7: the handler around the loading of the topic map names
    [FileNotFoundError] only.  Any other failure to read or to decode
    [data/topics.json] (a malformed text, say) leaves the script as that
    exception, after the old index has been removed. *)
Theorem unreadable_topic_map_propagates {rt : PyRuntime} (p : script)
    (cfg : Config) (tools : Tools) (w : World) (n : option node)
    (e : exn) :
  n <> Some RegularFile ->
  load_topic_map w = Raise e ->
  isinstance e FileNotFoundError = false ->
  let r := main_of p cfg tools w (initial n) in
  snd r = Raise e
  /\ storage (fst r) = None
  /\ all_docs (fst r) = []
  /\ world_effects (effects (fst r))
     = cleanup_trace cfg n ++ [OpenRead TOPICS_JSON_PATH].
Proof.
  intros Hn Hload Hinst. cbv zeta. via_script1 p cfg tools w n.
  now apply (unreadable_topic_map_1 cfg tools w n e).
Qed.

Lemma unreadable_topic_map_propagates_witness :
  let r := main_of (rt := ascii_runtime) chunking_embedding_ingestion_2
             sample_config sample_tools broken_topic_map
             (initial (Some old_index)) in
  snd r = Raise JSONDecodeError
  /\ storage (fst r) = None
  /\ all_docs (fst r) = []
  /\ world_effects (effects (fst r))
     = cleanup_trace sample_config (Some old_index)
       ++ [OpenRead TOPICS_JSON_PATH].
Proof.
  apply (unreadable_topic_map_propagates (rt := ascii_runtime)
           chunking_embedding_ingestion_2 sample_config sample_tools
           broken_topic_map (Some old_index) JSONDecodeError);
    [discriminate | vm_compute; reflexivity | vm_compute; reflexivity].
Defined.


(** X8: listing [data/topics/] is outside every [try]: when it fails, the
    exception leaves the script, after the old index has been removed and
    before any chunk is built. *)
Theorem missing_topics_dir_propagates {rt : PyRuntime} (p : script)
    (cfg : Config) (tools : Tools) (w : World) (n : option node)
    (tm : value) (e : exn) :
  n <> Some RegularFile ->
  load_topic_map w = Ok tm ->
  fs_listdir w TOPICS_BASE_PATH = Raise e ->
  let r := main_of p cfg tools w (initial n) in
  snd r = Raise e
  /\ storage (fst r) = None
  /\ all_docs (fst r) = []
  /\ world_effects (effects (fst r))
     = cleanup_trace cfg n
       ++ [OpenRead TOPICS_JSON_PATH; ListDir TOPICS_BASE_PATH].
Proof.
  intros Hn Hload Hlist. cbv zeta. via_script1 p cfg tools w n.
  now apply (missing_topics_dir_1 cfg tools w n tm e).
Qed.

Lemma missing_topics_dir_propagates_witness :
  let r := main_of (rt := ascii_runtime) indexing_1 sample_config
             sample_tools no_topics_dir (initial None) in
  snd r = Raise FileNotFoundError
  /\ storage (fst r) = None
  /\ all_docs (fst r) = []
  /\ world_effects (effects (fst r))
     = cleanup_trace sample_config None
       ++ [OpenRead TOPICS_JSON_PATH; ListDir TOPICS_BASE_PATH].
Proof.
  apply (missing_topics_dir_propagates (rt := ascii_runtime) indexing_1
           sample_config sample_tools no_topics_dir None
           (VDict [(lit "Asthma", VInt 1)]) FileNotFoundError);
    [discriminate | vm_compute; reflexivity | vm_compute; reflexivity].
Defined.


(** X9: when the storage location is a plain file, [shutil.rmtree] raises
    [NotADirectoryError] and the script ends there: the file is still in
    place, and neither the topic map nor the corpus has been read. *)
Theorem plain_file_storage_aborts {rt : PyRuntime} (p : script)
    (cfg : Config) (tools : Tools) (w : World) :
  let r := main_of p cfg tools w (initial (Some RegularFile)) in
  snd r = Raise NotADirectoryError
  /\ storage (fst r) = Some RegularFile
  /\ all_docs (fst r) = []
  /\ world_effects (effects (fst r))
     = [PathExists (DB_LOCATION cfg); RmTree (DB_LOCATION cfg)].
Proof.
  cbv zeta. via_script1 p cfg tools w (Some RegularFile).
  apply plain_file_storage_1.
Qed.

(** ** The calls a run makes *)

Lemma startswith_app (s t p : str) :
  startswith s p = true -> startswith (s ++ t) p = true.
Proof.
  revert s; induction p as [| x p IH]; intros [| y s]; simpl;
    try (intros _; reflexivity); try discriminate.
  - intros _. now destruct t.
  - intros H. apply andb_true_iff in H as [-> H]. now apply IH.
Qed.

Lemma startswith_refl (s : str) : startswith s s = true.
Proof. induction s as [| c s IH]; simpl; [| rewrite N.eqb_refl]; auto. Qed.

Lemma endswith_app (s t p : str) :
  endswith t p = true -> endswith (s ++ t) p = true.
Proof.
  unfold endswith. rewrite rev_app_distr. apply startswith_app.
Qed.

Lemma path_join_base (d : str) :
  path_join TOPICS_BASE_PATH d = TOPICS_BASE_PATH ++ d.
Proof. reflexivity. Qed.

Lemma path_join_app (a b : str) : exists sep, path_join a b = a ++ sep ++ b.
Proof.
  unfold path_join. destruct (endswith a (lit "/")).
  - now exists [].
  - now exists (lit "/").
Qed.

Lemma startswith_topic_dir (d : str) :
  startswith (path_join TOPICS_BASE_PATH d) TOPICS_BASE_PATH = true.
Proof. rewrite path_join_base. apply startswith_app, startswith_refl. Qed.

Lemma markdown_path (d f : str) :
  endswith f (lit ".md") = true ->
  data_call (OpenRead (path_join (path_join TOPICS_BASE_PATH d) f)).
Proof.
  intros Hf. right. destruct (path_join_app (path_join TOPICS_BASE_PATH d) f)
    as [sep ->]. split.
  - apply startswith_app, startswith_topic_dir.
  - rewrite app_assoc. now apply endswith_app.
Qed.

Lemma emits_bind {A B} (P : effect -> Prop) (m : M A) (k : A -> M B) :
  emits P m -> (forall a, emits P (k a)) -> emits P (m ≫= k).
Proof.
  intros Hm Hk s. unfold mbind, M_bind.
  destruct (Hm s) as (l & Hl & HP).
  destruct (m s) as [s' [a | e]]; simpl in *.
  - destruct (Hk a s') as (l' & Hl' & HP').
    exists (l ++ l'). rewrite Hl', Hl, app_assoc. split; [reflexivity |].
    apply Forall_app. now split.
  - now exists l.
Qed.

(** A computation that leaves the calls alone. *)
Lemma emits_quiet {A} (P : effect -> Prop) (m : M A) :
  (forall s, effects (fst (m s)) = effects s) -> emits P m.
Proof.
  intros Hm s. exists []. rewrite Hm, app_nil_r. split; [reflexivity |].
  constructor.
Qed.

Lemma emits_emit (P : effect -> Prop) (e : effect) : P e -> emits P (emit e).
Proof. intros He s. exists [e]. split; [reflexivity | now constructor]. Qed.

Lemma emits_call_tool {A} (P : effect -> Prop) (o : option A) :
  emits P (call_tool o).
Proof. apply emits_quiet. now destruct o. Qed.

Lemma emits_try_except {A} (P : effect -> Prop) (m : M A)
    (classes : list exn) (h : exn -> M A) :
  emits P m -> (forall e, emits P (h e)) -> emits P (try_except m classes h).
Proof.
  intros Hm Hh s. unfold try_except.
  destruct (Hm s) as (l & Hl & HP).
  destruct (m s) as [s' [a | e]]; simpl in *; [now exists l |].
  destruct (caught_by classes e); [| now exists l].
  destruct (Hh e s') as (l' & Hl' & HP').
  exists (l ++ l'). rewrite Hl', Hl, app_assoc. split; [reflexivity |].
  apply Forall_app. now split.
Qed.

Lemma emits_for_each {A} (P : effect -> Prop) (l : list A)
    (body : A -> M unit) :
  (forall x, In x l -> emits P (body x)) -> emits P (for_each l body).
Proof.
  induction l as [| x l IH]; intros Hb; simpl.
  - now apply emits_quiet.
  - apply emits_bind; [apply Hb; now left | intros _].
    apply IH. intros y Hy. apply Hb. now right.
Qed.

Lemma emits_filter_by {A} (P : effect -> Prop) (keep : A -> M bool)
    (l : list A) :
  (forall x, emits P (keep x)) -> emits P (filter_by keep l).
Proof.
  intros Hk. induction l as [| x l IH]; simpl.
  - now apply emits_quiet.
  - apply emits_bind; [apply Hk | intros b].
    apply emits_bind; [apply IH | intros rest]. now apply emits_quiet.
Qed.

Lemma emits_preserves {A} (P : effect -> Prop) (m : M A) (cfg : Config)
    (n : option node) :
  emits P m -> (forall e, P e -> is_stdout e = false -> data_call e) ->
  preserves (framed cfg n) m.
Proof.
  intros Hm HP s (rest & Hrest & Hdata).
  destruct (Hm s) as (l & Hl & Hall).
  exists (rest ++ world_effects l).
  rewrite Hl, world_effects_app, Hrest, app_assoc. split; [reflexivity |].
  apply Forall_app. split; [assumption |].
  apply List.Forall_forall. intros e He.
  apply List.filter_In in He as [He Hout].
  rewrite List.Forall_forall in Hall. apply HP; [now apply Hall |].
  now destruct (is_stdout e).
Qed.

Create HintDb emits discriminated.
#[local] Hint Resolve emits_call_tool startswith_topic_dir : emits.
#[local] Hint Extern 1 (emits _ (emit _)) =>
  apply emits_emit;
  first [ exact I | apply startswith_topic_dir | apply startswith_refl
        | left; reflexivity ] : emits.
#[local] Hint Extern 1 (emits _ (print _)) =>
  apply emits_emit; exact I : emits.
#[local] Hint Extern 2 (emits _ _) =>
  apply emits_quiet; reflexivity : emits.

Ltac emits_step :=
  first
    [ solve [auto with emits]
    | match goal with
      | |- forall _, _ => intro
      | |- emits _ (let x := _ in _) => cbv zeta
      | |- emits _ (if ?b then _ else _) => destruct b
      | |- emits _ (match ?x with _ => _ end) => destruct x
      | |- emits _ (_ ≫= _) => apply emits_bind
      | |- emits _ (try_except _ _ _) => apply emits_try_except
      | |- emits _ (filter_by _ _) => apply emits_filter_by
      end ].

Section Calls.
Context {rt : PyRuntime}.
Variable cfg : Config.
Variable tools : Tools.
Variable w : World.

Lemma emits_load_topics : emits data_call (Script1.load_topics w).
Proof.
  unfold Script1.load_topics, read_text, lift, exit, raise.
  repeat emits_step.
Qed.

Lemma emits_process_folder (tm : value) (folder_name : str) :
  emits data_call (Script1.process_folder tools w tm folder_name).
Proof.
  unfold Script1.process_folder, listdir, lift.
  apply emits_bind; [auto with emits | intros [|]]; [| auto with emits].
  apply emits_bind; [auto with emits | intros tid]. cbv zeta.
  apply emits_bind; [auto with emits | intros _].
  apply emits_bind; [repeat emits_step | intros names].
  destruct (List.filter _ names) as [| f fs] eqn:Hfs; [auto with emits |].
  rewrite <- Hfs. apply emits_for_each. intros md_file Hin.
  apply List.filter_In in Hin as [_ Hmd].
  apply emits_try_except; [| repeat emits_step].
  unfold Script1.index_file, read_text, lift.
  apply emits_bind.
  - apply emits_bind; [| repeat emits_step].
    apply emits_emit. now apply markdown_path.
  - intros content. apply emits_bind; [auto with emits | intros chunks].
    apply emits_for_each. intros chunk _. auto with emits.
Qed.

Lemma emits_process_folders (tm : value) :
  emits data_call (Script1.process_folders tools w tm).
Proof.
  unfold Script1.process_folders, listdir, isdir, lift.
  apply emits_bind; [auto with emits | intros _].
  apply emits_bind; [auto with emits | intros _].
  apply emits_bind; [| intros entries].
  { apply emits_bind; [| repeat emits_step].
    apply emits_emit. apply startswith_refl. }
  apply emits_bind; [repeat emits_step | intros folders].
  apply emits_for_each. intros folder_name _. apply emits_process_folder.
Qed.

Lemma emits_final_report : emits data_call Script1.final_report.
Proof. unfold Script1.final_report, exit, raise. repeat emits_step. Qed.

Lemma emits_create_store :
  emits data_call (Script1.create_store cfg tools).
Proof.
  unfold Script1.create_store, from_documents, raise. repeat emits_step.
Qed.

Lemma fresh_print (n : option node) (l : line) :
  preserves (fun s => storage s = n /\ world_effects (effects s) = [])
            (print l).
Proof.
  intros s [H1 H2]. split; [exact H1 |]. simpl.
  rewrite world_effects_app, H2. reflexivity.
Qed.

Lemma clean_up_framed (n : option node) :
  hoare (fun s => storage s = n /\ world_effects (effects s) = [])
        (Script1.clean_up cfg) (fun _ s => framed cfg n s).
Proof.
  intros s [H1 H2].
  unfold Script1.clean_up, db_exists, rmtree, mbind, M_bind, print, emit,
    get_storage, set_storage, ret, raise.
  subst n. cbn [fst snd storage effects].
  destruct (storage s) as [[| cols] |]; cbn [fst snd storage effects];
    exists []; rewrite app_nil_r; (split; [| apply List.Forall_nil]);
    cbn [effects]; rewrite !world_effects_app, H2; reflexivity.
Qed.

Lemma main_framed (n : option node) :
  hoare (fun s => storage s = n /\ world_effects (effects s) = [])
        (Script1.main cfg tools w) (fun _ s => framed cfg n s).
Proof.
  unfold Script1.main, Script1.gather.
  apply hoare_bind with (Q1 := fun _ s => framed cfg n s);
    [| intros [] | auto].
  - do 2 (apply hoare_seq; [apply fresh_print | reflexivity |]).
    apply hoare_bind with (Q1 := fun _ s => framed cfg n s);
      [apply clean_up_framed | intros [] | auto].
    apply hoare_preserves, (emits_preserves data_call); [| auto].
    apply emits_bind; [apply emits_load_topics | intros tm].
    apply emits_process_folders.
  - apply hoare_preserves, (emits_preserves data_call); [| auto].
    apply emits_bind; [apply emits_final_report | intros _].
    apply emits_create_store.
Qed.

End Calls.

(** X10: the calls a run makes on the world are the clean-up, and after
    it only reads: of [data/topics.json], of directories under
    [data/topics/] and of files under it whose name ends in [.md], and
    calls to [Chroma.from_documents].  In particular nothing is removed
    after the clean-up, and nothing at all when the storage location was
    absent. *)
Theorem calls_are_framed {rt : PyRuntime} (p : script) (cfg : Config)
    (tools : Tools) (w : World) (n : option node) :
  exists rest,
    world_effects (effects (fst (main_of p cfg tools w (initial n))))
    = cleanup_trace cfg n ++ rest
    /\ Forall data_call rest.
Proof.
  via_script1 p cfg tools w n.
  apply (main_framed cfg tools w n). now split.
Qed.

(** ** The creation of the store *)

Lemma writes_app (l1 l2 : list effect) :
  writes (l1 ++ l2) = writes l1 ++ writes l2.
Proof. apply List.filter_app. Qed.

Lemma nothing_written_writes (s : state) :
  nothing_written s <-> writes (effects s) = [].
Proof.
  unfold nothing_written, writes. induction (effects s) as [| e l IH].
  - split; [reflexivity | constructor].
  - simpl. split.
    + intros H. inversion H as [| ? ? He Hl]; subst. rewrite He.
      now apply IH.
    + destruct (is_write e) eqn:He; [discriminate |].
      intros H. constructor; [assumption | now apply IH].
Qed.

Lemma bind_raise {A B} (m : M A) (k : A -> M B) (s s' : state) (e : exn) :
  m s = (s', Raise e) -> (m ≫= k) s = (s', Raise e).
Proof. intros H. unfold mbind, M_bind. now rewrite H. Qed.

Section Store.
Context {rt : PyRuntime}.
Variable cfg : Config.
Variable tools : Tools.
Variable w : World.

(** The last section of the script, from a state without storage
    location: one call to [Chroma.from_documents] on all the chunks, which
    ends as the embedding of their texts ends. *)
Lemma create_store_run (s : state) :
  storage s = None ->
  let r := Script1.create_store cfg tools s in
  all_docs (fst r) = all_docs s
  /\ writes (effects (fst r))
     = writes (effects s) ++ [FromDocuments (all_docs s)]
  /\ match embed_documents tools (map page_content (all_docs s)) with
     | Some vectors =>
         snd r = Ok tt
         /\ storage (fst r) = Some (fresh_index cfg (all_docs s) vectors)
     | None => snd r = Raise ServiceError
     end.
Proof.
  intros Hs. cbv zeta.
  unfold Script1.create_store, from_documents, mbind, M_bind, print, emit,
    get_all_docs, get_storage, set_storage, call_tool, ret, raise.
  cbn [fst snd storage all_docs effects]. rewrite Hs.
  destruct (embed_documents tools _) as [vectors |];
    cbn [fst snd storage all_docs effects];
    rewrite !writes_app; cbn [writes List.filter is_write];
    rewrite ?app_nil_r; repeat split.
Qed.

Lemma final_report_reported :
  hoare (fun s => storage_absent s /\ nothing_written s)
        Script1.final_report reported.
Proof.
  intros s [Hst Hw]. apply nothing_written_writes in Hw.
  unfold Script1.final_report, reported, mbind, M_bind, get_count,
    get_all_docs, print, emit, exit, ret, raise.
  cbn [fst snd all_docs].
  destruct (all_docs s) as [| doc docs] eqn:Hdocs;
    cbn [fst snd storage all_docs effects];
    rewrite !writes_app, Hw; cbn; repeat split; auto.
Qed.

Lemma gather_reported :
  hoare (fun s => nothing_written s) (Script1.gather cfg tools w)
        (fun r s => nothing_written s
                    /\ match r with
                       | Ok _ => storage_absent s
                       | Raise _ => True
                       end).
Proof.
  intros s Hs. split.
  - now apply preserves_gather; [typeclasses eauto .. |].
  - pose proof (gather_cleaned cfg tools w s I) as Hc.
    destruct (snd (Script1.gather cfg tools w s)) as [[] | e];
      [now apply cleaned_ok in Hc | exact I].
Qed.

(** What a whole run has written, by the way it ends. *)
Lemma main_writes (n : option node) :
  let r := Script1.main cfg tools w (initial n) in
  match snd r with
  | Ok _ =>
      all_docs (fst r) <> []
      /\ writes (effects (fst r)) = [FromDocuments (all_docs (fst r))]
      /\ exists vectors,
           embed_documents tools (map page_content (all_docs (fst r)))
           = Some vectors
           /\ storage (fst r)
              = Some (fresh_index cfg (all_docs (fst r)) vectors)
  | Raise _ =>
      writes (effects (fst r)) = []
      \/ (all_docs (fst r) <> []
          /\ writes (effects (fst r)) = [FromDocuments (all_docs (fst r))]
          /\ embed_documents tools (map page_content (all_docs (fst r)))
             = None)
  end.
Proof.
  cbv zeta. unfold Script1.main.
  assert (H0 : nothing_written (initial n)) by constructor.
  pose proof (gather_reported (initial n) H0) as [Hw Hst].
  destruct (Script1.gather cfg tools w (initial n)) as [s1 [[] | e]] eqn:Hg;
    cbn [fst snd] in *.
  2: { rewrite (bind_raise _ _ _ _ _ Hg). left.
       now apply nothing_written_writes. }
  rewrite (bind_ok _ _ _ _ _ Hg).
  pose proof (final_report_reported s1 (conj Hst Hw)) as [Hw2 Hr].
  destruct (Script1.final_report s1) as [s2 [[] | e]] eqn:Hf;
    cbn [fst snd] in *.
  2: { rewrite (bind_raise _ _ _ _ _ Hf). now left. }
  rewrite (bind_ok _ _ _ _ _ Hf).
  destruct Hr as [Hst2 Hdocs2].
  destruct (create_store_run s2 Hst2) as (Hd & Hwr & Hend).
  rewrite Hw2 in Hwr. cbn [app] in Hwr.
  destruct (embed_documents tools (map page_content (all_docs s2)))
    as [vectors |] eqn:Hemb.
  - destruct Hend as [Hres Hstore]. rewrite Hres, Hd, Hwr.
    repeat split; [assumption |]. exists vectors. now rewrite Hemb.
  - rewrite Hend, Hd, Hwr. right. now rewrite Hemb.
Qed.

End Store.

(** ** What the loops build *)

Lemma builds_bind {A} (g : list Document) (c : nat) (m : M A)
    (k : A -> M unit) (R : A -> Prop) :
  keeps_data m ->
  (forall s a, snd (m s) = Ok a -> R a) ->
  (forall a, R a -> builds g c (k a)) ->
  builds g c (m ≫= k).
Proof.
  intros Hm HR Hk s. unfold mbind, M_bind.
  destruct (Hm s) as [Hd Hc]. specialize (HR s).
  destruct (m s) as [s' [a | e]]; cbn [fst snd] in *; [| discriminate].
  intros Hres. destruct (Hk a (HR a eq_refl) s' Hres) as [Hd' Hc'].
  now rewrite Hd', Hc', Hd, Hc.
Qed.

Lemma builds_seq (g1 g2 : list Document) (c1 c2 : nat) (m1 m2 : M unit) :
  builds g1 c1 m1 -> builds g2 c2 m2 ->
  builds (g1 ++ g2) (c1 + c2) (m1;; m2).
Proof.
  intros H1 H2 s. unfold mbind, M_bind. specialize (H1 s).
  destruct (m1 s) as [s' [[] | e]]; cbn [fst snd] in *; [| discriminate].
  intros Hres. destruct (H1 eq_refl) as [Hd Hc].
  destruct (H2 s' Hres) as [Hd' Hc'].
  rewrite Hd', Hc', Hd, Hc, app_assoc. split; [reflexivity | lia].
Qed.

Lemma builds_keeps (m : M unit) : keeps_data m -> builds [] 0 m.
Proof.
  intros Hm s _. destruct (Hm s) as [-> ->].
  rewrite app_nil_r. split; [reflexivity | lia].
Qed.

Lemma builds_for_each {A} (g : A -> list Document) (c : A -> nat)
    (l : list A) (body : A -> M unit) :
  (forall x, In x l -> builds (g x) (c x) (body x)) ->
  builds (flat_map g l) (list_sum (map c l)) (for_each l body).
Proof.
  induction l as [| x l IH]; intros Hb; simpl.
  - now apply builds_keeps.
  - apply builds_seq; [apply Hb; now left |].
    apply IH. intros y Hy. apply Hb. now right.
Qed.

Lemma keeps_data_emit (e : effect) : keeps_data (emit e).
Proof. intros s. split; reflexivity. Qed.

Lemma keeps_data_pure {A} (m : M A) :
  (forall s, fst (m s) = s) -> keeps_data m.
Proof. intros Hm s. now rewrite Hm. Qed.

Lemma keeps_data_bind {A B} (m : M A) (k : A -> M B) :
  keeps_data m -> (forall a, keeps_data (k a)) -> keeps_data (m ≫= k).
Proof.
  intros Hm Hk s. unfold mbind, M_bind. destruct (Hm s) as [Hd Hc].
  destruct (m s) as [s' [a | e]]; cbn [fst snd] in *; [| now split].
  destruct (Hk a s') as [-> ->]. now split.
Qed.

Lemma keeps_data_filter_by {A} (keep : A -> M bool) (l : list A) :
  (forall x, keeps_data (keep x)) -> keeps_data (filter_by keep l).
Proof.
  intros Hk. induction l as [| x l IH]; simpl.
  - now apply keeps_data_pure.
  - apply keeps_data_bind; [apply Hk | intros b].
    apply keeps_data_bind; [apply IH | intros rest].
    now apply keeps_data_pure.
Qed.

Lemma for_each_append (f : str -> Document) (chunks : list str) :
  builds (map f chunks) 0 (for_each chunks (fun c => append_doc (f c))).
Proof.
  replace (map f chunks) with (flat_map (fun c => [f c]) chunks)
    by (induction chunks; simpl; congruence).
  replace 0%nat with (list_sum (map (fun _ : str => 0%nat) chunks))
    by (induction chunks; simpl; congruence).
  apply builds_for_each. intros c _ s _. split; [reflexivity |]. simpl. lia.
Qed.

Lemma for_each_append_ok (f : str -> Document) (chunks : list str)
    (s : state) :
  snd (for_each chunks (fun c => append_doc (f c)) s) = Ok tt.
Proof.
  revert s. induction chunks as [| c chunks IH]; intros s; [reflexivity |].
  simpl. unfold mbind, M_bind. cbn [append_doc fst snd]. apply IH.
Qed.

Section Loops.
Context {rt : PyRuntime}.
Variable cfg : Config.
Variable tools : Tools.
Variable w : World.

Lemma listdir_result (path : str) (s : state) (names : list str) :
  snd (listdir w path s) = Ok names -> fs_listdir w path = Ok names.
Proof. unfold listdir, mbind, M_bind, emit, lift. cbn. auto. Qed.

Lemma keeps_data_listdir (path : str) : keeps_data (listdir w path).
Proof.
  unfold listdir. apply keeps_data_bind; [apply keeps_data_emit | intros _].
  now apply keeps_data_pure.
Qed.

(** The [try] statement around one markdown file. *)
Lemma index_file_builds (folder_name md_file : str) (tid : value)
    (h : exn -> M unit) :
  (forall e, keeps_data (h e)) ->
  builds (file_chunks tools w folder_name tid md_file) 0
    (try_except
       (Script1.index_file tools w folder_name md_file
          (path_join (path_join TOPICS_BASE_PATH folder_name) md_file) tid)
       [Exception] h).
Proof.
  intros Hh s. unfold file_chunks.
  unfold try_except, Script1.index_file, read_text, mbind, M_bind, emit,
    lift, call_tool, ret, raise.
  cbn [fst snd].
  destruct (fs_read w _) as [content | e].
  - destruct (split_text tools content) as [chunks |].
    + pose proof (for_each_append
                    (fun chunk => make_doc chunk md_file folder_name tid)
                    chunks) as Hb.
      match goal with
      | |- context [for_each chunks ?body ?s0] =>
          specialize (Hb s0);
          pose proof (for_each_append_ok
                        (fun chunk => make_doc chunk md_file folder_name tid)
                        chunks s0) as Hok;
          destruct (for_each chunks body s0) as [s' r]
      end.
      cbn [fst snd] in *. subst r. intros _. now apply Hb.
    + cbn [caught_by existsb isinstance exn_eqb base_class orb fst snd].
      intros Hres. destruct (Hh ServiceError
        {| storage := storage s;
           effects := effects s ++ [OpenRead (path_join (path_join
                        TOPICS_BASE_PATH folder_name) md_file)];
           all_docs := all_docs s;
           processed_topics_count := processed_topics_count s |})
        as [Hd Hc].
      cbn [all_docs processed_topics_count] in Hd, Hc.
      rewrite Hd, Hc, app_nil_r. split; [reflexivity | lia].
  - cbn [fst snd]. destruct (caught_by [Exception] e); cbn [fst snd];
      [| discriminate].
    intros Hres. destruct (Hh e
        {| storage := storage s;
           effects := effects s ++ [OpenRead (path_join (path_join
                        TOPICS_BASE_PATH folder_name) md_file)];
           all_docs := all_docs s;
           processed_topics_count := processed_topics_count s |})
        as [Hd Hc].
    cbn [all_docs processed_topics_count] in Hd, Hc.
    rewrite Hd, Hc, app_nil_r. split; [reflexivity | lia].
Qed.

Lemma builds_seq_eq (g g1 g2 : list Document) (c c1 c2 : nat)
    (m1 m2 : M unit) :
  builds g1 c1 m1 -> builds g2 c2 m2 ->
  g = g1 ++ g2 -> c = (c1 + c2)%nat ->
  builds g c (m1;; m2).
Proof. intros H1 H2 -> ->. now apply builds_seq. Qed.

Lemma builds_lift_raise {A} (g : list Document) (c : nat) (e : exn)
    (k : A -> M unit) :
  builds g c (lift (Raise e) ≫= k).
Proof. intros s. unfold mbind, M_bind, lift. discriminate. Qed.

Lemma builds_lift_ok {A} (g : list Document) (c : nat) (a : A)
    (k : A -> M unit) :
  builds g c (k a) -> builds g c (lift (Ok a) ≫= k).
Proof. intros Hk s. unfold mbind, M_bind, lift. apply Hk. Qed.

Lemma list_sum_zero {A} (l : list A) :
  list_sum (map (fun _ => 0%nat) l) = 0%nat.
Proof. induction l; simpl; auto. Qed.

(** The body of the loop over the topic folders. *)
Lemma process_folder_builds (tm : value) (folder_name : str) :
  builds (folder_chunks tools w tm folder_name)
         (if known tm folder_name then 1 else 0)
         (Script1.process_folder tools w tm folder_name).
Proof.
  unfold Script1.process_folder, folder_chunks, known.
  destruct (py_contains tm folder_name) as [[|] | e];
    [| apply builds_lift_ok, builds_keeps, keeps_data_emit
     | apply builds_lift_raise].
  apply builds_lift_ok.
  destruct (py_getitem tm folder_name) as [tid | e];
    [| apply builds_lift_raise].
  apply builds_lift_ok. cbv zeta.
  apply builds_seq_eq
    with (g1 := []) (c1 := 1%nat) (c2 := 0%nat)
         (g2 := match fs_listdir w (path_join TOPICS_BASE_PATH folder_name)
                with
                | Ok names =>
                    flat_map (file_chunks tools w folder_name tid)
                             (markdown_files names)
                | Raise _ => []
                end);
    [| | reflexivity | reflexivity].
  { intros s _. split; [now rewrite app_nil_r | simpl; lia]. }
  apply builds_bind
    with (R := fun names =>
                 fs_listdir w (path_join TOPICS_BASE_PATH folder_name)
                 = Ok names);
    [apply keeps_data_listdir | intros s names; apply listdir_result |].
  intros names ->. fold (markdown_files names).
  destruct (markdown_files names) as [| f fs] eqn:Hmd;
    [apply builds_keeps, keeps_data_emit |].
  rewrite <- Hmd. rewrite <- (list_sum_zero (markdown_files names)).
  apply builds_for_each. intros md_file _.
  apply index_file_builds. intros e. apply keeps_data_emit.
Qed.

Lemma list_sum_known (tm : value) (dirs : list str) :
  list_sum (map (fun d => if known tm d then 1 else 0)%nat dirs)
  = length (List.filter (known tm) dirs).
Proof.
  induction dirs as [| d dirs IH]; [reflexivity |]. simpl.
  destruct (known tm d); simpl; lia.
Qed.

Lemma filter_by_isdir (entries : list str) (s : state) :
  snd (filter_by (fun d => isdir w (path_join TOPICS_BASE_PATH d)) entries s)
  = Ok (List.filter (fun d => fs_isdir w (path_join TOPICS_BASE_PATH d))
                    entries).
Proof.
  revert s. induction entries as [| d entries IH]; intros s; [reflexivity |].
  cbn [filter_by List.filter].
  unfold mbind at 1. unfold M_bind, isdir at 1.
  unfold mbind at 1. unfold M_bind, emit, ret. cbn [fst snd].
  unfold mbind at 1. unfold M_bind.
  match goal with
  | |- context [filter_by ?keep entries ?s0] =>
      specialize (IH s0); destruct (filter_by keep entries s0) as [s' r]
  end.
  cbn [fst snd] in *. subst r. cbn [fst snd].
  now destruct (fs_isdir w _).
Qed.

Lemma keeps_data_isdir (path : str) : keeps_data (isdir w path).
Proof.
  unfold isdir. apply keeps_data_bind; [apply keeps_data_emit | intros _].
  now apply keeps_data_pure.
Qed.

(** Section 5 of the script, whatever was accumulated before. *)
Lemma process_folders_builds (tm : value) (s : state) :
  snd (Script1.process_folders tools w tm s) = Ok tt ->
  all_docs (fst (Script1.process_folders tools w tm s))
  = corpus_chunks tools w tm
  /\ processed_topics_count (fst (Script1.process_folders tools w tm s))
     = length (known_dirs w tm).
Proof.
  unfold Script1.process_folders, corpus_chunks, known_dirs, topic_dirs.
  fold (known tm).
  unfold mbind at 1 2. unfold M_bind, print, emit, reset_accumulators.
  cbn [fst snd].
  assert (Hb : builds
                 (match fs_listdir w TOPICS_BASE_PATH with
                  | Ok entries =>
                      flat_map (folder_chunks tools w tm)
                        (List.filter
                           (fun d => fs_isdir w (path_join TOPICS_BASE_PATH d))
                           entries)
                  | Raise _ => []
                  end)
                 (length
                    (List.filter (known tm)
                       match fs_listdir w TOPICS_BASE_PATH with
                       | Ok entries =>
                           List.filter
                             (fun d => fs_isdir w
                                         (path_join TOPICS_BASE_PATH d))
                             entries
                       | Raise _ => []
                       end))
                 (entries ← listdir w TOPICS_BASE_PATH;
                  topic_folders ←
                    filter_by
                      (fun d => isdir w (path_join TOPICS_BASE_PATH d))
                      entries;
                  for_each topic_folders
                           (Script1.process_folder tools w tm))).
  { apply builds_bind
      with (R := fun entries => fs_listdir w TOPICS_BASE_PATH = Ok entries);
      [apply keeps_data_listdir | intros s' a; apply listdir_result |].
    intros entries ->.
    apply builds_bind
      with (R := fun dirs =>
                   dirs = List.filter
                            (fun d => fs_isdir w
                                        (path_join TOPICS_BASE_PATH d))
                            entries).
    - apply keeps_data_filter_by. intros d. apply keeps_data_isdir.
    - intros s' dirs Hres. rewrite filter_by_isdir in Hres. congruence.
    - intros dirs ->. rewrite <- list_sum_known.
      apply builds_for_each. intros d _. apply process_folder_builds. }
  intros Hres. apply Hb in Hres. destruct Hres as [Hd Hc].
  cbn [all_docs processed_topics_count app] in Hd, Hc.
  split; (etransitivity; [eassumption |]);
    now destruct (fs_listdir w TOPICS_BASE_PATH).
Qed.

End Loops.

(** ** What a run that returns has indexed *)

Lemma bind_inv {A B} (m : M A) (k : A -> M B) (s : state) (b : B) :
  snd ((m ≫= k) s) = Ok b ->
  exists a, snd (m s) = Ok a /\ (m ≫= k) s = k a (fst (m s)).
Proof.
  unfold mbind, M_bind. destruct (m s) as [s' [a | e]]; cbn [fst snd];
    [| discriminate].
  intros _. now exists a.
Qed.

Lemma writes_world_effects (l : list effect) :
  writes (world_effects l) = writes l.
Proof.
  unfold writes, world_effects. induction l as [| e l IH]; [reflexivity |].
  destruct e; simpl; congruence.
Qed.

Section Corpus.
Context {rt : PyRuntime}.
Variable cfg : Config.
Variable tools : Tools.
Variable w : World.

Lemma gather_builds (s : state) :
  snd (Script1.gather cfg tools w s) = Ok tt ->
  exists tm,
    load_topic_map w = Ok tm
    /\ all_docs (fst (Script1.gather cfg tools w s))
       = corpus_chunks tools w tm
    /\ processed_topics_count (fst (Script1.gather cfg tools w s))
       = length (known_dirs w tm).
Proof.
  unfold Script1.gather. intros H.
  apply bind_inv in H as H1. destruct H1 as ([] & _ & E1).
  rewrite E1 in *. clear E1.
  apply bind_inv in H as H1. destruct H1 as ([] & _ & E1).
  rewrite E1 in *. clear E1.
  apply bind_inv in H as H1. destruct H1 as ([] & _ & E1).
  rewrite E1 in *. clear E1.
  apply bind_inv in H as H1. destruct H1 as (tm & Hload & E1).
  rewrite E1 in *. clear E1.
  exists tm. split.
  - apply loaded_iff. revert Hload. apply load_topics_loaded.
  - now apply process_folders_builds.
Qed.




End Corpus.

(** X11: when the loop over the topic folders completes, the chunks built
    are those of the markdown files of the directories of [data/topics/]
    that the topic map knows, folder by folder and file by file in the
    order of the listings, with a file that cannot be read or split giving
    none; and the count of processed folders is the number of directories
    the topic map knows. *)
Theorem gathered_chunks_are_corpus_chunks {rt : PyRuntime} (p : script)
    (cfg : Config) (tools : Tools) (w : World) (n : option node) :
  let r := gather_of p cfg tools w (initial n) in
  snd r = Ok tt ->
  exists tm,
    load_topic_map w = Ok tm
    /\ all_docs (fst r) = corpus_chunks tools w tm
    /\ processed_topics_count (fst r) = length (known_dirs w tm).
Proof.
  cbv zeta.
  destruct (gather_of_observed p cfg tools w n)
    as [(_ & _ & Hdocs & Hcnt) Hres].
  rewrite <- Hdocs, <- Hcnt, <- Hres. apply gather_builds.
Qed.

Lemma gathered_chunks_are_corpus_chunks_witness :
  let r := gather_of (rt := ascii_runtime) chunking_embedding_ingestion_2
             sample_config sample_tools small_corpus
             (initial (Some old_index)) in
  exists tm,
    load_topic_map (rt := ascii_runtime) small_corpus = Ok tm
    /\ all_docs (fst r) = corpus_chunks sample_tools small_corpus tm
    /\ processed_topics_count (fst r) = length (known_dirs small_corpus tm).
Proof.
  apply (gathered_chunks_are_corpus_chunks (rt := ascii_runtime)
           chunking_embedding_ingestion_2 sample_config sample_tools
           small_corpus (Some old_index)).
  vm_compute. reflexivity.
Defined.





(** X13: however a run ends, [Chroma.from_documents] is called at most
    once, and then on all the chunks built, of which there is at least
    one. *)
Theorem store_created_at_most_once {rt : PyRuntime} (p : script)
    (cfg : Config) (tools : Tools) (w : World) (n : option node) :
  let s := fst (main_of p cfg tools w (initial n)) in
  writes (world_effects (effects s)) = []
  \/ (all_docs s <> []
      /\ writes (world_effects (effects s)) = [FromDocuments (all_docs s)]).
Proof.
  cbv zeta. via_script1 p cfg tools w n.
  rewrite writes_world_effects.
  pose proof (main_writes cfg tools w n) as Hw. cbv zeta in Hw.
  destruct (snd (Script1.main cfg tools w (initial n))).
  - right. now destruct Hw as (? & ? & _).
  - destruct Hw as [Hw | (? & ? & _)]; [now left | now right].
Qed.

(** X14: a topic map that is valid JSON but not an object never yields a
    chunk: the run does not complete and [Chroma.from_documents] is not
    called. *)
Theorem non_object_topic_map_indexes_nothing {rt : PyRuntime}
    (p : script) (cfg : Config) (tools : Tools) (w : World)
    (n : option node) (tm : value) :
  load_topic_map w = Ok tm ->
  (forall d, tm <> VDict d) ->
  let r := main_of p cfg tools w (initial n) in
  all_docs (fst r) = []
  /\ writes (world_effects (effects (fst r))) = []
  /\ snd r <> Ok tt.
Proof.
  intros Hload Hnd. cbv zeta. via_script1 p cfg tools w n.
  rewrite writes_world_effects.
  assert (Hdocs : all_docs (fst (Script1.main cfg tools w (initial n))) = []).
  { destruct (main_chunks_sound cfg tools w (initial n) eq_refl)
      as [H | (tm' & Hl & Hm)]; [exact H |].
    apply loaded_iff in Hl. rewrite Hload in Hl. injection Hl as <-.
    unfold docs_mapped in Hm.
    destruct (all_docs _) as [| doc docs]; [reflexivity |].
    apply Forall_inv in Hm. destruct Hm as (d & -> & _).
    now destruct (Hnd d). }
  pose proof (main_writes cfg tools w n) as Hw. cbv zeta in Hw.
  split; [exact Hdocs |].
  destruct (snd (Script1.main cfg tools w (initial n))) as [[] | e].
  - now destruct Hw as (Hne & _).
  - split; [| discriminate].
    destruct Hw as [Hw | (Hne & _)]; [exact Hw | contradiction].
Qed.

Lemma non_object_topic_map_indexes_nothing_witness :
  let r := main_of (rt := ascii_runtime) indexing_1 sample_config
             sample_tools list_topic_map (initial None) in
  all_docs (fst r) = []
  /\ writes (world_effects (effects (fst r))) = []
  /\ snd r <> Ok tt.
Proof.
  apply (non_object_topic_map_indexes_nothing (rt := ascii_runtime)
           indexing_1 sample_config sample_tools list_topic_map None
           (VList [VStr (lit "Asthma")]));
    [vm_compute; reflexivity | intros d; discriminate].
Defined.
